(** * Black Magic Debug: STM32L0/L1 and LPC546xx flash drivers

    A shallow embedding of [src/target/stm32l0.c] and of the LPC546xx
    driver.  The debug transport, the ROM call helpers of [lpc_common.c],
    the allocator and libc's [strtoul] are outside these two files: they are
    abstracted by a [platform] record whose operations act on an opaque
    platform state.  Every driver function is a computation over that state
    that also emits the list of the calls it made, in program order, so that
    properties such as "the control register is locked again" or "no
    register is touched" are properties of the emitted trace.

    Left out: debug logging ([DEBUG_ERROR]), the deadline set by
    [platform_timeout_set] (only the progress reports it drives are kept),
    [stm32l0_detach], and the LPC546xx commands [read_partid], [read_uid]
    and [reset]. *)

From Stdlib Require Import ZArith List String Ascii Bool Lia.
Import ListNotations.
Open Scope Z_scope.

(** ** Machine integers *)

(** [uint32_t] arithmetic wraps modulo 2^32. *)
Definition wrap32 (x : Z) : Z := x mod 2 ^ 32.
Definition wrap16 (x : Z) : Z := x mod 2 ^ 16.
Definition wrap8 (x : Z) : Z := x mod 2 ^ 8.

(** [size_t] on the probe (a 32-bit Cortex-M) is 32 bits wide. *)
Definition wrap_size (x : Z) : Z := x mod 2 ^ 32.

(** [~x] on a [uint32_t]. *)
Definition not32 (x : Z) : Z := wrap32 (Z.lnot x).

(** ** Calls made by the drivers *)

Inductive arg : Type :=
| ArgZ (z : Z)
| ArgS (s : string).

Inductive event : Type :=
| Read32 (addr val : Z)             (* target_mem32_read32: value returned *)
| Read16 (addr val : Z)             (* target_mem32_read16 *)
| Write32 (addr val : Z)            (* target_mem32_write32 *)
| Write16 (addr val : Z)            (* target_mem32_write16 *)
| Write8 (addr val : Z)             (* target_mem32_write8 *)
| WriteBuf (addr : Z) (data : list Z) (* target_mem32_write of a byte buffer *)
| CheckError (err : bool)           (* target_check_error *)
| Progress                          (* target_print_progress *)
| Printf (fmt : string) (args : list arg) (* tc_printf; PRIx32 is written x *)
| Calloc (ok : bool)                (* calloc; ok = non-NULL *)
| TargetReset                       (* target_reset *)
| HaltResume (step : bool)          (* target_halt_resume(t, step) *)
| CortexmAttach (ok : bool)         (* cortexm_attach *)
| LpcFlashErase (addr len : Z) (ok : bool)  (* lpc_flash_erase *)
| LpcFlashWriteMagicVect (addr : Z) (data : list Z) (ok : bool).

(** Accesses to the memory space of the target through the debug transport. *)
Definition is_mem_access (e : event) : bool :=
  match e with
  | Read32 _ _ | Read16 _ _ | Write32 _ _ | Write16 _ _ | Write8 _ _
  | WriteBuf _ _ => true
  | _ => false
  end.

(** The 32-bit writes of a trace, in order. *)
Fixpoint writes32 (tr : list event) : list (Z * Z) :=
  match tr with
  | [] => []
  | Write32 a v :: tr' => (a, v) :: writes32 tr'
  | _ :: tr' => writes32 tr'
  end.

(** The values written to one register, in order. *)
Definition writes_to (reg : Z) (tr : list event) : list Z :=
  map snd (filter (fun av => fst av =? reg) (writes32 tr)).

(** ** The platform the drivers run on *)

Record platform (P : Type) : Type := {
  mem32_read32 : Z -> P -> Z * P;
  mem32_read16 : Z -> P -> Z * P;
  (* the write primitives return [true] on a transport error *)
  mem32_write32 : Z -> Z -> P -> bool * P;
  mem32_write16 : Z -> Z -> P -> bool * P;
  mem32_write8 : Z -> Z -> P -> bool * P;
  mem32_write : Z -> list Z -> P -> bool * P;
  check_error : P -> bool * P;
  calloc : P -> bool * P;
  sys_reset : P -> P;
  halt_resume : bool -> P -> P;
  attach : P -> bool * P;
  (* lpc_common.c *)
  flash_erase_rom : Z -> Z -> P -> bool * P;
  flash_write_magic_vect_rom : Z -> list Z -> P -> bool * P;
  (* libc *)
  strtoul : string -> Z
}.

Arguments mem32_read32 {P}.
Arguments mem32_read16 {P}.
Arguments mem32_write32 {P}.
Arguments mem32_write16 {P}.
Arguments mem32_write8 {P}.
Arguments mem32_write {P}.
Arguments check_error {P}.
Arguments calloc {P}.
Arguments sys_reset {P}.
Arguments halt_resume {P}.
Arguments attach {P}.
Arguments flash_erase_rom {P}.
Arguments flash_write_magic_vect_rom {P}.
Arguments strtoul {P}.

(** ** Computations *)

(** A run either returns, or stops: a loop that has not finished when the
    fuel is used up (the model of a loop that keeps polling), or a
    dereference of a null pointer. *)
Inductive stop : Type := OutOfFuel | NullDeref.

Inductive res (P A : Type) : Type :=
| Done (a : A) (p : P) (tr : list event)
| Stop (s : stop) (p : P) (tr : list event).

Arguments Done {P A}.
Arguments Stop {P A}.

Definition M (P A : Type) : Type := P -> res P A.

Definition ret {P A} (a : A) : M P A := fun p => Done a p [].

(** [prepend tr r]: the run [r] seen after the calls [tr] were made. *)
Definition prepend {P A} (tr1 : list event) (r : res P A) : res P A :=
  match r with
  | Done a p tr2 => Done a p (tr1 ++ tr2)
  | Stop s p tr2 => Stop s p (tr1 ++ tr2)
  end.

Definition bind {P A B} (m : M P A) (k : A -> M P B) : M P B :=
  fun p =>
    match m p with
    | Done a p1 tr1 => prepend tr1 (k a p1)
    | Stop s p1 tr1 => Stop s p1 tr1
    end.

Definition halt {P A} (s : stop) : M P A := fun p => Stop s p [].

Declare Scope drv_scope.
Delimit Scope drv_scope with drv.
Notation "x <- m ;; k" := (bind m (fun x => k))
  (at level 61, m at next level, right associativity) : drv_scope.
Notation "m ;; k" := (bind m (fun _ => k))
  (at level 61, right associativity) : drv_scope.
Open Scope drv_scope.

(** The calls a run made, whether it returned or not. *)
Definition trace {P A} (r : res P A) : list event :=
  match r with
  | Done _ _ tr => tr
  | Stop _ _ tr => tr
  end.

Definition final {P A} (r : res P A) : P :=
  match r with
  | Done _ p _ => p
  | Stop _ p _ => p
  end.

Definition returned {P A} (r : res P A) : option A :=
  match r with
  | Done a _ _ => Some a
  | Stop _ _ _ => None
  end.

(** ** The target object *)

(** The functions a target or a flash region points to. *)
Inductive erase_fn : Type :=
| stm32lx_flash_erase_fn | stm32lx_eeprom_erase_fn | lpc546xx_flash_erase_fn.

Inductive write_fn : Type :=
| stm32lx_flash_write_fn | stm32lx_eeprom_write_fn | lpc_flash_write_magic_vect_fn.

Inductive attach_fn : Type :=
| cortexm_attach_fn | stm32l0_attach_fn | stm32lx_protected_attach_fn.

Inductive detach_fn : Type :=
| stm32l0_detach_fn.

Inductive mass_erase_fn : Type :=
| stm32lx_mass_erase_fn | stm32lx_protected_mass_erase_fn | lpc546xx_mass_erase_fn.

Record target_flash : Type := {
  start : Z;
  length : Z;
  blocksize : Z;
  writesize : Z;
  erase : option erase_fn;
  write : option write_fn
}.

Record target : Type := {
  part_id : Z;
  driver : string;
  attach_op : option attach_fn;
  detach_op : option detach_fn;
  mass_erase : option mass_erase_fn;
  flash : list target_flash;
  ram : list (Z * Z);
  commands : list string;
  target_storage : option string;
  inhibit_nrst : bool
}.

Definition set_part_id (t : target) (v : Z) : target :=
  {| part_id := v; driver := driver t; attach_op := attach_op t;
     detach_op := detach_op t; mass_erase := mass_erase t;
     flash := flash t; ram := ram t; commands := commands t;
     target_storage := target_storage t; inhibit_nrst := inhibit_nrst t |}.

Definition set_driver (t : target) (v : string) : target :=
  {| part_id := part_id t; driver := v; attach_op := attach_op t;
     detach_op := detach_op t; mass_erase := mass_erase t;
     flash := flash t; ram := ram t; commands := commands t;
     target_storage := target_storage t; inhibit_nrst := inhibit_nrst t |}.

Definition set_attach (t : target) (v : attach_fn) : target :=
  {| part_id := part_id t; driver := driver t; attach_op := Some v;
     detach_op := detach_op t; mass_erase := mass_erase t;
     flash := flash t; ram := ram t; commands := commands t;
     target_storage := target_storage t; inhibit_nrst := inhibit_nrst t |}.

Definition set_detach (t : target) (v : detach_fn) : target :=
  {| part_id := part_id t; driver := driver t; attach_op := attach_op t;
     detach_op := Some v; mass_erase := mass_erase t;
     flash := flash t; ram := ram t; commands := commands t;
     target_storage := target_storage t; inhibit_nrst := inhibit_nrst t |}.

Definition set_mass_erase (t : target) (v : mass_erase_fn) : target :=
  {| part_id := part_id t; driver := driver t; attach_op := attach_op t;
     detach_op := detach_op t; mass_erase := Some v;
     flash := flash t; ram := ram t; commands := commands t;
     target_storage := target_storage t; inhibit_nrst := inhibit_nrst t |}.

Definition set_target_storage (t : target) (v : string) : target :=
  {| part_id := part_id t; driver := driver t; attach_op := attach_op t;
     detach_op := detach_op t; mass_erase := mass_erase t;
     flash := flash t; ram := ram t; commands := commands t;
     target_storage := Some v; inhibit_nrst := inhibit_nrst t |}.

Definition set_inhibit_nrst (t : target) : target :=
  {| part_id := part_id t; driver := driver t; attach_op := attach_op t;
     detach_op := detach_op t; mass_erase := mass_erase t;
     flash := flash t; ram := ram t; commands := commands t;
     target_storage := target_storage t; inhibit_nrst := true |}.

(** Modelled from the spec: [target_add_flash], [target_add_ram32] and
    [target_add_commands] live in target.c; the registry "appends a
    non-overlapping region to the target's list". *)
Definition target_add_flash (t : target) (f : target_flash) : target :=
  {| part_id := part_id t; driver := driver t; attach_op := attach_op t;
     detach_op := detach_op t; mass_erase := mass_erase t;
     flash := flash t ++ [f]; ram := ram t; commands := commands t;
     target_storage := target_storage t; inhibit_nrst := inhibit_nrst t |}.

Definition target_add_ram32 (t : target) (addr len : Z) : target :=
  {| part_id := part_id t; driver := driver t; attach_op := attach_op t;
     detach_op := detach_op t; mass_erase := mass_erase t;
     flash := flash t; ram := ram t ++ [(addr, len)]; commands := commands t;
     target_storage := target_storage t; inhibit_nrst := inhibit_nrst t |}.

Definition target_add_commands (t : target) (cmds : list string) : target :=
  {| part_id := part_id t; driver := driver t; attach_op := attach_op t;
     detach_op := detach_op t; mass_erase := mass_erase t;
     flash := flash t; ram := ram t; commands := commands t ++ cmds;
     target_storage := target_storage t; inhibit_nrst := inhibit_nrst t |}.

(** ** stm32l0.c: constants *)

Definition STM32Lx_FLASH_BANK_BASE : Z := 0x08000000.
Definition STM32L0_FLASH_BANK_SIZE : Z := 0x00010000.
Definition STM32L0_FLASH_PAGE_SIZE : Z := 0x00000080.
Definition STM32Lx_EEPROM_BASE : Z := 0x08080000.
Definition STM32Lx_SRAM_BASE : Z := 0x20000000.
Definition STM32L0_SRAM_SIZE : Z := 0x00005000.

Definition STM32Lx_FLASH_PECR (flash_base : Z) : Z := wrap32 (flash_base + 0x04).
Definition STM32Lx_FLASH_PEKEYR (flash_base : Z) : Z := wrap32 (flash_base + 0x0c).
Definition STM32Lx_FLASH_PRGKEYR (flash_base : Z) : Z := wrap32 (flash_base + 0x10).
Definition STM32Lx_FLASH_OPTKEYR (flash_base : Z) : Z := wrap32 (flash_base + 0x14).
Definition STM32Lx_FLASH_SR (flash_base : Z) : Z := wrap32 (flash_base + 0x18).
Definition STM32Lx_FLASH_OPTR (flash_base : Z) : Z := wrap32 (flash_base + 0x1c).

Definition STM32L0_FLASH_BASE : Z := 0x40022000.
Definition STM32L0_FLASH_OPT_SIZE : Z := 12.
Definition STM32L0_FLASH_EEPROM_CAT1_SIZE : Z := 512.
Definition STM32L0_FLASH_EEPROM_CAT2_SIZE : Z := 1024.
Definition STM32L0_FLASH_EEPROM_CAT3_SIZE : Z := 2048.
Definition STM32L0_FLASH_EEPROM_CAT5_SIZE : Z := 6144.

Definition STM32L1_FLASH_BASE : Z := 0x40023c00.
Definition STM32L1_FLASH_OPT_SIZE : Z := 32.
Definition STM32L1_FLASH_EEPROM_SIZE : Z := 16384.

Definition STM32Lx_FLASH_OPT_BASE : Z := 0x1ff80000.
Definition STM32Lx_FLASH_EEPROM_BASE : Z := 0x08080000.

Definition STM32Lx_FLASH_PEKEY1 : Z := 0x89abcdef.
Definition STM32Lx_FLASH_PEKEY2 : Z := 0x02030405.
Definition STM32Lx_FLASH_PRGKEY1 : Z := 0x8c9daebf.
Definition STM32Lx_FLASH_PRGKEY2 : Z := 0x13141516.
Definition STM32Lx_FLASH_OPTKEY1 : Z := 0xfbead9c8.
Definition STM32Lx_FLASH_OPTKEY2 : Z := 0x24252627.

Definition STM32Lx_FLASH_PECR_OBL_LAUNCH : Z := Z.shiftl 1 18.
Definition STM32Lx_FLASH_PECR_FPRG : Z := Z.shiftl 1 10.
Definition STM32Lx_FLASH_PECR_ERASE : Z := Z.shiftl 1 9.
Definition STM32Lx_FLASH_PECR_FIX : Z := Z.shiftl 1 8.
Definition STM32Lx_FLASH_PECR_DATA : Z := Z.shiftl 1 4.
Definition STM32Lx_FLASH_PECR_PROG : Z := Z.shiftl 1 3.
Definition STM32Lx_FLASH_PECR_OPTLOCK : Z := Z.shiftl 1 2.
Definition STM32Lx_FLASH_PECR_PRGLOCK : Z := Z.shiftl 1 1.
Definition STM32Lx_FLASH_PECR_PELOCK : Z := Z.shiftl 1 0.

Definition STM32Lx_FLASH_SR_NOTZEROERR : Z := Z.shiftl 1 16.
Definition STM32Lx_FLASH_SR_SIZERR : Z := Z.shiftl 1 10.
Definition STM32Lx_FLASH_SR_PGAERR : Z := Z.shiftl 1 9.
Definition STM32Lx_FLASH_SR_WRPERR : Z := Z.shiftl 1 8.
Definition STM32Lx_FLASH_SR_BSY : Z := Z.shiftl 1 0.
Definition STM32Lx_FLASH_SR_ERR_MASK : Z :=
  Z.lor (Z.lor (Z.lor STM32Lx_FLASH_SR_WRPERR STM32Lx_FLASH_SR_PGAERR)
           STM32Lx_FLASH_SR_SIZERR) STM32Lx_FLASH_SR_NOTZEROERR.

Definition STM32L0_FLASH_OPTR_BOOT1 : Z := Z.shiftl 1 31.
Definition STM32Lx_FLASH_OPTR_WDG_SW : Z := Z.shiftl 1 20.
Definition STM32L0_FLASH_OPTR_WPRMOD : Z := Z.shiftl 1 8.
Definition STM32Lx_FLASH_OPTR_RDPROT_SHIFT : Z := 0.
Definition STM32Lx_FLASH_OPTR_RDPROT_MASK : Z := 0xff.
Definition STM32Lx_FLASH_OPTR_RDPROT_0 : Z := 0xaa.
Definition STM32Lx_FLASH_OPTR_RDPROT_2 : Z := 0xcc.

Definition STM32L1_FLASH_OPTR_nBFB2 : Z := Z.shiftl 1 23.
Definition STM32L1_FLASH_OPTR_nRST_STDBY : Z := Z.shiftl 1 22.
Definition STM32L1_FLASH_OPTR_nRST_STOP : Z := Z.shiftl 1 21.
Definition STM32L1_FLASH_OPTR_BOR_LEV_SHIFT : Z := 16.
Definition STM32L1_FLASH_OPTR_BOR_LEV_MASK : Z := 0xf.
Definition STM32L1_FLASH_OPTR_SPRMOD : Z := Z.shiftl 1 8.

Definition STM32L0_DBGMCU_BASE : Z := 0x40015800.
Definition STM32L0_DBGMCU_CONFIG : Z := STM32L0_DBGMCU_BASE + 0x004.
Definition STM32L0_DBGMCU_APB1FREEZE : Z := STM32L0_DBGMCU_BASE + 0x008.
Definition STM32L0_UID_FLASH_SIZE : Z := 0x1ff8007c.

Definition STM32Lx_DBGMCU_CONFIG_DBG_SLEEP : Z := Z.shiftl 1 0.
Definition STM32Lx_DBGMCU_CONFIG_DBG_STOP : Z := Z.shiftl 1 1.
Definition STM32Lx_DBGMCU_CONFIG_DBG_STANDBY : Z := Z.shiftl 1 2.
Definition STM32Lx_DBGMCU_APB1FREEZE_WWDG : Z := Z.shiftl 1 11.
Definition STM32Lx_DBGMCU_APB1FREEZE_IWDG : Z := Z.shiftl 1 12.

Definition ID_STM32L01x : Z := 0x457.
Definition ID_STM32L03x : Z := 0x425.
Definition ID_STM32L05x : Z := 0x417.
Definition ID_STM32L07x : Z := 0x447.

Definition stm32lx_cmd_list : list string := ["option"; "eeprom"]%string.

(** ** stm32l0.c: pure helpers *)

Definition stm32lx_is_stm32l1 (t : target) : bool :=
  negb (part_id t =? 0x457) && negb (part_id t =? 0x425) &&
  negb (part_id t =? 0x417) && negb (part_id t =? 0x447).

Definition stm32lx_nvm_eeprom_size (t : target) : Z :=
  if part_id t =? 0x457 then STM32L0_FLASH_EEPROM_CAT1_SIZE
  else if part_id t =? 0x425 then STM32L0_FLASH_EEPROM_CAT2_SIZE
  else if part_id t =? 0x417 then STM32L0_FLASH_EEPROM_CAT3_SIZE
  else if part_id t =? 0x447 then STM32L0_FLASH_EEPROM_CAT5_SIZE
  else STM32L1_FLASH_EEPROM_SIZE.

Definition stm32lx_flash_base (t : target) : Z :=
  if stm32lx_is_stm32l1 t then STM32L1_FLASH_BASE else STM32L0_FLASH_BASE.

Definition stm32lx_nvm_option_size (t : target) : Z :=
  if stm32lx_is_stm32l1 t then STM32L1_FLASH_OPT_SIZE else STM32L0_FLASH_OPT_SIZE.

Definition stm32lx_prot_level (options : Z) : Z :=
  let read_protection :=
    Z.land (Z.shiftr options STM32Lx_FLASH_OPTR_RDPROT_SHIFT)
           STM32Lx_FLASH_OPTR_RDPROT_MASK in
  if read_protection =? STM32Lx_FLASH_OPTR_RDPROT_0 then 0
  else if read_protection =? STM32Lx_FLASH_OPTR_RDPROT_2 then 2
  else 1.

Definition stm32lx_block_size_str (block_size : Z) : string :=
  if block_size =? 4 then "word"%string
  else if block_size =? 2 then "halfword"%string
  else if block_size =? 1 then "byte"%string
  else EmptyString.

(** ** Primitive calls

    Each primitive runs the platform operation and emits the call.  Values
    carried by a [uint32_t], [uint16_t] or [uint8_t] are reduced to their
    width. *)

Section Primitives.
Context {P : Type} (T : platform P).

Definition target_mem32_read32 (addr : Z) : M P Z :=
  fun p => let '(v, p') := mem32_read32 T addr p in
           Done (wrap32 v) p' [Read32 addr (wrap32 v)].

Definition target_mem32_read16 (addr : Z) : M P Z :=
  fun p => let '(v, p') := mem32_read16 T addr p in
           Done (wrap16 v) p' [Read16 addr (wrap16 v)].

Definition target_mem32_write32 (addr value : Z) : M P bool :=
  fun p => let '(e, p') := mem32_write32 T addr (wrap32 value) p in
           Done e p' [Write32 addr (wrap32 value)].

Definition target_mem32_write16 (addr value : Z) : M P bool :=
  fun p => let '(e, p') := mem32_write16 T addr (wrap16 value) p in
           Done e p' [Write16 addr (wrap16 value)].

Definition target_mem32_write8 (addr value : Z) : M P bool :=
  fun p => let '(e, p') := mem32_write8 T addr (wrap8 value) p in
           Done e p' [Write8 addr (wrap8 value)].

Definition target_mem32_write (addr : Z) (data : list Z) : M P bool :=
  fun p => let '(e, p') := mem32_write T addr data p in
           Done e p' [WriteBuf addr data].

Definition target_check_error : M P bool :=
  fun p => let '(e, p') := check_error T p in Done e p' [CheckError e].

Definition target_print_progress : M P unit :=
  fun p => Done tt p [Progress].

Definition tc_printf (fmt : string) (args : list arg) : M P unit :=
  fun p => Done tt p [Printf fmt args].

Definition do_calloc : M P bool :=
  fun p => let '(ok, p') := calloc T p in Done ok p' [Calloc ok].

Definition target_reset : M P unit :=
  fun p => Done tt (sys_reset T p) [TargetReset].

Definition target_halt_resume (step : bool) : M P unit :=
  fun p => Done tt (halt_resume T step p) [HaltResume step].

Definition cortexm_attach : M P bool :=
  fun p => let '(ok, p') := attach T p in Done ok p' [CortexmAttach ok].

Definition lpc_flash_erase (addr len : Z) : M P bool :=
  fun p => let '(ok, p') := flash_erase_rom T addr len p in
           Done ok p' [LpcFlashErase addr len ok].

(** [lpc_flash_write_magic_vect] of lpc_common.c, installed as the write
    function of the LPC546xx region; the calls it makes in turn are not
    recorded.  [lpc546xx_reset_attach] and [lpc546xx_flash_init] are static to
    the LPC546xx driver, and the only function of the driver handed to
    lpc_common.c is the hook [lpc546xx_wdt_kick]. *)
Definition lpc_flash_write_magic_vect (addr : Z) (data : list Z) : M P bool :=
  fun p => let '(ok, p') := flash_write_magic_vect_rom T addr data p in
           Done ok p' [LpcFlashWriteMagicVect addr data ok].
End Primitives.

(** ** The host buffer handed to a write

    [src] is the host memory seen through the [src] pointer argument, one
    byte per index.  [load32 src k] is element [k] of that memory read as an
    array of [uint32_t] (the [data] pointer of [stm32lx_eeprom_write]) on the
    little-endian host. *)
Definition host_buf : Type := nat -> Z.

Definition load32 (src : host_buf) (k : nat) : Z :=
  wrap8 (src (4 * k)%nat)
  + Z.shiftl (wrap8 (src (4 * k + 1)%nat)) 8
  + Z.shiftl (wrap8 (src (4 * k + 2)%nat)) 16
  + Z.shiftl (wrap8 (src (4 * k + 3)%nat)) 24.

(** The first [len] bytes of the buffer. *)
Definition bytes_of (src : host_buf) (len : Z) : list Z :=
  map (fun i => wrap8 (src i)) (seq 0 (Z.to_nat len)).

(** ** stm32l0.c: the register-sequence driver *)

Section Stm32lx.
Context {P : Type} (T : platform P).

(* Lock the FLASH control registers preventing writes or erases. *)
Definition stm32lx_nvm_lock (flash_base : Z) : M P unit :=
  target_mem32_write32 T (STM32Lx_FLASH_PECR flash_base) STM32Lx_FLASH_PECR_PELOCK ;;
  ret tt.

Definition stm32lx_nvm_prog_data_unlock (flash_base : Z) : M P bool :=
  target_mem32_write32 T (STM32Lx_FLASH_PECR flash_base) STM32Lx_FLASH_PECR_PELOCK ;;
  target_mem32_write32 T (STM32Lx_FLASH_PEKEYR flash_base) STM32Lx_FLASH_PEKEY1 ;;
  target_mem32_write32 T (STM32Lx_FLASH_PEKEYR flash_base) STM32Lx_FLASH_PEKEY2 ;;
  target_mem32_write32 T (STM32Lx_FLASH_PRGKEYR flash_base) STM32Lx_FLASH_PRGKEY1 ;;
  target_mem32_write32 T (STM32Lx_FLASH_PRGKEYR flash_base) STM32Lx_FLASH_PRGKEY2 ;;
  pecr <- target_mem32_read32 T (STM32Lx_FLASH_PECR flash_base) ;;
  ret (Z.land pecr STM32Lx_FLASH_PECR_PRGLOCK =? 0).

Definition stm32lx_nvm_opt_unlock (flash_base : Z) : M P bool :=
  target_mem32_write32 T (STM32Lx_FLASH_PECR flash_base) STM32Lx_FLASH_PECR_PELOCK ;;
  target_mem32_write32 T (STM32Lx_FLASH_PEKEYR flash_base) STM32Lx_FLASH_PEKEY1 ;;
  target_mem32_write32 T (STM32Lx_FLASH_PEKEYR flash_base) STM32Lx_FLASH_PEKEY2 ;;
  target_mem32_write32 T (STM32Lx_FLASH_OPTKEYR flash_base) STM32Lx_FLASH_OPTKEY1 ;;
  target_mem32_write32 T (STM32Lx_FLASH_OPTKEYR flash_base) STM32Lx_FLASH_OPTKEY2 ;;
  pecr <- target_mem32_read32 T (STM32Lx_FLASH_PECR flash_base) ;;
  ret (Z.land pecr STM32Lx_FLASH_PECR_OPTLOCK =? 0).

(** [timeout] tells whether a deadline was supplied ([&timeout]) or not
    ([NULL]).  One unit of fuel is one evaluation of the loop condition. *)
Fixpoint stm32lx_nvm_busy_wait (fuel : nat) (flash_base : Z) (timeout : bool)
  : M P bool :=
  match fuel with
  | O => halt OutOfFuel
  | S fuel' =>
      sr <- target_mem32_read32 T (STM32Lx_FLASH_SR flash_base) ;;
      if negb (Z.land sr STM32Lx_FLASH_SR_BSY =? 0) then
        err <- target_check_error T ;;
        if err then ret false
        else
          (if timeout then target_print_progress else ret tt) ;;
          stm32lx_nvm_busy_wait fuel' flash_base timeout
      else
        status <- target_mem32_read32 T (STM32Lx_FLASH_SR flash_base) ;;
        err <- target_check_error T ;;
        ret (negb err && (Z.land status STM32Lx_FLASH_SR_ERR_MASK =? 0))
  end.

(** The trigger loop of [stm32lx_flash_erase]:
    [for (offset = 0; offset < length; offset += flash->blocksize)]. *)
Fixpoint stm32lx_flash_erase_loop (fuel : nat) (addr len bsize : Z)
    (full_erase : bool) (offset : Z) : M P unit :=
  match fuel with
  | O => halt OutOfFuel
  | S fuel' =>
      if offset <? len then
        (* Trigger the erase by writing the first uint32_t of the page to 0 *)
        target_mem32_write32 T (wrap32 (addr + offset)) 0 ;;
        (if full_erase then target_print_progress else ret tt) ;;
        stm32lx_flash_erase_loop fuel' addr len bsize full_erase
          (wrap_size (offset + bsize))
      else ret tt
  end.

Definition stm32lx_flash_erase (fuel : nat) (t : target) (f : target_flash)
    (addr len : Z) : M P bool :=
  let flash_base := stm32lx_flash_base t in
  let full_erase := (addr =? start f) && (len =? length f) in
  unlocked <- stm32lx_nvm_prog_data_unlock flash_base ;;
  if negb unlocked then ret false
  else
    (* Flash page erase instruction *)
    target_mem32_write32 T (STM32Lx_FLASH_PECR flash_base)
      (Z.lor STM32Lx_FLASH_PECR_ERASE STM32Lx_FLASH_PECR_PROG) ;;
    v <- target_mem32_read32 T (STM32Lx_FLASH_PECR flash_base) ;;
    let pecr := Z.land v (Z.lor STM32Lx_FLASH_PECR_PROG STM32Lx_FLASH_PECR_ERASE) in
    if negb (pecr =? Z.lor STM32Lx_FLASH_PECR_PROG STM32Lx_FLASH_PECR_ERASE)
    then ret false
    else
      (* Clear errors. *)
      target_mem32_write32 T (STM32Lx_FLASH_SR flash_base) STM32Lx_FLASH_SR_ERR_MASK ;;
      stm32lx_flash_erase_loop fuel addr len (blocksize f) full_erase 0 ;;
      (* Disable further programming by locking PECR *)
      stm32lx_nvm_lock flash_base ;;
      (* Wait for completion or an error *)
      stm32lx_nvm_busy_wait fuel flash_base full_erase.

Definition stm32lx_flash_write (fuel : nat) (t : target) (f : target_flash)
    (dest : Z) (src : host_buf) (len : Z) : M P bool :=
  let flash_base := stm32lx_flash_base t in
  unlocked <- stm32lx_nvm_prog_data_unlock flash_base ;;
  if negb unlocked then ret false
  else
    (* Wait for BSY to clear because we cannot write the PECR until the
       previous operation completes *)
    idle <- stm32lx_nvm_busy_wait fuel flash_base false ;;
    if negb idle then ret false
    else
      target_mem32_write32 T (STM32Lx_FLASH_PECR flash_base)
        (Z.lor STM32Lx_FLASH_PECR_PROG STM32Lx_FLASH_PECR_FPRG) ;;
      target_mem32_write T dest (bytes_of src len) ;;
      (* Disable further programming by locking PECR *)
      stm32lx_nvm_lock flash_base ;;
      (* Wait for completion or an error *)
      stm32lx_nvm_busy_wait fuel flash_base false.

(** The trigger loop of [stm32lx_eeprom_erase]. *)
Fixpoint stm32lx_eeprom_erase_loop (fuel : nat) (aligned_addr len bsize : Z)
    (offset : Z) : M P unit :=
  match fuel with
  | O => halt OutOfFuel
  | S fuel' =>
      if offset <? len then
        (* Trigger the erase by writing the first uint32_t of the page to 0 *)
        target_mem32_write32 T (wrap32 (aligned_addr + offset)) 0 ;;
        stm32lx_eeprom_erase_loop fuel' aligned_addr len bsize
          (wrap_size (offset + bsize))
      else ret tt
  end.

Definition stm32lx_eeprom_erase (fuel : nat) (t : target) (f : target_flash)
    (addr len : Z) : M P bool :=
  let flash_base := stm32lx_flash_base t in
  unlocked <- stm32lx_nvm_prog_data_unlock flash_base ;;
  if negb unlocked then ret false
  else
    (* Flash data erase instruction *)
    target_mem32_write32 T (STM32Lx_FLASH_PECR flash_base)
      (Z.lor STM32Lx_FLASH_PECR_ERASE STM32Lx_FLASH_PECR_DATA) ;;
    v <- target_mem32_read32 T (STM32Lx_FLASH_PECR flash_base) ;;
    let pecr := Z.land v (Z.lor STM32Lx_FLASH_PECR_ERASE STM32Lx_FLASH_PECR_DATA) in
    if negb (pecr =? Z.lor STM32Lx_FLASH_PECR_ERASE STM32Lx_FLASH_PECR_DATA)
    then ret false
    else
      let aligned_addr := Z.land addr (not32 3) in
      stm32lx_eeprom_erase_loop fuel aligned_addr len (blocksize f) 0 ;;
      (* Disable further programming by locking PECR *)
      stm32lx_nvm_lock flash_base ;;
      (* Wait for completion or an error *)
      stm32lx_nvm_busy_wait fuel flash_base false.

(** The word loop of [stm32lx_eeprom_write]; it returns [false] when a write
    reported an error, which makes the function return early. *)
Fixpoint stm32lx_eeprom_write_loop (fuel : nat) (dest : Z) (src : host_buf)
    (len : Z) (offset : Z) : M P bool :=
  match fuel with
  | O => halt OutOfFuel
  | S fuel' =>
      if offset <? len then
        err <- target_mem32_write32 T (wrap32 (dest + offset))
                 (load32 src (Z.to_nat offset)) ;;
        if err then ret false
        else stm32lx_eeprom_write_loop fuel' dest src len (wrap_size (offset + 4))
      else ret true
  end.

Definition stm32lx_eeprom_write (fuel : nat) (t : target) (f : target_flash)
    (dest : Z) (src : host_buf) (len : Z) : M P bool :=
  let flash_base := stm32lx_flash_base t in
  let is_stm32l1 := stm32lx_is_stm32l1 t in
  unlocked <- stm32lx_nvm_prog_data_unlock flash_base ;;
  if negb unlocked then ret false
  else
    target_mem32_write32 T (STM32Lx_FLASH_PECR flash_base)
      (if is_stm32l1 then 0 else STM32Lx_FLASH_PECR_DATA) ;;
    (* Sling data to the target one uint32_t at a time *)
    sent <- stm32lx_eeprom_write_loop fuel dest src len 0 ;;
    if negb sent then ret false
    else
      (* Disable further programming by locking PECR *)
      stm32lx_nvm_lock flash_base ;;
      (* Wait for completion or an error *)
      stm32lx_nvm_busy_wait fuel flash_base false.

Definition stm32lx_protected_attach (t : target) : M P (bool * target) :=
  tc_printf
    "Attached in protected mode, please issue 'monitor erase_mass' to regain chip access\n"
    [] ;;
  ret (true, set_attach t cortexm_attach_fn).

(** The polling loop of [stm32lx_protected_mass_erase]. *)
Fixpoint stm32lx_protected_mass_erase_wait (fuel : nat) (flash_base : Z)
  : M P unit :=
  match fuel with
  | O => halt OutOfFuel
  | S fuel' =>
      sr <- target_mem32_read32 T (STM32Lx_FLASH_SR flash_base) ;;
      if negb (Z.land sr STM32Lx_FLASH_SR_BSY =? 0) then
        target_print_progress ;;
        stm32lx_protected_mass_erase_wait fuel' flash_base
      else ret tt
  end.

Definition stm32lx_protected_mass_erase (fuel : nat) (t : target) : M P bool :=
  let flash_base := stm32lx_flash_base t in
  unlocked <- stm32lx_nvm_opt_unlock flash_base ;;
  if negb unlocked then ret false
  else
    target_mem32_write32 T STM32Lx_FLASH_OPT_BASE 0xffff0000 ;;
    target_mem32_write32 T (STM32Lx_FLASH_PECR flash_base) STM32Lx_FLASH_PECR_OBL_LAUNCH ;;
    target_mem32_write32 T STM32Lx_FLASH_OPT_BASE 0xff5500aa ;;
    target_mem32_write32 T (STM32Lx_FLASH_PECR flash_base) STM32Lx_FLASH_PECR_OBL_LAUNCH ;;
    stm32lx_protected_mass_erase_wait fuel flash_base ;;
    (* Disable further programming by locking PECR *)
    stm32lx_nvm_lock flash_base ;;
    ret true.

(** [for (flash = target->flash; flash; flash = flash->next)]. *)
Fixpoint stm32lx_mass_erase_regions (fuel : nat) (t : target)
    (fl : list target_flash) : M P bool :=
  match fl with
  | [] => ret true
  | f :: rest =>
      result <- stm32lx_flash_erase fuel t f (start f) (length f) ;;
      if negb result then ret false
      else stm32lx_mass_erase_regions fuel t rest
  end.

Definition stm32lx_mass_erase (fuel : nat) (t : target) : M P bool :=
  stm32lx_mass_erase_regions fuel t (flash t).
End Stm32lx.

(** ** libc string helpers used by the console commands *)

Definition NUL : ascii := Ascii.zero.

Definition tolower (c : ascii) : ascii :=
  let n := nat_of_ascii c in
  if (65 <=? n)%nat && (n <=? 90)%nat then ascii_of_nat (n + 32) else c.

(** The character a C string holds at its head: NUL once the string is over. *)
Definition head_char (s : string) : ascii :=
  match s with
  | EmptyString => NUL
  | String c _ => c
  end.

Definition tail_str (s : string) : string :=
  match s with
  | EmptyString => EmptyString
  | String _ s' => s'
  end.

(** [strncasecmp(s1, s2, n)]: compares at most [n] characters, ignoring case,
    and stops after a NUL. *)
Fixpoint strncasecmp (s1 s2 : string) (n : nat) : Z :=
  match n with
  | O => 0
  | S n' =>
      let c1 := tolower (head_char s1) in
      let c2 := tolower (head_char s2) in
      let d := Z.of_nat (nat_of_ascii c1) - Z.of_nat (nat_of_ascii c2) in
      if negb (d =? 0) then d
      else if Ascii.eqb c1 NUL then 0
      else strncasecmp (tail_str s1) (tail_str s2) n'
  end.

Definition strlen (s : string) : nat := String.length s.

(** [argv[k]]. *)
Definition argv_at (argv : list string) (k : nat) : string :=
  nth k argv EmptyString.

(** ** stm32l0.c: option bytes and the console commands *)

(** The word a non-raw option write stores:
    [(val & 0xffffU) | ((~val & 0xffffU) << 16U)]. *)
Definition option_word (val : Z) : Z :=
  Z.lor (Z.land val 0xffff) (wrap32 (Z.shiftl (Z.land (not32 val) 0xffff) 16)).

(** The check of the report loop:
    [(val & 0xffffU) == ((~val >> 16U) & 0xffffU)]. *)
Definition option_word_ok (val : Z) : bool :=
  Z.land val 0xffff =? Z.land (Z.shiftr (not32 val) 16) 0xffff.

Definition option_word_status (val : Z) : string :=
  if option_word_ok val then "OK"%string else "ERR"%string.

(** The offsets [0, 4, 8, ...] below [size] visited by
    [for (i = 0; i < size; i += 4U)]; [size] is one of the two option sizes. *)
Definition word_offsets (size : Z) : list Z :=
  map (fun k => 4 * Z.of_nat k) (seq 0 (Z.to_nat ((size + 3) / 4))).

Definition bit (options mask : Z) : Z :=
  if negb (Z.land options mask =? 0) then 1 else 0.

Section Stm32lxCommands.
Context {P : Type} (T : platform P).

Definition stm32lx_option_write (fuel : nat) (t : target) (address value : Z)
  : M P bool :=
  let flash_base := stm32lx_flash_base t in
  (* Erase and program option in one go. *)
  target_mem32_write32 T (STM32Lx_FLASH_PECR flash_base) STM32Lx_FLASH_PECR_FIX ;;
  target_mem32_write32 T address value ;;
  (* Wait for completion or an error *)
  stm32lx_nvm_busy_wait T fuel flash_base false.

Definition stm32lx_eeprom_write_one (fuel : nat) (t : target)
    (address block_size value : Z) : M P bool :=
  let flash_base := stm32lx_flash_base t in
  let is_stm32l1 := stm32lx_is_stm32l1 t in
  (* Clear errors. *)
  target_mem32_write32 T (STM32Lx_FLASH_SR flash_base) STM32Lx_FLASH_SR_ERR_MASK ;;
  (* Erase and program option in one go. *)
  target_mem32_write32 T (STM32Lx_FLASH_PECR flash_base)
    (Z.lor (if is_stm32l1 then 0 else STM32Lx_FLASH_PECR_DATA) STM32Lx_FLASH_PECR_FIX) ;;
  if block_size =? 4 then
    target_mem32_write32 T address value ;;
    stm32lx_nvm_busy_wait T fuel flash_base false
  else if block_size =? 2 then
    target_mem32_write16 T address value ;;
    stm32lx_nvm_busy_wait T fuel flash_base false
  else if block_size =? 1 then
    target_mem32_write8 T address value ;;
    stm32lx_nvm_busy_wait T fuel flash_base false
  else ret false.

(** The report loop of [stm32lx_cmd_option]. *)
Fixpoint stm32lx_cmd_option_report (offsets : list Z) : M P unit :=
  match offsets with
  | [] => ret tt
  | i :: rest =>
      let addr := wrap32 (STM32Lx_FLASH_OPT_BASE + i) in
      val <- target_mem32_read32 T addr ;;
      tc_printf "0x%08x: 0x%04u 0x%04u %s\n"
        [ArgZ addr; ArgZ (Z.land val 0xffff);
         ArgZ (Z.land (Z.shiftr val 16) 0xffff);
         ArgS (option_word_status val)] ;;
      stm32lx_cmd_option_report rest
  end.

(** From the report loop to [goto done]. *)
Definition stm32lx_cmd_option_show (t : target) : M P unit :=
  let flash_base := stm32lx_flash_base t in
  let opt_size := stm32lx_nvm_option_size t in
  (* Report the current option values *)
  stm32lx_cmd_option_report (word_offsets opt_size) ;;
  options <- target_mem32_read32 T (STM32Lx_FLASH_OPTR flash_base) ;;
  let read_protection := stm32lx_prot_level options in
  if stm32lx_is_stm32l1 t then
    tc_printf
      "OPTR: 0x%08x, RDPRT %u, SPRMD %u, BOR %u, WDG_SW %u, nRST_STP %u, nRST_STBY %u, nBFB2 %u\n"
      [ArgZ options; ArgZ read_protection;
       ArgZ (bit options STM32L1_FLASH_OPTR_SPRMOD);
       ArgZ (Z.land (Z.shiftr options STM32L1_FLASH_OPTR_BOR_LEV_SHIFT)
                    STM32L1_FLASH_OPTR_BOR_LEV_MASK);
       ArgZ (bit options STM32Lx_FLASH_OPTR_WDG_SW);
       ArgZ (bit options STM32L1_FLASH_OPTR_nRST_STOP);
       ArgZ (bit options STM32L1_FLASH_OPTR_nRST_STDBY);
       ArgZ (bit options STM32L1_FLASH_OPTR_nBFB2)]
  else
    tc_printf "OPTR: 0x%08x, RDPROT %u, WPRMOD %u, WDG_SW %u, BOOT1 %u\n"
      [ArgZ options; ArgZ read_protection;
       ArgZ (bit options STM32L0_FLASH_OPTR_WPRMOD);
       ArgZ (bit options STM32Lx_FLASH_OPTR_WDG_SW);
       ArgZ (bit options STM32L0_FLASH_OPTR_BOOT1)].

(** The [usage:] label of [stm32lx_cmd_option]. *)
Definition stm32lx_cmd_option_usage (t : target) : M P unit :=
  let opt_size := stm32lx_nvm_option_size t in
  tc_printf "usage: monitor option [ARGS]\n" [] ;;
  tc_printf "  show                   - Show options in FLASH and as loaded\n" [] ;;
  tc_printf "  obl_launch             - Reload options from FLASH\n" [] ;;
  tc_printf "  write <addr> <value16> - Set option half-word; complement computed\n" [] ;;
  tc_printf "  raw <addr> <value32>   - Set option word\n" [] ;;
  tc_printf "The value of <addr> must be 32-bit aligned and from 0x%08x to +0x%x\n"
    [ArgZ STM32Lx_FLASH_OPT_BASE;
     ArgZ (wrap32 (STM32Lx_FLASH_OPT_BASE + wrap32 (opt_size - 4)))].

Definition stm32lx_cmd_option (fuel : nat) (t : target) (argc : Z)
    (argv : list string) : M P bool :=
  let flash_base := stm32lx_flash_base t in
  let opt_size := stm32lx_nvm_option_size t in
  unlocked <- stm32lx_nvm_opt_unlock T flash_base ;;
  if negb unlocked then
    tc_printf "unable to unlock FLASH option bytes\n" [] ;;
    ret true
  else
    (if argc <? 2 then stm32lx_cmd_option_usage t
     else
       let command_len := strlen (argv_at argv 1) in
       if (argc =? 2) && (strncasecmp (argv_at argv 1) "obl_launch" command_len =? 0)
       then
         target_mem32_write32 T (STM32Lx_FLASH_PECR flash_base)
           STM32Lx_FLASH_PECR_OBL_LAUNCH ;;
         stm32lx_cmd_option_show t
       else if argc =? 4 then
         let raw_write := strncasecmp (argv_at argv 1) "raw" command_len =? 0 in
         if negb raw_write
            && negb (strncasecmp (argv_at argv 1) "write" command_len =? 0)
         then stm32lx_cmd_option_usage t
         else
           let addr := wrap32 (strtoul T (argv_at argv 2)) in
           let val0 := wrap32 (strtoul T (argv_at argv 3)) in
           let val := if negb raw_write then option_word val0 else val0 in
           tc_printf "%s %08x <- %08x\n" [ArgS (argv_at argv 1); ArgZ addr; ArgZ val] ;;
           if (STM32Lx_FLASH_OPT_BASE <=? addr)
              && (addr <? STM32Lx_FLASH_OPT_BASE + opt_size)
              && (Z.land addr 3 =? 0)
           then
             ok <- stm32lx_option_write fuel t addr val ;;
             (if negb ok then tc_printf "option write failed\n" [] else ret tt) ;;
             stm32lx_cmd_option_show t
           else stm32lx_cmd_option_usage t
       else stm32lx_cmd_option_show t) ;;
    (* done: *)
    stm32lx_nvm_lock T flash_base ;;
    ret true.

(** The [usage:] label of [stm32lx_cmd_eeprom]. *)
Definition stm32lx_cmd_eeprom_usage (t : target) : M P unit :=
  tc_printf "usage: monitor eeprom [ARGS]\n" [] ;;
  tc_printf "  byte     <addr> <value8>  - Write a byte\n" [] ;;
  tc_printf "  halfword <addr> <value16> - Write a half-word\n" [] ;;
  tc_printf "  word     <addr> <value32> - Write a word\n" [] ;;
  tc_printf "The value of <addr> must in the interval [0x%08x, 0x%x)\n"
    [ArgZ STM32Lx_FLASH_EEPROM_BASE;
     ArgZ (wrap32 (STM32Lx_FLASH_EEPROM_BASE + stm32lx_nvm_eeprom_size t))].

(** From the [tc_printf] that announces the write to [goto done]. *)
Definition stm32lx_cmd_eeprom_do_write (fuel : nat) (t : target)
    (addr block_size val : Z) : M P unit :=
  tc_printf "writing %s 0x%08x with 0x%x\n"
    [ArgS (stm32lx_block_size_str block_size); ArgZ addr; ArgZ val] ;;
  ok <- stm32lx_eeprom_write_one fuel t addr block_size val ;;
  if negb ok then tc_printf "eeprom write failed\n" [] else ret tt.

Definition stm32lx_cmd_eeprom (fuel : nat) (t : target) (argc : Z)
    (argv : list string) : M P bool :=
  let flash_base := stm32lx_flash_base t in
  unlocked <- stm32lx_nvm_prog_data_unlock T flash_base ;;
  if negb unlocked then
    tc_printf "unable to unlock EEPROM\n" [] ;;
    ret true
  else
    (if argc =? 4 then
       let addr := wrap32 (strtoul T (argv_at argv 2)) in
       let val := wrap32 (strtoul T (argv_at argv 3)) in
       if (addr <? STM32Lx_FLASH_EEPROM_BASE)
          || (STM32Lx_FLASH_EEPROM_BASE + stm32lx_nvm_eeprom_size t <=? addr)
       then stm32lx_cmd_eeprom_usage t
       else
         let command_len := strlen (argv_at argv 1) in
         if strncasecmp (argv_at argv 1) "byte" command_len =? 0 then
           stm32lx_cmd_eeprom_do_write fuel t addr 1 (Z.land val 0xff)
         else if strncasecmp (argv_at argv 1) "halfword" command_len =? 0 then
           if negb (Z.land addr 1 =? 0) then
             tc_printf "Refusing to do unaligned write\n" [] ;;
             stm32lx_cmd_eeprom_usage t
           else stm32lx_cmd_eeprom_do_write fuel t addr 2 (Z.land val 0xffff)
         else if strncasecmp (argv_at argv 1) "word" command_len =? 0 then
           if negb (Z.land addr 3 =? 0) then
             tc_printf "Refusing to do unaligned write\n" [] ;;
             stm32lx_cmd_eeprom_usage t
           else stm32lx_cmd_eeprom_do_write fuel t addr 4 val
         else stm32lx_cmd_eeprom_usage t
     else stm32lx_cmd_eeprom_usage t) ;;
    (* done: *)
    stm32lx_nvm_lock T flash_base ;;
    ret true.
End Stm32lxCommands.

(** ** stm32l0.c: probing and attaching *)

Section Stm32lxProbe.
Context {P : Type} (T : platform P).

Definition stm32l_add_flash (t : target) (addr len erasesize : Z)
  : M P target :=
  ok <- do_calloc T ;;
  if negb ok then ret t (* calloc failed: heap exhaustion *)
  else
    ret (target_add_flash t
           {| start := addr; length := len; blocksize := erasesize;
              writesize := Z.shiftr erasesize 1;
              erase := Some stm32lx_flash_erase_fn;
              write := Some stm32lx_flash_write_fn |}).

Definition stm32l_add_eeprom (t : target) (addr len : Z) : M P target :=
  ok <- do_calloc T ;;
  if negb ok then ret t (* calloc failed: heap exhaustion *)
  else
    ret (target_add_flash t
           {| start := addr; length := len; blocksize := 4;
              writesize := 0;
              erase := Some stm32lx_eeprom_erase_fn;
              write := Some stm32lx_eeprom_write_fn |}).

Definition stm32l0_configure_dbgmcu : M P unit :=
  (* Enable debugging during all low power modes *)
  target_mem32_write32 T STM32L0_DBGMCU_CONFIG
    (Z.lor (Z.lor STM32Lx_DBGMCU_CONFIG_DBG_SLEEP STM32Lx_DBGMCU_CONFIG_DBG_STANDBY)
           STM32Lx_DBGMCU_CONFIG_DBG_STOP) ;;
  (* And make sure the WDTs stay synchronised to the run state of the processor *)
  target_mem32_write32 T STM32L0_DBGMCU_APB1FREEZE
    (Z.lor STM32Lx_DBGMCU_APB1FREEZE_WWDG STM32Lx_DBGMCU_APB1FREEZE_IWDG) ;;
  ret tt.

Definition stm32l0_probe (t : target) : M P (bool * target) :=
  (* Try to identify the part, make sure it's a STM32L0 *)
  if negb (part_id t =? ID_STM32L01x) && negb (part_id t =? ID_STM32L03x)
     && negb (part_id t =? ID_STM32L05x) && negb (part_id t =? ID_STM32L07x)
  then ret (false, t)
  else
    stm32l0_configure_dbgmcu ;;
    let t := set_driver t "STM32L0" in
    let t := set_attach t stm32l0_attach_fn in
    let t := set_detach t stm32l0_detach_fn in
    let t := set_mass_erase t stm32lx_mass_erase_fn in
    let t := target_add_commands t stm32lx_cmd_list in
    (* read out how much Flash it has *)
    kib <- target_mem32_read16 T STM32L0_UID_FLASH_SIZE ;;
    let flash_size := wrap32 (kib * 1024) in
    let t := target_add_ram32 t STM32Lx_SRAM_BASE STM32L0_SRAM_SIZE in
    (* Now fill in the Flash map based on the part category *)
    t <- (if (part_id t =? ID_STM32L01x) || (part_id t =? ID_STM32L03x)
             || (part_id t =? ID_STM32L05x)
          then
            (* Category 1, 2 and 3 only have one bank *)
            stm32l_add_flash t STM32Lx_FLASH_BANK_BASE flash_size
              STM32L0_FLASH_PAGE_SIZE
          else
            (* Category 5 parts have 2 banks, split 50:50 *)
            let bank_size := Z.shiftr flash_size 1 in
            let bank2_base := wrap32 (STM32Lx_FLASH_BANK_BASE + bank_size) in
            t <- stm32l_add_flash t STM32Lx_FLASH_BANK_BASE bank_size
                   STM32L0_FLASH_PAGE_SIZE ;;
            stm32l_add_flash t bank2_base bank_size STM32L0_FLASH_PAGE_SIZE) ;;
    t <- stm32l_add_eeprom t STM32Lx_EEPROM_BASE 0x1800 ;;
    ret (true, t).

(** [snprintf(buf, 21, "%s%s", a, b)]: at most 20 characters are kept. *)
Definition snprintf21 (a b : string) : string :=
  substring 0 20 (a ++ b).

(** [partno] is [cortex_ap(target)->partno]. *)
Definition stm32l1_probe (t : target) (partno : Z) : M P (bool * target) :=
  if (partno =? 0x416) || (partno =? 0x429) || (partno =? 0x427)
     || (partno =? 0x436) || (partno =? 0x437)
  then
    let t := set_driver t "STM32L1" in
    let t := target_add_ram32 t STM32Lx_SRAM_BASE 0x14000 in
    t <- stm32l_add_flash t STM32Lx_FLASH_BANK_BASE 0x80000 0x100 ;;
    let t := target_add_commands t stm32lx_cmd_list in
    let t := set_part_id t partno in
    ok <- do_calloc T ;;
    if negb ok then ret (false, t)
    else
      let flash_base := stm32lx_flash_base t in
      optr <- target_mem32_read32 T (STM32Lx_FLASH_OPTR flash_base) ;;
      let protected :=
        negb (Z.land optr STM32Lx_FLASH_OPTR_RDPROT_MASK
              =? STM32Lx_FLASH_OPTR_RDPROT_0) in
      let variant :=
        snprintf21 (driver t) (if protected then " (protected)" else EmptyString) in
      let t := set_target_storage t variant in
      let t := set_driver t variant in
      if protected then
        let t := set_attach t stm32lx_protected_attach_fn in
        let t := set_mass_erase t stm32lx_protected_mass_erase_fn in
        ret (true, t)
      else
        let t := set_mass_erase t stm32lx_mass_erase_fn in
        ret (true, t)
  else ret (false, t).

Definition stm32l0_attach (t : target) : M P bool :=
  ok <- cortexm_attach T ;;
  if negb ok then ret false
  else
    stm32l0_configure_dbgmcu ;;
    ret true.
End Stm32lxProbe.

(** The protection state cached by [stm32l1_probe]: a protected device is the
    one whose [mass_erase] is the option-wipe recovery. *)
Definition is_protected (t : target) : bool :=
  match mass_erase t with
  | Some stm32lx_protected_mass_erase_fn => true
  | _ => false
  end.

(** ** The LPC546xx driver *)

Definition LPC546XX_CHIPID : Z := 0x40000ff8.
Definition IAP_ENTRYPOINT_LOCATION : Z := 0x03000204.
Definition LPC546XX_ETBAHB_SRAM_BASE : Z := 0x20000000.
Definition LPC546XX_ETBAHB_SRAM_SIZE : Z := 64 * 1024.
Definition LPC546XX_WDT_MODE : Z := 0x4000c000.
Definition LPC546XX_WDT_CNT : Z := 0x4000c004.
Definition LPC546XX_WDT_FEED : Z := 0x4000c008.
Definition LPC546XX_WDT_PERIOD_MAX : Z := 0xffffff.
Definition LPC546XX_WDT_PROTECT : Z := Z.shiftl 1 4.
Definition LPC546XX_MAINCLKSELA : Z := 0x40000280.
Definition LPC546XX_MAINCLKSELB : Z := 0x40000284.
Definition LPC546XX_AHBCLKDIV : Z := 0x40000380.
Definition LPC546XX_FLASHCFG : Z := 0x40000400.
Definition IAP_PGM_CHUNKSIZE : Z := 4096.

Definition lpc546xx_cmd_list : list string :=
  ["erase_sector"; "read_partid"; "read_uid"; "reset_attach"; "reset";
   "write_sector"]%string.

(** The driver name and the flash size of a chip id, [None] for an unknown
    part (the [switch] of [lpc546xx_probe]). *)
Definition lpc546xx_part (chipid : Z) : option (string * Z) :=
  if chipid =? 0x7f954605 then Some ("LPC54605J256"%string, 0x40000)
  else if chipid =? 0x7f954606 then Some ("LPC54606J256"%string, 0x40000)
  else if chipid =? 0x7f954607 then Some ("LPC54607J256"%string, 0x40000)
  else if chipid =? 0x7f954616 then Some ("LPC54616J256"%string, 0x40000)
  else if chipid =? 0xfff54605 then Some ("LPC54605J512"%string, 0x80000)
  else if chipid =? 0xfff54606 then Some ("LPC54606J512"%string, 0x80000)
  else if chipid =? 0xfff54607 then Some ("LPC54607J512"%string, 0x80000)
  else if chipid =? 0xfff54608 then Some ("LPC54608J512"%string, 0x80000)
  else if chipid =? 0xfff54616 then Some ("LPC54616J512"%string, 0x80000)
  else if chipid =? 0xfff54618 then Some ("LPC54618J512"%string, 0x80000)
  else if chipid =? 0xfff54628 then Some ("LPC54628J512"%string, 0x80000)
  else None.

(** The incrementing test pattern of [write_sector]: [buf[i] = i & 0xffU]. *)
Definition sector_pattern (sector_size : Z) : list Z :=
  map (fun i => Z.land (Z.of_nat i) 0xff) (seq 0 (Z.to_nat sector_size)).

Section Lpc546xx.
Context {P : Type} (T : platform P).

(** The IAP fields of [struct lpc_flash] are read by lpc_common.c only and
    are left out of the region. *)
Definition lpc546xx_add_flash (t : target) (addr len erasesize : Z) : target :=
  target_add_flash t
    {| start := addr; length := len; blocksize := erasesize;
       writesize := IAP_PGM_CHUNKSIZE;
       erase := Some lpc546xx_flash_erase_fn;
       write := Some lpc_flash_write_magic_vect_fn |}.

Definition lpc546xx_probe (t : target) : M P (bool * target) :=
  chipid <- target_mem32_read32 T LPC546XX_CHIPID ;;
  match lpc546xx_part chipid with
  | None => ret (false, t)
  | Some (name, flash_size) =>
      let t := set_driver t name in
      let t := set_mass_erase t lpc546xx_mass_erase_fn in
      let t := lpc546xx_add_flash t 0x0 flash_size 0x8000 in
      let t := target_add_ram32 t 0x20000000 0x28000 in
      let t := target_add_commands t lpc546xx_cmd_list in
      let t := set_inhibit_nrst t in
      ret (true, t)
  end.

Definition lpc546xx_reset_attach : M P unit :=
  target_reset T ;;
  target_halt_resume T false ;;
  cortexm_attach T ;;
  ret tt.

Definition lpc546xx_wdt_set_period : M P unit :=
  (* Check if WDT is on *)
  wdt_mode <- target_mem32_read32 T LPC546XX_WDT_MODE ;;
  (* If WDT on, we can't disable it, but we may be able to set a long period *)
  if negb (wdt_mode =? 0) && (Z.land wdt_mode LPC546XX_WDT_PROTECT =? 0) then
    target_mem32_write32 T LPC546XX_WDT_CNT LPC546XX_WDT_PERIOD_MAX ;;
    ret tt
  else ret tt.

Definition lpc546xx_wdt_kick : M P unit :=
  (* Check if WDT is on *)
  wdt_mode <- target_mem32_read32 T LPC546XX_WDT_MODE ;;
  (* If WDT on, poke it to reset it *)
  if negb (wdt_mode =? 0) then
    target_mem32_write32 T LPC546XX_WDT_FEED 0xaa ;;
    target_mem32_write32 T LPC546XX_WDT_FEED 0xff ;;
    ret tt
  else ret tt.

Definition lpc546xx_flash_init : M P bool :=
  lpc546xx_reset_attach ;;
  (* Deal with WDT *)
  lpc546xx_wdt_set_period ;;
  target_mem32_write32 T LPC546XX_MAINCLKSELA 0 ;;   (* 12MHz FRO *)
  target_mem32_write32 T LPC546XX_MAINCLKSELB 0 ;;   (* Use MAINCLKSELA *)
  target_mem32_write32 T LPC546XX_AHBCLKDIV 0 ;;     (* Divide by 1 *)
  target_mem32_write32 T LPC546XX_FLASHCFG 0x1a ;;   (* Recommended default *)
  ret true.

Definition lpc546xx_flash_erase (addr len : Z) : M P bool :=
  ok <- lpc546xx_flash_init ;;
  if negb ok then ret false
  else lpc_flash_erase T addr len.

(** [t->flash] is the first region of the target; the source dereferences
    it unchecked. *)
Definition first_flash (t : target) : M P target_flash :=
  match flash t with
  | [] => halt NullDeref
  | f :: _ => ret f
  end.

Definition lpc546xx_mass_erase (t : target) : M P bool :=
  f <- first_flash t ;;
  r <- lpc546xx_flash_erase (start f) (length f) ;;
  (* const int result = (a bool) *)
  let result := if r then 1 else 0 in
  (if negb (result =? 0) then tc_printf "Error erasing flash: %d\n" [ArgZ result]
   else ret tt) ;;
  ret (result =? 0).

Definition lpc546xx_cmd_erase_sector (t : target) (argc : Z) (argv : list string)
  : M P bool :=
  if 1 <? argc then
    f <- first_flash t ;;
    let sector_addr := wrap32 (strtoul T (argv_at argv 1)) in
    let sector_addr := wrap32 (sector_addr * blocksize f) in
    lpc546xx_flash_erase sector_addr 1
  else ret true.


Definition lpc546xx_cmd_write_sector (t : target) (argc : Z) (argv : list string)
  : M P bool :=
  if 1 <? argc then
    f <- first_flash t ;;
    let sector_size := wrap32 (blocksize f) in
    let sector_addr := wrap32 (strtoul T (argv_at argv 1)) in
    let sector_addr := wrap32 (sector_addr * sector_size) in
    erased <- lpc546xx_flash_erase sector_addr 1 ;;
    if negb erased then ret false
    else
      ok <- do_calloc T ;;
      (* the buffer is filled without a check of the pointer *)
      if negb ok && (0 <? sector_size) then halt NullDeref
      else lpc_flash_write_magic_vect T sector_addr (sector_pattern sector_size)
  else ret true.
End Lpc546xx.

(** ** Calls through the operation tables *)

Section Dispatch.
Context {P : Type} (T : platform P).

(** [flash->erase(flash, addr, len)]. *)
Definition flash_erase_op (fuel : nat) (t : target) (f : target_flash)
    (addr len : Z) : M P bool :=
  match erase f with
  | Some stm32lx_flash_erase_fn => stm32lx_flash_erase T fuel t f addr len
  | Some stm32lx_eeprom_erase_fn => stm32lx_eeprom_erase T fuel t f addr len
  | Some lpc546xx_flash_erase_fn => lpc546xx_flash_erase T addr len
  | None => halt NullDeref
  end.

(** [flash->write(flash, dest, src, len)]. *)
Definition flash_write_op (fuel : nat) (t : target) (f : target_flash)
    (dest : Z) (src : host_buf) (len : Z) : M P bool :=
  match write f with
  | Some stm32lx_flash_write_fn => stm32lx_flash_write T fuel t f dest src len
  | Some stm32lx_eeprom_write_fn => stm32lx_eeprom_write T fuel t f dest src len
  | Some lpc_flash_write_magic_vect_fn =>
      lpc_flash_write_magic_vect T dest (bytes_of src len)
  | None => halt NullDeref
  end.

(** [target->mass_erase(target)]. *)
Definition mass_erase_op (fuel : nat) (t : target) : M P bool :=
  match mass_erase t with
  | Some stm32lx_mass_erase_fn => stm32lx_mass_erase T fuel t
  | Some stm32lx_protected_mass_erase_fn => stm32lx_protected_mass_erase T fuel t
  | Some lpc546xx_mass_erase_fn => lpc546xx_mass_erase T t
  | None => halt NullDeref
  end.

(** [target->attach(target)]; a target without its own routine attaches
    with [cortexm_attach]. *)
Definition attach_call (t : target) : M P (bool * target) :=
  match attach_op t with
  | Some stm32lx_protected_attach_fn => stm32lx_protected_attach t
  | Some stm32l0_attach_fn => ok <- stm32l0_attach T t ;; ret (ok, t)
  | Some cortexm_attach_fn | None => ok <- cortexm_attach T ;; ret (ok, t)
  end.
End Dispatch.

(** ** A scripted platform for concrete runs

    The answers of the device are given in advance: each read takes the next
    value of [reads] (0 once the script is over), each write the next error
    flag of [write_errs] (no error once it is over), and so on. *)

Record sim : Type := {
  reads : list Z;
  write_errs : list bool;
  check_errs : list bool;
  allocs : list bool;
  attaches : list bool;
  rom_results : list bool
}.

Definition pop {A} (d : A) (l : list A) : A * list A :=
  match l with
  | [] => (d, [])
  | x :: l' => (x, l')
  end.

Definition sim_read (s : sim) : Z * sim :=
  let '(v, r) := pop 0 (reads s) in
  (v, {| reads := r; write_errs := write_errs s; check_errs := check_errs s;
         allocs := allocs s; attaches := attaches s; rom_results := rom_results s |}).

Definition sim_write (s : sim) : bool * sim :=
  let '(e, r) := pop false (write_errs s) in
  (e, {| reads := reads s; write_errs := r; check_errs := check_errs s;
         allocs := allocs s; attaches := attaches s; rom_results := rom_results s |}).

Definition sim_check (s : sim) : bool * sim :=
  let '(e, r) := pop false (check_errs s) in
  (e, {| reads := reads s; write_errs := write_errs s; check_errs := r;
         allocs := allocs s; attaches := attaches s; rom_results := rom_results s |}).

Definition sim_calloc (s : sim) : bool * sim :=
  let '(ok, r) := pop true (allocs s) in
  (ok, {| reads := reads s; write_errs := write_errs s; check_errs := check_errs s;
          allocs := r; attaches := attaches s; rom_results := rom_results s |}).

Definition sim_attach (s : sim) : bool * sim :=
  let '(ok, r) := pop true (attaches s) in
  (ok, {| reads := reads s; write_errs := write_errs s; check_errs := check_errs s;
          allocs := allocs s; attaches := r; rom_results := rom_results s |}).

Definition sim_rom (s : sim) : bool * sim :=
  let '(ok, r) := pop true (rom_results s) in
  (ok, {| reads := reads s; write_errs := write_errs s; check_errs := check_errs s;
          allocs := allocs s; attaches := attaches s; rom_results := r |}).

(** [strtoul(s, NULL, 0)] with a 32-bit [unsigned long]: leading white space
    is skipped, a sign is accepted (the value is negated in the unsigned
    type), the base is 16 after [0x] or [0X] followed by a hexadecimal digit,
    8 after a leading [0] and 10 otherwise, the digits are read as far as they
    go, and a value that does not fit gives [ULONG_MAX]. *)
Definition digit_of (c : ascii) : option Z :=
  let n := Z.of_nat (nat_of_ascii c) in
  if (48 <=? n) && (n <=? 57) then Some (n - 48)
  else if (97 <=? n) && (n <=? 102) then Some (n - 87)
  else if (65 <=? n) && (n <=? 70) then Some (n - 55)
  else None.

Fixpoint parse_digits (base acc : Z) (s : string) : Z :=
  match s with
  | EmptyString => acc
  | String c s' =>
      match digit_of c with
      | Some d => if d <? base then parse_digits base (base * acc + d) s' else acc
      | None => acc
      end
  end.

Definition isspace (c : ascii) : bool :=
  let n := Z.of_nat (nat_of_ascii c) in
  (n =? 32) || ((9 <=? n) && (n <=? 13)).

Fixpoint skip_space (s : string) : string :=
  match s with
  | EmptyString => EmptyString
  | String c s' => if isspace c then skip_space s' else s
  end.

Definition starts_with_hex_digit (s : string) : bool :=
  match s with
  | EmptyString => false
  | String c _ => match digit_of c with Some _ => true | None => false end
  end.

Definition parse_magnitude (s : string) : Z :=
  match s with
  | String "0" (String c s') =>
      if (Ascii.eqb c "x" || Ascii.eqb c "X") && starts_with_hex_digit s'
      then parse_digits 16 0 s'
      else parse_digits 8 0 s
  | String "0" EmptyString => 0
  | _ => parse_digits 10 0 s
  end.

Definition sim_strtoul (s : string) : Z :=
  let s := skip_space s in
  let '(neg, s) :=
    match s with
    | String "-" s' => (true, s')
    | String "+" s' => (false, s')
    | _ => (false, s)
    end in
  let mag := parse_magnitude s in
  if 2 ^ 32 <=? mag then 2 ^ 32 - 1
  else if neg then (2 ^ 32 - mag) mod 2 ^ 32
  else mag.

Definition sim_platform : platform sim := {|
  mem32_read32 := fun _ s => sim_read s;
  mem32_read16 := fun _ s => sim_read s;
  mem32_write32 := fun _ _ s => sim_write s;
  mem32_write16 := fun _ _ s => sim_write s;
  mem32_write8 := fun _ _ s => sim_write s;
  mem32_write := fun _ _ s => sim_write s;
  check_error := sim_check;
  calloc := sim_calloc;
  sys_reset := fun s => s;
  halt_resume := fun _ s => s;
  attach := sim_attach;
  flash_erase_rom := fun _ _ s => sim_rom s;
  flash_write_magic_vect_rom := fun _ _ s => sim_rom s;
  strtoul := sim_strtoul
|}.

(** A device that answers the given reads and never reports an error. *)
Definition device (rs : list Z) : sim :=
  {| reads := rs; write_errs := []; check_errs := []; allocs := [];
     attaches := []; rom_results := [] |}.

(** The target object before a probe ran. *)
Definition blank_target (id : Z) : target :=
  {| part_id := id; driver := EmptyString; attach_op := None; detach_op := None;
     mass_erase := None; flash := []; ram := []; commands := [];
     target_storage := None; inhibit_nrst := false |}.

(** ** Shapes of traces used in the statements *)

(** The program/data unlock: lock, PEKEY pair, PRGKEY pair, and the read of
    PECR that verifies it ([v] is the value read). *)
Definition prog_unlock_events (flash_base v : Z) : list event :=
  [Write32 (STM32Lx_FLASH_PECR flash_base) STM32Lx_FLASH_PECR_PELOCK;
   Write32 (STM32Lx_FLASH_PEKEYR flash_base) STM32Lx_FLASH_PEKEY1;
   Write32 (STM32Lx_FLASH_PEKEYR flash_base) STM32Lx_FLASH_PEKEY2;
   Write32 (STM32Lx_FLASH_PRGKEYR flash_base) STM32Lx_FLASH_PRGKEY1;
   Write32 (STM32Lx_FLASH_PRGKEYR flash_base) STM32Lx_FLASH_PRGKEY2;
   Read32 (STM32Lx_FLASH_PECR flash_base) v].

(** The option unlock. *)
Definition opt_unlock_events (flash_base v : Z) : list event :=
  [Write32 (STM32Lx_FLASH_PECR flash_base) STM32Lx_FLASH_PECR_PELOCK;
   Write32 (STM32Lx_FLASH_PEKEYR flash_base) STM32Lx_FLASH_PEKEY1;
   Write32 (STM32Lx_FLASH_PEKEYR flash_base) STM32Lx_FLASH_PEKEY2;
   Write32 (STM32Lx_FLASH_OPTKEYR flash_base) STM32Lx_FLASH_OPTKEY1;
   Write32 (STM32Lx_FLASH_OPTKEYR flash_base) STM32Lx_FLASH_OPTKEY2;
   Read32 (STM32Lx_FLASH_PECR flash_base) v].

(** The two magic patterns of the option wipe, each followed by the
    option-byte reload. *)
Definition option_wipe_events (flash_base : Z) : list event :=
  [Write32 STM32Lx_FLASH_OPT_BASE 0xffff0000;
   Write32 (STM32Lx_FLASH_PECR flash_base) STM32Lx_FLASH_PECR_OBL_LAUNCH;
   Write32 STM32Lx_FLASH_OPT_BASE 0xff5500aa;
   Write32 (STM32Lx_FLASH_PECR flash_base) STM32Lx_FLASH_PECR_OBL_LAUNCH].

Definition lock_event (flash_base : Z) : event :=
  Write32 (STM32Lx_FLASH_PECR flash_base) STM32Lx_FLASH_PECR_PELOCK.

Definition sr_busy (v : Z) : bool := negb (Z.land v STM32Lx_FLASH_SR_BSY =? 0).

(** Polls of the status register that found it busy, each followed by the
    progress report. *)
Definition busy_polls (flash_base : Z) (vs : list Z) : list event :=
  flat_map (fun v => [Read32 (STM32Lx_FLASH_SR flash_base) v; Progress]) vs.

(** Whether a trace holds a read of the option register that returned read
    protection level 0. *)
Definition confirms_unprotected (flash_base : Z) (tr : list event) : bool :=
  existsb (fun e =>
             match e with
             | Read32 a v =>
                 (a =? STM32Lx_FLASH_OPTR flash_base)
                 && (Z.land v STM32Lx_FLASH_OPTR_RDPROT_MASK
                     =? STM32Lx_FLASH_OPTR_RDPROT_0)
             | _ => false
             end) tr.

(** The events that follow the completed program-key sequence, if the trace
    has one. *)
Fixpoint after_prog_unlock (flash_base : Z) (tr : list event) : option (list event) :=
  match tr with
  | [] => None
  | Write32 a v :: tr' =>
      if (a =? STM32Lx_FLASH_PRGKEYR flash_base) && (v =? STM32Lx_FLASH_PRGKEY2)
      then Some tr'
      else after_prog_unlock flash_base tr'
  | _ :: tr' => after_prog_unlock flash_base tr'
  end.

Definition is_lock_write (flash_base : Z) (e : event) : bool :=
  match e with
  | Write32 a v =>
      (a =? STM32Lx_FLASH_PECR flash_base) && Z.testbit v 0
  | _ => false
  end.

(** A run that unlocked PECR wrote the PELOCK bit again afterwards. *)
Definition relocks (flash_base : Z) (tr : list event) : bool :=
  match after_prog_unlock flash_base tr with
  | Some post => existsb (is_lock_write flash_base) post
  | None => true
  end.

(** The number of [k >= 0] with [k * bsize < len]. *)
Definition block_count (len bsize : Z) : nat :=
  Z.to_nat ((len + bsize - 1) / bsize).

(** The usage text of the eeprom command. *)
Definition eeprom_usage_events (t : target) : list event :=
  [Printf "usage: monitor eeprom [ARGS]\n" [];
   Printf "  byte     <addr> <value8>  - Write a byte\n" [];
   Printf "  halfword <addr> <value16> - Write a half-word\n" [];
   Printf "  word     <addr> <value32> - Write a word\n" [];
   Printf "The value of <addr> must in the interval [0x%08x, 0x%x)\n"
     [ArgZ STM32Lx_FLASH_EEPROM_BASE;
      ArgZ (wrap32 (STM32Lx_FLASH_EEPROM_BASE + stm32lx_nvm_eeprom_size t))]].

(** The three rejections of the eeprom command, as the claim words them; the
    command word is matched the way the source matches it. *)
Inductive eeprom_reject : Type :=
| OutOfRange | OddHalfword | MisalignedWord.

Definition cmd_is (cmd name : string) : bool :=
  strncasecmp cmd name (strlen cmd) =? 0.

Definition eeprom_rejects (t : target) (cmd : string) (addr : Z) (why : eeprom_reject)
  : bool :=
  let in_range :=
    (STM32Lx_FLASH_EEPROM_BASE <=? addr)
    && (addr <? STM32Lx_FLASH_EEPROM_BASE + stm32lx_nvm_eeprom_size t) in
  match why with
  | OutOfRange => negb in_range
  | OddHalfword =>
      in_range && negb (cmd_is cmd "byte") && cmd_is cmd "halfword"
      && negb (Z.land addr 1 =? 0)
  | MisalignedWord =>
      in_range && negb (cmd_is cmd "byte") && negb (cmd_is cmd "halfword")
      && cmd_is cmd "word" && negb (Z.land addr 3 =? 0)
  end.

(** What the command prints when it rejects. *)
Definition eeprom_reject_events (t : target) (why : eeprom_reject) : list event :=
  match why with
  | OutOfRange => eeprom_usage_events t
  | _ => Printf "Refusing to do unaligned write\n" [] :: eeprom_usage_events t
  end.

(** The three steps of the reset/attach sequence. *)
Definition reset_attach_events (ok : bool) : list event :=
  [TargetReset; HaltResume false; CortexmAttach ok].



(** ** Concrete targets for the examples *)

(** The target a probe left behind ([d] if the probe did not return). *)
Definition probed {P} (r : res P (bool * target)) (d : target) : target :=
  match r with
  | Done (_, t) _ _ => t
  | Stop _ _ _ => d
  end.

(** An STM32L1 (category 1) whose option register reads protection level 0. *)
Definition stm32l1_open : target :=
  probed (stm32l1_probe sim_platform (blank_target 0) 0x416 (device [0xaa]))
         (blank_target 0).

(** The same part with the read protection set (RDPROT byte 0x00: level 1). *)
Definition stm32l1_protected : target :=
  probed (stm32l1_probe sim_platform (blank_target 0) 0x416 (device [0x00]))
         (blank_target 0).

(** An STM32L07x (category 5) with 192 KiB of flash. *)
Definition stm32l07x : target :=
  probed (stm32l0_probe sim_platform (blank_target ID_STM32L07x) (device [192]))
         (blank_target 0).

(** An LPC54605J256. *)
Definition lpc54605 : target :=
  probed (lpc546xx_probe sim_platform (blank_target 0) (device [0x7f954605]))
         (blank_target 0).

(** The EEPROM region of an STM32L0. *)
Definition eeprom_region : target_flash :=
  {| start := STM32Lx_EEPROM_BASE; length := 0x1800; blocksize := 4;
     writesize := 0; erase := Some stm32lx_eeprom_erase_fn;
     write := Some stm32lx_eeprom_write_fn |}.

(** The single region [stm32l1_probe] registers. *)
Definition stm32l1_region : target_flash :=
  {| start := STM32Lx_FLASH_BANK_BASE; length := 0x80000; blocksize := 0x100;
     writesize := 0x80; erase := Some stm32lx_flash_erase_fn;
     write := Some stm32lx_flash_write_fn |}.

(** A device that answers the given reads and reports an error on the
    [n]-th write (counted from 0). *)
Definition device_failing_write (rs : list Z) (n : nat) : sim :=
  {| reads := rs; write_errs := repeat false n ++ [true]; check_errs := [];
     allocs := []; attaches := []; rom_results := [] |}.

(** A device whose ROM erase routine reports the given results. *)
Definition device_rom (rs : list Z) (results : list bool) : sim :=
  {| reads := rs; write_errs := []; check_errs := []; allocs := [];
     attaches := []; rom_results := results |}.

(** A host buffer holding the bytes 0, 1, 2, ... *)
Definition counting_buf : host_buf := fun i => Z.of_nat i.

(** The regions of a list erased one after the other, each erase reporting
    success: the states passed through and the calls made. *)
Inductive erase_chain {P : Type} (T : platform P) (fuel : nat) (t : target)
  : list target_flash -> P -> P -> list event -> Prop :=
| erase_chain_nil p : erase_chain T fuel t [] p p []
| erase_chain_cons f fl p p1 p2 tr1 tr2 :
    stm32lx_flash_erase T fuel t f (start f) (length f) p = Done true p1 tr1 ->
    erase_chain T fuel t fl p1 p2 tr2 ->
    erase_chain T fuel t (f :: fl) p p2 (tr1 ++ tr2).

(** ** Shapes of traces used for the remaining functions *)

(** Polls of [stm32lx_nvm_busy_wait] that found the controller busy: the
    status read, the transport check that found no error, and the progress
    report when a deadline was supplied. *)
Definition wait_polls (flash_base : Z) (timeout : bool) (vs : list Z) : list event :=
  flat_map (fun v =>
              Read32 (STM32Lx_FLASH_SR flash_base) v
              :: CheckError false
              :: (if timeout then [Progress] else [])) vs.

(** The calls of the trigger loop of [stm32lx_flash_erase] for [n] blocks. *)
Definition flash_trigger_events (addr bsize : Z) (full_erase : bool) (n : nat)
  : list event :=
  flat_map (fun k =>
              Write32 (wrap32 (addr + Z.of_nat k * bsize)) 0
              :: (if full_erase then [Progress] else [])) (seq 0 n).

(** A trace that ends the way a successful operation ends: PELOCK written to
    PECR, then polls that write nothing, then a last status read without
    error flag and a transport check without error. *)
Definition ends_locked_and_clean (flash_base : Z) (tr : list event) : Prop :=
  exists pre polls status,
    tr = pre ++ lock_event flash_base
             :: polls ++ [Read32 (STM32Lx_FLASH_SR flash_base) status; CheckError false] /\
    writes32 polls = [] /\
    Z.land status STM32Lx_FLASH_SR_ERR_MASK = 0.

(** The write the eeprom command performs for a command word and an address:
    the width in bytes, or [None] when the command rejects them (the order of
    the tests is the one of [stm32lx_cmd_eeprom]). *)
Definition eeprom_accepts (t : target) (cmd : string) (addr : Z) : option Z :=
  if (STM32Lx_FLASH_EEPROM_BASE <=? addr)
     && (addr <? STM32Lx_FLASH_EEPROM_BASE + stm32lx_nvm_eeprom_size t)
  then
    if cmd_is cmd "byte" then Some 1
    else if cmd_is cmd "halfword" then
      if Z.land addr 1 =? 0 then Some 2 else None
    else if cmd_is cmd "word" then
      if Z.land addr 3 =? 0 then Some 4 else None
    else None
  else None.

(** The value the eeprom command passes on for a width. *)
Definition width_mask (block_size val : Z) : Z :=
  if block_size =? 1 then Z.land val 0xff
  else if block_size =? 2 then Z.land val 0xffff
  else val.

(** The usage text of the option command. *)
Definition option_usage_events (t : target) : list event :=
  [Printf "usage: monitor option [ARGS]\n" [];
   Printf "  show                   - Show options in FLASH and as loaded\n" [];
   Printf "  obl_launch             - Reload options from FLASH\n" [];
   Printf "  write <addr> <value16> - Set option half-word; complement computed\n" [];
   Printf "  raw <addr> <value32>   - Set option word\n" [];
   Printf "The value of <addr> must be 32-bit aligned and from 0x%08x to +0x%x\n"
     [ArgZ STM32Lx_FLASH_OPT_BASE;
      ArgZ (wrap32 (STM32Lx_FLASH_OPT_BASE
                    + wrap32 (stm32lx_nvm_option_size t - 4)))]].

(** Whether an address is one the option command writes to. *)
Definition option_addr_ok (t : target) (addr : Z) : bool :=
  (STM32Lx_FLASH_OPT_BASE <=? addr)
  && (addr <? STM32Lx_FLASH_OPT_BASE + stm32lx_nvm_option_size t)
  && (Z.land addr 3 =? 0).

(** The ways the option command ends in its usage text. *)
Inductive option_reject : Type :=
| NoArgument | UnknownCommand | BadAddress.

Definition option_rejects (t : target) (argc : Z) (cmd : string) (addr : Z)
    (why : option_reject) : bool :=
  match why with
  | NoArgument => argc <? 2
  | UnknownCommand =>
      (argc =? 4) && negb (cmd_is cmd "raw") && negb (cmd_is cmd "write")
  | BadAddress =>
      (argc =? 4) && (cmd_is cmd "raw" || cmd_is cmd "write")
      && negb (option_addr_ok t addr)
  end.


(** The part numbers [stm32l1_probe] accepts. *)
Definition stm32l1_partno_known (partno : Z) : bool :=
  (partno =? 0x416) || (partno =? 0x429) || (partno =? 0x427)
  || (partno =? 0x436) || (partno =? 0x437).

(** The part ids [stm32l0_probe] accepts. *)
Definition stm32l0_part_id_known (id : Z) : bool :=
  (id =? ID_STM32L01x) || (id =? ID_STM32L03x) || (id =? ID_STM32L05x)
  || (id =? ID_STM32L07x).

(** The regions [stm32l0_probe] registers for a part id and a flash size read
    in KiB, when every allocation succeeds. *)
Definition stm32l0_flash_bank (addr len : Z) : target_flash :=
  {| start := addr; length := len; blocksize := STM32L0_FLASH_PAGE_SIZE;
     writesize := Z.shiftr STM32L0_FLASH_PAGE_SIZE 1;
     erase := Some stm32lx_flash_erase_fn; write := Some stm32lx_flash_write_fn |}.

Definition stm32l0_flash_map (id kib : Z) : list target_flash :=
  let flash_size := wrap32 (kib * 1024) in
  (if id =? ID_STM32L07x then
     [stm32l0_flash_bank STM32Lx_FLASH_BANK_BASE (Z.shiftr flash_size 1);
      stm32l0_flash_bank (wrap32 (STM32Lx_FLASH_BANK_BASE + Z.shiftr flash_size 1))
        (Z.shiftr flash_size 1)]
   else [stm32l0_flash_bank STM32Lx_FLASH_BANK_BASE flash_size])
  ++ [eeprom_region].

(** Regions listed in ascending order, none reaching into the next. *)
Fixpoint ascending_disjoint (l : list target_flash) : Prop :=
  match l with
  | [] => True
  | f :: rest =>
      0 <= length f /\
      match rest with
      | [] => True
      | g :: _ => start f + length f <= start g
      end /\
      ascending_disjoint rest
  end.

(** The two writes of [stm32l0_configure_dbgmcu]. *)
Definition dbgmcu_events : list event :=
  [Write32 STM32L0_DBGMCU_CONFIG
     (Z.lor (Z.lor STM32Lx_DBGMCU_CONFIG_DBG_SLEEP STM32Lx_DBGMCU_CONFIG_DBG_STANDBY)
            STM32Lx_DBGMCU_CONFIG_DBG_STOP);
   Write32 STM32L0_DBGMCU_APB1FREEZE
     (Z.lor STM32Lx_DBGMCU_APB1FREEZE_WWDG STM32Lx_DBGMCU_APB1FREEZE_IWDG)].

(** The calls of [lpc546xx_flash_init]: the reset/attach sequence, the read
    of the watchdog mode, the long period when the watchdog runs unprotected,
    and the clock and flash configuration. *)
Definition lpc546xx_init_events (ok : bool) (wdt_mode : Z) : list event :=
  reset_attach_events ok
  ++ Read32 LPC546XX_WDT_MODE wdt_mode
     :: (if negb (wdt_mode =? 0) && (Z.land wdt_mode LPC546XX_WDT_PROTECT =? 0)
         then [Write32 LPC546XX_WDT_CNT LPC546XX_WDT_PERIOD_MAX]
         else [])
  ++ [Write32 LPC546XX_MAINCLKSELA 0;
      Write32 LPC546XX_MAINCLKSELB 0;
      Write32 LPC546XX_AHBCLKDIV 0;
      Write32 LPC546XX_FLASHCFG 0x1a].

(** The region [lpc546xx_probe] registers for a flash size. *)
Definition lpc546xx_region (flash_size : Z) : target_flash :=
  {| start := 0x0; length := flash_size; blocksize := 0x8000;
     writesize := IAP_PGM_CHUNKSIZE;
     erase := Some lpc546xx_flash_erase_fn;
     write := Some lpc_flash_write_magic_vect_fn |}.

(** A string with the case of its letters folded, as [strncasecmp] compares
    it. *)
Fixpoint lower_str (s : string) : string :=
  match s with
  | EmptyString => EmptyString
  | String c s' => String (tolower c) (lower_str s')
  end.

(** Whether a string holds the character NUL, which ends a C string. *)
Fixpoint has_nul (s : string) : bool :=
  match s with
  | EmptyString => false
  | String c s' => Ascii.eqb c NUL || has_nul s'
  end.

(** * Properties *)

(** ** Runs *)

Lemma trace_prepend {P A} (tr : list event) (r : res P A) :
  trace (prepend tr r) = tr ++ trace r.
Proof. destruct r; reflexivity. Qed.

Lemma returned_prepend {P A} (tr : list event) (r : res P A) :
  returned (prepend tr r) = returned r.
Proof. destruct r; reflexivity. Qed.

Lemma bind_done {P A B} (m : M P A) (k : A -> M P B) p a p1 tr1 :
  m p = Done a p1 tr1 -> bind m k p = prepend tr1 (k a p1).
Proof. intros H; unfold bind; rewrite H; reflexivity. Qed.

Lemma bind_stop {P A B} (m : M P A) (k : A -> M P B) p s p1 tr1 :
  m p = Stop s p1 tr1 -> bind m k p = Stop s p1 tr1.
Proof. intros H; unfold bind; rewrite H; reflexivity. Qed.

Lemma wrap32_range x : 0 <= wrap32 x < 2 ^ 32.
Proof. unfold wrap32; apply Z.mod_pos_bound; lia. Qed.

Lemma wrap32_small x : 0 <= x < 2 ^ 32 -> wrap32 x = x.
Proof. intros H; unfold wrap32; apply Z.mod_small; exact H. Qed.

Lemma wrap_size_small x : 0 <= x < 2 ^ 32 -> wrap_size x = x.
Proof. intros H; unfold wrap_size; apply Z.mod_small; exact H. Qed.

Section Runs.
Context {P : Type} (T : platform P).

Lemma write32_run a v p :
  exists e p', target_mem32_write32 T a v p = Done e p' [Write32 a (wrap32 v)].
Proof.
  unfold target_mem32_write32.
  destruct (mem32_write32 T a (wrap32 v) p) as [e p']; eauto.
Qed.

Lemma read32_run a p :
  exists v p', 0 <= v < 2 ^ 32 /\ target_mem32_read32 T a p = Done v p' [Read32 a v].
Proof.
  unfold target_mem32_read32.
  destruct (mem32_read32 T a p) as [v p'].
  exists (wrap32 v), p'; split; [apply wrap32_range | reflexivity].
Qed.

Lemma check_error_run p :
  exists e p', target_check_error T p = Done e p' [CheckError e].
Proof.
  unfold target_check_error. destruct (check_error T p) as [e p']; eauto.
Qed.

Lemma lock_run base p :
  exists p', stm32lx_nvm_lock T base p = Done tt p' [lock_event base].
Proof.
  unfold stm32lx_nvm_lock.
  destruct (write32_run (STM32Lx_FLASH_PECR base) STM32Lx_FLASH_PECR_PELOCK p)
    as (e & p' & H).
  rewrite (bind_done _ _ _ _ _ _ H). exists p'. reflexivity.
Qed.

Lemma prog_unlock_run base p :
  exists v p', 0 <= v < 2 ^ 32 /\
    stm32lx_nvm_prog_data_unlock T base p
    = Done (Z.land v STM32Lx_FLASH_PECR_PRGLOCK =? 0) p' (prog_unlock_events base v).
Proof.
  unfold stm32lx_nvm_prog_data_unlock, bind, target_mem32_write32, target_mem32_read32.
  repeat match goal with
         | |- context [mem32_write32 T ?a ?v ?q] =>
             destruct (mem32_write32 T a v q) as [? ?]
         end.
  match goal with
  | |- context [mem32_read32 T ?a ?q] => destruct (mem32_read32 T a q) as [v p']
  end.
  exists (wrap32 v), p'. split; [apply wrap32_range | reflexivity].
Qed.

Lemma opt_unlock_run base p :
  exists v p', 0 <= v < 2 ^ 32 /\
    stm32lx_nvm_opt_unlock T base p
    = Done (Z.land v STM32Lx_FLASH_PECR_OPTLOCK =? 0) p' (opt_unlock_events base v).
Proof.
  unfold stm32lx_nvm_opt_unlock, bind, target_mem32_write32, target_mem32_read32.
  repeat match goal with
         | |- context [mem32_write32 T ?a ?v ?q] =>
             destruct (mem32_write32 T a v q) as [? ?]
         end.
  match goal with
  | |- context [mem32_read32 T ?a ?q] => destruct (mem32_read32 T a q) as [v p']
  end.
  exists (wrap32 v), p'. split; [apply wrap32_range | reflexivity].
Qed.
End Runs.


(** ** The LPC546xx console commands and the reset/attach sequence *)

Section Lpc546xxProperties.
Context {P : Type} (T : platform P).

Lemma reset_attach_run p :
  exists ok p3, lpc546xx_reset_attach T p = Done tt p3 (reset_attach_events ok).
Proof.
  unfold lpc546xx_reset_attach, bind, target_reset, target_halt_resume, cortexm_attach.
  destruct (attach T (halt_resume T false (sys_reset T p))) as [ok p3].
  exists ok, p3. reflexivity.
Qed.




(** C10.  Called without a sector argument ([argc <= 1]), [erase_sector] and
    [write_sector] return success, make no call at all (no flash operation, no
    access to the device) and leave the platform as it was. *)
Theorem sector_commands_without_argument :
  forall (t : target) (argc : Z) (argv : list string) (p : P),
    argc <= 1 ->
    lpc546xx_cmd_erase_sector T t argc argv p = Done true p [] /\
    lpc546xx_cmd_write_sector T t argc argv p = Done true p [].
Proof.
  intros t argc argv p Hargc.
  unfold lpc546xx_cmd_erase_sector, lpc546xx_cmd_write_sector.
  assert (H : (1 <? argc) = false) by (apply Z.ltb_ge; exact Hargc).
  rewrite H. split; reflexivity.
Qed.
End Lpc546xxProperties.

(** ** Option words *)

Lemma testbit_wrap32 x n : 0 <= n -> Z.testbit (wrap32 x) n = (n <? 32) && Z.testbit x n.
Proof.
  intros Hn. unfold wrap32. apply Z.testbit_mod_pow2. lia.
Qed.

Lemma testbit_ffff n : 0 <= n -> Z.testbit 0xffff n = (n <? 16).
Proof.
  intros Hn. change 0xffff with (Z.ones 16).
  rewrite Z.testbit_ones by lia.
  destruct (Z.leb_spec 0 n); [reflexivity | lia].
Qed.

Ltac bit_rewrite :=
  repeat first
    [ rewrite Z.land_spec | rewrite Z.lor_spec | rewrite Z.lxor_spec
    | rewrite testbit_ffff by lia
    | rewrite testbit_wrap32 by lia
    | rewrite Z.shiftr_spec by lia
    | rewrite Z.shiftl_spec_low by lia
    | rewrite Z.shiftl_spec_high by lia
    | rewrite Z.lnot_spec by lia
    | rewrite Z.add_simpl_r ].

Ltac bit_cases :=
  repeat match goal with
         | |- context [?a <? ?b] => destruct (Z.ltb_spec a b); try lia
         end;
  repeat match goal with
         | |- context [Z.testbit ?a ?b] => destruct (Z.testbit a b)
         end;
  try reflexivity.

Ltac bitwise v H :=
  rewrite <- (wrap32_small v H);
  apply Z.bits_inj'; intros n Hn;
  destruct (Z.ltb_spec n 16); bit_rewrite; bit_cases.


Lemma option_word_low val : 0 <= val < 2^32 ->
  Z.land (option_word val) 0xffff = Z.land val 0xffff.
Proof.
  intros H. unfold option_word, not32. bitwise val H.
Qed.

Lemma option_word_high val : 0 <= val < 2^32 ->
  Z.land (Z.shiftr (option_word val) 16) 0xffff = Z.lxor (Z.land val 0xffff) 0xffff.
Proof.
  intros H. unfold option_word, not32. bitwise val H.
Qed.

Lemma not32_high w : 0 <= w < 2^32 ->
  Z.land (Z.shiftr (not32 w) 16) 0xffff = Z.lxor (Z.land (Z.shiftr w 16) 0xffff) 0xffff.
Proof.
  intros H. unfold not32. bitwise w H.
Qed.

Lemma lxor_ffff_involutive x : Z.lxor (Z.lxor (Z.land x 0xffff) 0xffff) 0xffff = Z.land x 0xffff.
Proof.
  rewrite Z.lxor_assoc, Z.lxor_nilpotent, Z.lxor_0_r. reflexivity.
Qed.

Lemma option_word_ok_iff w : 0 <= w < 2^32 ->
  option_word_ok w = true <-> Z.land (Z.shiftr w 16) 0xffff = Z.lxor (Z.land w 0xffff) 0xffff.
Proof.
  intros H. unfold option_word_ok. rewrite Z.eqb_eq, (not32_high w H). split; intros E.
  - rewrite E. rewrite lxor_ffff_involutive. reflexivity.
  - rewrite E. rewrite lxor_ffff_involutive. reflexivity.
Qed.

Lemma option_word_wrap val : 0 <= val < 2 ^ 32 ->
  wrap32 (option_word val) = option_word val.
Proof.
  intros H. unfold option_word, not32. bitwise val H.
Qed.

Section OptionCommand.
Context {P : Type} (T : platform P).





End OptionCommand.

(** ** The protected device: option wipe and region operations *)

Section Protected.
Context {P : Type} (T : platform P).

Lemma protected_wait_run fuel base p :
  match stm32lx_protected_mass_erase_wait T fuel base p with
  | Done _ _ tr =>
      exists vs v,
        (List.length vs < fuel)%nat /\ forallb sr_busy vs = true /\
        sr_busy v = false /\
        tr = busy_polls base vs ++ [Read32 (STM32Lx_FLASH_SR base) v]
  | Stop s _ tr =>
      s = OutOfFuel /\
      exists vs,
        List.length vs = fuel /\ forallb sr_busy vs = true /\
        tr = busy_polls base vs
  end.
Proof.
  revert p. induction fuel as [| fuel IH]; intros p.
  - cbn. split; [reflexivity |]. exists []. repeat split.
  - cbn [stm32lx_protected_mass_erase_wait].
    destruct (read32_run T (STM32Lx_FLASH_SR base) p) as (v & p1 & _ & Hr).
    rewrite (bind_done _ _ _ _ _ _ Hr).
    fold (sr_busy v). destruct (sr_busy v) eqn:Hbusy.
    + unfold bind at 1. unfold target_print_progress at 1. cbn [prepend].
      specialize (IH p1).
      destruct (stm32lx_protected_mass_erase_wait T fuel base p1) as [[] p2 tr | s p2 tr];
        cbn [prepend].
      * destruct IH as (vs & v' & Hlen & Hall & Hidle & Htr).
        exists (v :: vs), v'. cbn [List.length forallb busy_polls flat_map].
        rewrite Hbusy, Hall, Htr. repeat split; try lia; try assumption.
      * destruct IH as (Hs & vs & Hlen & Hall & Htr).
        split; [exact Hs |]. exists (v :: vs).
        cbn [List.length forallb busy_polls flat_map].
        rewrite Hbusy, Hall, Htr, Hlen. repeat split.
    + cbn [prepend ret]. exists [], v. cbn.
      repeat split; try lia; try assumption.
Qed.

Lemma optr_not_pecr t :
  (STM32Lx_FLASH_PECR (stm32lx_flash_base t) =? STM32Lx_FLASH_OPTR (stm32lx_flash_base t))
  = false.
Proof. unfold stm32lx_flash_base. destruct (stm32lx_is_stm32l1 t); reflexivity. Qed.

Lemma optr_not_sr t :
  (STM32Lx_FLASH_SR (stm32lx_flash_base t) =? STM32Lx_FLASH_OPTR (stm32lx_flash_base t))
  = false.
Proof. unfold stm32lx_flash_base. destruct (stm32lx_is_stm32l1 t); reflexivity. Qed.

Lemma busy_polls_confirm_nothing t vs :
  confirms_unprotected (stm32lx_flash_base t) (busy_polls (stm32lx_flash_base t) vs)
  = false.
Proof.
  unfold confirms_unprotected.
  induction vs as [| v vs IH]; [reflexivity |].
  cbn [busy_polls flat_map app existsb]. rewrite (optr_not_sr t).
  cbn [andb orb]. exact IH.
Qed.

Lemma prelude_confirms_nothing t u :
  confirms_unprotected (stm32lx_flash_base t)
    (opt_unlock_events (stm32lx_flash_base t) u) = false.
Proof.
  unfold confirms_unprotected, opt_unlock_events. cbn [existsb].
  rewrite (optr_not_pecr t). reflexivity.
Qed.

Lemma wipe_confirms_nothing t :
  confirms_unprotected (stm32lx_flash_base t)
    (option_wipe_events (stm32lx_flash_base t)) = false.
Proof.
  reflexivity.
Qed.

Lemma confirms_app base tr1 tr2 :
  confirms_unprotected base (tr1 ++ tr2)
  = confirms_unprotected base tr1 || confirms_unprotected base tr2.
Proof. unfold confirms_unprotected. apply existsb_app. Qed.

Lemma protected_mass_erase_run fuel t p :
  let base := stm32lx_flash_base t in
  exists u,
    match stm32lx_protected_mass_erase T fuel t p with
    | Done r _ tr =>
        (r = false /\ Z.land u STM32Lx_FLASH_PECR_OPTLOCK <> 0 /\
         tr = opt_unlock_events base u)
        \/
        (r = true /\ Z.land u STM32Lx_FLASH_PECR_OPTLOCK = 0 /\
         exists vs v,
           (List.length vs < fuel)%nat /\ forallb sr_busy vs = true /\
           sr_busy v = false /\
           tr = opt_unlock_events base u ++ option_wipe_events base
                ++ busy_polls base vs
                ++ [Read32 (STM32Lx_FLASH_SR base) v; lock_event base])
    | Stop s _ tr =>
        s = OutOfFuel /\ Z.land u STM32Lx_FLASH_PECR_OPTLOCK = 0 /\
        exists vs,
          List.length vs = fuel /\ forallb sr_busy vs = true /\
          tr = opt_unlock_events base u ++ option_wipe_events base
               ++ busy_polls base vs
    end.
Proof.
  intros base.
  unfold stm32lx_protected_mass_erase. fold base.
  destruct (opt_unlock_run T base p) as (u & p1 & _ & Hu).
  rewrite (bind_done _ _ _ _ _ _ Hu). exists u.
  destruct (Z.land u STM32Lx_FLASH_PECR_OPTLOCK =? 0) eqn:Hlock; cbn [negb].
  - apply Z.eqb_eq in Hlock.
    destruct (write32_run T STM32Lx_FLASH_OPT_BASE 0xffff0000 p1) as (e1 & q1 & H1).
    rewrite (bind_done _ _ _ _ _ _ H1).
    destruct (write32_run T (STM32Lx_FLASH_PECR base) STM32Lx_FLASH_PECR_OBL_LAUNCH q1)
      as (e2 & q2 & H2).
    rewrite (bind_done _ _ _ _ _ _ H2).
    destruct (write32_run T STM32Lx_FLASH_OPT_BASE 0xff5500aa q2) as (e3 & q3 & H3).
    rewrite (bind_done _ _ _ _ _ _ H3).
    destruct (write32_run T (STM32Lx_FLASH_PECR base) STM32Lx_FLASH_PECR_OBL_LAUNCH q3)
      as (e4 & q4 & H4).
    rewrite (bind_done _ _ _ _ _ _ H4).
    pose proof (protected_wait_run fuel base q4) as Hw.
    unfold bind at 1.
    destruct (stm32lx_protected_mass_erase_wait T fuel base q4) as [[] q5 tr | s q5 tr].
    + destruct Hw as (vs & v & Hlen & Hall & Hidle & Htr).
      destruct (lock_run T base q5) as (q6 & Hl).
      rewrite (bind_done _ _ _ _ _ _ Hl). cbn [ret prepend].
      subst tr. right. split; [reflexivity |]. split; [exact Hlock |].
      exists vs, v. repeat split; try assumption.
      cbn [app]. rewrite <- !app_assoc. reflexivity.
    + destruct Hw as (Hs & vs & Hlen & Hall & Htr).
      cbn [prepend]. subst tr. split; [exact Hs |]. split; [exact Hlock |].
      exists vs. repeat split; try assumption.
  - apply Z.eqb_neq in Hlock. cbn [ret prepend]. rewrite app_nil_r.
    left. repeat split; assumption.
Qed.

(** C3 (as amended).  On a protected device [mass_erase] is the option-wipe
    recovery: the option unlock, then the two magic patterns written to the
    option window, each followed by the option-byte reload, then polling of
    the status register until it is no longer busy, then the lock.  It
    reports failure exactly when the unlock was not verified, and success as
    soon as the polling ends; if the device stays busy for as many polls as
    there is fuel, the run is still polling.  No run reads the option
    register, so success is never backed by a confirmation that the device
    is unprotected. *)
Theorem protected_mass_erase_sequence :
  forall (fuel : nat) (t : target) (p : P),
    is_protected t = true ->
    let base := stm32lx_flash_base t in
    (exists u,
        match mass_erase_op T fuel t p with
        | Done r _ tr =>
            (r = false /\ Z.land u STM32Lx_FLASH_PECR_OPTLOCK <> 0 /\
             tr = opt_unlock_events base u)
            \/
            (r = true /\ Z.land u STM32Lx_FLASH_PECR_OPTLOCK = 0 /\
             exists vs v,
               (List.length vs < fuel)%nat /\ forallb sr_busy vs = true /\
               sr_busy v = false /\
               tr = opt_unlock_events base u ++ option_wipe_events base
                    ++ busy_polls base vs
                    ++ [Read32 (STM32Lx_FLASH_SR base) v; lock_event base])
        | Stop s _ tr =>
            s = OutOfFuel /\ Z.land u STM32Lx_FLASH_PECR_OPTLOCK = 0 /\
            exists vs,
              List.length vs = fuel /\ forallb sr_busy vs = true /\
              tr = opt_unlock_events base u ++ option_wipe_events base
                   ++ busy_polls base vs
        end) /\
    confirms_unprotected base (trace (mass_erase_op T fuel t p)) = false.
Proof.
  intros fuel t p Hprot base.
  assert (Hop : mass_erase_op T fuel t p = stm32lx_protected_mass_erase T fuel t p).
  { unfold mass_erase_op, is_protected in *.
    destruct (mass_erase t) as [[| |] |]; try discriminate. reflexivity. }
  rewrite Hop. clear Hop.
  pose proof (protected_mass_erase_run fuel t p) as Hrun.
  cbn zeta in Hrun. fold base in Hrun.
  split; [exact Hrun |].
  destruct Hrun as (u & Hrun).
  destruct (stm32lx_protected_mass_erase T fuel t p) as [r q tr | s q tr]; cbn [trace].
  - destruct Hrun as [(_ & _ & Htr) | (_ & _ & vs & v & _ & _ & _ & Htr)]; subst tr.
    + apply prelude_confirms_nothing.
    + rewrite !confirms_app. unfold base.
      rewrite prelude_confirms_nothing, wipe_confirms_nothing,
        busy_polls_confirm_nothing.
      unfold confirms_unprotected, lock_event. cbn [existsb orb].
      rewrite (optr_not_sr t). reflexivity.
  - destruct Hrun as (_ & _ & vs & _ & _ & Htr). subst tr.
    rewrite !confirms_app. unfold base.
    rewrite prelude_confirms_nothing, wipe_confirms_nothing,
      busy_polls_confirm_nothing. reflexivity.
Qed.
End Protected.

(** ** EEPROM erase *)

Lemma block_count_spec len bs k :
  0 < bs -> 0 <= len -> 0 <= k ->
  (k * bs < len <-> (Z.to_nat k < block_count len bs)%nat).
Proof.
  intros Hbs Hlen Hk. unfold block_count.
  assert (Hq : 0 <= (len + bs - 1) / bs) by (apply Z.div_pos; lia).
  rewrite <- Z2Nat.inj_lt by lia.
  split; intros H.
  - apply Z.lt_le_trans with (k + 1); [lia |].
    apply Z.div_le_lower_bound; lia.
  - assert (Hm : bs * ((len + bs - 1) / bs) <= len + bs - 1)
      by (apply Z.mul_div_le; lia).
    nia.
Qed.

Lemma testbit_3 n : 0 <= n -> Z.testbit 3 n = (n <? 2).
Proof.
  intros Hn. change 3 with (Z.ones 2). rewrite Z.testbit_ones by lia.
  destruct (Z.leb_spec 0 n); [reflexivity | lia].
Qed.

Lemma align4_shift addr :
  0 <= addr < 2 ^ 32 -> Z.land addr (not32 3) = Z.shiftl (Z.shiftr addr 2) 2.
Proof.
  intros H. unfold not32. rewrite <- (wrap32_small addr H).
  apply Z.bits_inj'. intros n Hn.
  rewrite Z.land_spec, !testbit_wrap32, Z.lnot_spec, testbit_3 by lia.
  destruct (Z.ltb_spec n 2).
  - rewrite Z.shiftl_spec_low by lia.
    destruct (n <? 32), (Z.testbit addr n); reflexivity.
  - rewrite Z.shiftl_spec_high, Z.shiftr_spec by lia.
    rewrite testbit_wrap32 by lia.
    replace (n - 2 + 2) with n by lia.
    destruct (n <? 32), (Z.testbit addr n); reflexivity.
Qed.

Lemma align4_spec addr :
  0 <= addr < 2 ^ 32 ->
  Z.land addr (not32 3) mod 4 = 0 /\
  Z.land addr (not32 3) <= addr < Z.land addr (not32 3) + 4.
Proof.
  intros H. rewrite (align4_shift addr H).
  rewrite Z.shiftl_mul_pow2, Z.shiftr_div_pow2 by lia.
  change (2 ^ 2) with 4.
  pose proof (Z.div_mod addr 4 ltac:(lia)) as Hdm.
  pose proof (Z.mod_pos_bound addr 4 ltac:(lia)) as Hmb.
  split; [apply Z.mod_mul; lia | lia].
Qed.

Lemma writes32_app tr1 tr2 : writes32 (tr1 ++ tr2) = writes32 tr1 ++ writes32 tr2.
Proof.
  induction tr1 as [| e tr1 IH]; [reflexivity |].
  destruct e; cbn [app writes32]; rewrite IH; reflexivity.
Qed.

Section EepromErase.
Context {P : Type} (T : platform P).

Lemma busy_wait_writes_nothing fuel base timeout p :
  writes32 (trace (stm32lx_nvm_busy_wait T fuel base timeout p)) = [].
Proof.
  revert p. induction fuel as [| fuel IH]; intros p; [reflexivity |].
  cbn [stm32lx_nvm_busy_wait].
  destruct (read32_run T (STM32Lx_FLASH_SR base) p) as (v & p1 & _ & Hr).
  rewrite (bind_done _ _ _ _ _ _ Hr), trace_prepend, writes32_app.
  cbn [writes32 app].
  destruct (negb (Z.land v STM32Lx_FLASH_SR_BSY =? 0)).
  - destruct (check_error_run T p1) as (e & p2 & Hc).
    rewrite (bind_done _ _ _ _ _ _ Hc), trace_prepend, writes32_app.
    cbn [writes32 app]. destruct e; [reflexivity |].
    destruct timeout.
    + unfold bind at 1. unfold target_print_progress at 1.
      rewrite trace_prepend, writes32_app. cbn [writes32 app]. apply IH.
    + unfold bind at 1. unfold ret at 1.
      rewrite trace_prepend, writes32_app. cbn [writes32 app]. apply IH.
  - destruct (read32_run T (STM32Lx_FLASH_SR base) p1) as (s & p2 & _ & Hs).
    rewrite (bind_done _ _ _ _ _ _ Hs), trace_prepend, writes32_app.
    destruct (check_error_run T p2) as (e & p3 & Hc).
    rewrite (bind_done _ _ _ _ _ _ Hc), trace_prepend, writes32_app.
    reflexivity.
Qed.

Lemma eeprom_erase_loop_run n :
  forall fuel aligned len bs offset p,
    0 < bs -> 0 <= offset -> len + bs <= 2 ^ 32 ->
    n = Z.to_nat ((len - offset + bs - 1) / bs) -> (n < fuel)%nat ->
    exists p',
      stm32lx_eeprom_erase_loop T fuel aligned len bs offset p
      = Done tt p'
          (map (fun k => Write32 (wrap32 (aligned + (offset + Z.of_nat k * bs))) 0)
               (seq 0 n)).
Proof.
  induction n as [| n IH]; intros fuel aligned len bs offset p Hbs Hoff Hmax Hn Hfuel.
  - destruct fuel as [| fuel]; [lia |].
    cbn [stm32lx_eeprom_erase_loop].
    assert (Hge : (offset <? len) = false).
    { apply Z.ltb_ge. destruct (Z.le_gt_cases len offset) as [Hle | Hgt]; [exact Hle |].
      exfalso.
      assert (1 <= (len - offset + bs - 1) / bs)
        by (apply Z.div_le_lower_bound; lia).
      lia. }
    rewrite Hge. exists p. reflexivity.
  - destruct fuel as [| fuel]; [lia |].
    cbn [stm32lx_eeprom_erase_loop].
    assert (Hlt : offset < len).
    { destruct (Z.lt_ge_cases offset len) as [Hl | Hg]; [exact Hl |]. exfalso.
      assert ((len - offset + bs - 1) / bs <= 0).
      { destruct (Z.le_gt_cases 0 (len - offset + bs - 1)) as [Hp | Hneg].
        - rewrite Z.div_small; lia.
        - assert ((len - offset + bs - 1) / bs < 0)
            by (apply Z.div_lt_upper_bound; lia).
          lia. }
      lia. }
    pose proof (proj2 (Z.ltb_lt _ _) Hlt) as Hltb. rewrite Hltb.
    destruct (write32_run T (wrap32 (aligned + offset)) 0 p) as (e & p1 & Hw).
    rewrite (bind_done _ _ _ _ _ _ Hw).
    rewrite (wrap_size_small (offset + bs)) by lia.
    assert (Hn' : n = Z.to_nat ((len - (offset + bs) + bs - 1) / bs)).
    { replace (len - offset + bs - 1) with ((len - (offset + bs) + bs - 1) + 1 * bs) in Hn
        by lia.
      rewrite Z.div_add in Hn by lia.
      assert (0 <= (len - (offset + bs) + bs - 1) / bs) by (apply Z.div_pos; lia).
      lia. }
    destruct (IH fuel aligned len bs (offset + bs) p1 Hbs ltac:(lia) Hmax Hn' ltac:(lia))
      as (p' & Hrun).
    rewrite Hrun. exists p'. cbn [prepend].
    f_equal. cbn [seq map app]. f_equal.
    + f_equal. f_equal. lia.
    + rewrite <- seq_shift, map_map. apply map_ext. intros k.
      f_equal. f_equal. lia.
Qed.

Lemma block_count_exact len bs :
  0 < bs -> 0 <= len -> len mod bs = 0 ->
  Z.of_nat (block_count len bs) * bs = len.
Proof.
  intros Hbs Hlen Hmod. unfold block_count.
  pose proof (Z.div_mod len bs ltac:(lia)) as Hdm. rewrite Hmod, Z.add_0_r in Hdm.
  assert (Hq : 0 <= len / bs) by (apply Z.div_pos; lia).
  replace (len + bs - 1) with ((bs - 1) + (len / bs) * bs) by lia.
  rewrite Z.div_add by lia. rewrite Z.div_small by lia.
  rewrite Z2Nat.id by lia. lia.
Qed.

(** C8.  [stm32lx_eeprom_erase] masks the start address down to a 4-byte
    boundary before any trigger is written and, once the unlock and the
    arming of the data erase were verified, writes a zero word at
    [aligned_addr + k * blocksize] for each [k] with [k * blocksize < length],
    in ascending order, then locks and waits: the run is the unlock sequence,
    the arming write and its read-back, these triggers, the lock and the
    busy-wait whose result it returns, and nothing else.  A run whose unlock
    or arming check fails returns failure before any trigger.  The aligned
    address is the multiple of 4 at or just below [addr]; for a misaligned
    [addr] and a length that is a whole number of blocks the triggered blocks
    end before the requested range does. *)
Theorem eeprom_erase_triggers :
  forall (fuel : nat) (t : target) (f : target_flash) (addr len : Z) (p : P),
    0 < blocksize f -> 0 <= len -> len + blocksize f <= 2 ^ 32 ->
    0 <= addr < 2 ^ 32 ->
    (block_count len (blocksize f) < fuel)%nat ->
    let base := stm32lx_flash_base t in
    let aligned_addr := Z.land addr (not32 3) in
    let n := block_count len (blocksize f) in
    let arm := Z.lor STM32Lx_FLASH_PECR_ERASE STM32Lx_FLASH_PECR_DATA in
    let triggers :=
      map (fun k => Write32 (wrap32 (aligned_addr + Z.of_nat k * blocksize f)) 0)
          (seq 0 n) in
    let r := stm32lx_eeprom_erase T fuel t f addr len p in
    (aligned_addr mod 4 = 0 /\ aligned_addr <= addr < aligned_addr + 4) /\
    (forall k, 0 <= k -> (k * blocksize f < len <-> (Z.to_nat k < n)%nat)) /\
    (addr mod 4 <> 0 -> len mod blocksize f = 0 ->
     aligned_addr + Z.of_nat n * blocksize f < addr + len) /\
    exists u,
      (Z.land u STM32Lx_FLASH_PECR_PRGLOCK <> 0 /\
       returned r = Some false /\ trace r = prog_unlock_events base u)
      \/
      (Z.land u STM32Lx_FLASH_PECR_PRGLOCK = 0 /\
       exists v,
         (Z.land v arm <> arm /\
          returned r = Some false /\
          trace r = prog_unlock_events base u
                    ++ [Write32 (STM32Lx_FLASH_PECR base) arm;
                        Read32 (STM32Lx_FLASH_PECR base) v])
         \/
         (Z.land v arm = arm /\
          exists q,
            returned r = returned (stm32lx_nvm_busy_wait T fuel base false q) /\
            trace r = prog_unlock_events base u
                      ++ [Write32 (STM32Lx_FLASH_PECR base) arm;
                          Read32 (STM32Lx_FLASH_PECR base) v]
                      ++ triggers
                      ++ lock_event base
                         :: trace (stm32lx_nvm_busy_wait T fuel base false q))).
Proof.
  intros fuel t f addr len p Hbs Hlen Hmax Haddr Hfuel base aligned_addr n arm
         triggers r.
  pose proof (align4_spec addr Haddr) as Halign. fold aligned_addr in Halign.
  split; [exact Halign |].
  split; [intros k Hk; apply block_count_spec; assumption |].
  split.
  { intros Hmis Hmod. unfold n. rewrite (block_count_exact _ _ Hbs Hlen Hmod).
    destruct Halign as (Hm & Hle & _).
    assert (aligned_addr <> addr) by (intros E; rewrite E in Hm; contradiction).
    lia. }
  subst r. unfold stm32lx_eeprom_erase. fold base. fold arm. fold aligned_addr.
  destruct (prog_unlock_run T base p) as (u & p1 & _ & Hu).
  rewrite (bind_done _ _ _ _ _ _ Hu). exists u.
  destruct (Z.land u STM32Lx_FLASH_PECR_PRGLOCK =? 0) eqn:Hlock; cbn [negb].
  2:{ left. apply Z.eqb_neq in Hlock. split; [exact Hlock |].
      cbn [ret prepend trace returned]. rewrite app_nil_r. split; reflexivity. }
  right. apply Z.eqb_eq in Hlock. split; [exact Hlock |].
  destruct (write32_run T (STM32Lx_FLASH_PECR base) arm p1) as (e1 & p2 & Hw).
  rewrite (bind_done _ _ _ _ _ _ Hw).
  destruct (read32_run T (STM32Lx_FLASH_PECR base) p2) as (v & p3 & _ & Hr).
  rewrite (bind_done _ _ _ _ _ _ Hr). exists v.
  destruct (Z.land v arm =? arm) eqn:Harm; cbn [negb].
  - right. apply Z.eqb_eq in Harm. split; [exact Harm |].
    destruct (eeprom_erase_loop_run n fuel aligned_addr len (blocksize f) 0 p3
                Hbs ltac:(lia) Hmax) as (p4 & Hloop).
    { unfold n, block_count. f_equal. f_equal. lia. }
    { exact Hfuel. }
    rewrite (bind_done _ _ _ _ _ _ Hloop).
    destruct (lock_run T base p4) as (p5 & Hl).
    rewrite (bind_done _ _ _ _ _ _ Hl).
    exists p5. rewrite !returned_prepend, !trace_prepend.
    split; [reflexivity |].
    cbn [app]. reflexivity.
  - left. apply Z.eqb_neq in Harm. split; [exact Harm |].
    cbn [ret prepend returned trace]. rewrite app_nil_r. split; reflexivity.
Qed.
End EepromErase.

(** ** Region operations of a protected device *)

Section ProtectedRegions.
Context {P : Type} (T : platform P).

Lemma flash_erase_starts_with_unlock fuel t f addr len p :
  exists u rest,
    trace (stm32lx_flash_erase T fuel t f addr len p)
    = prog_unlock_events (stm32lx_flash_base t) u ++ rest.
Proof.
  unfold stm32lx_flash_erase.
  destruct (prog_unlock_run T (stm32lx_flash_base t) p) as (u & p1 & _ & Hu).
  rewrite (bind_done _ _ _ _ _ _ Hu), trace_prepend. eauto.
Qed.

Lemma flash_write_starts_with_unlock fuel t f dest src len p :
  exists u rest,
    trace (stm32lx_flash_write T fuel t f dest src len p)
    = prog_unlock_events (stm32lx_flash_base t) u ++ rest.
Proof.
  unfold stm32lx_flash_write.
  destruct (prog_unlock_run T (stm32lx_flash_base t) p) as (u & p1 & _ & Hu).
  rewrite (bind_done _ _ _ _ _ _ Hu), trace_prepend. eauto.
Qed.

(** C4 (as amended).  A successful [stm32l1_probe] registers the same flash
    region, with the same erase and write functions, whether the option
    register reads as protected or not; the protection state only selects
    [attach] and [mass_erase].  On a protected device the region's erase and
    write are therefore not refused: each run starts with the program/data
    unlock sequence on the flash controller registers. *)
Theorem protected_probe_keeps_region_operations :
  forall (t : target) (partno : Z) (p0 : P) (t' : target) (p1 : P)
         (tr : list event),
    stm32l1_probe T t partno p0 = Done (true, t') p1 tr ->
    (flash t' = flash t \/ flash t' = flash t ++ [stm32l1_region]) /\
    (is_protected t' = true ->
       attach_op t' = Some stm32lx_protected_attach_fn /\
       mass_erase t' = Some stm32lx_protected_mass_erase_fn) /\
    (is_protected t' = false ->
       attach_op t' = attach_op t /\
       mass_erase t' = Some stm32lx_mass_erase_fn) /\
    (forall fuel addr len p,
        exists u rest,
          trace (flash_erase_op T fuel t' stm32l1_region addr len p)
          = prog_unlock_events (stm32lx_flash_base t') u ++ rest) /\
    (forall fuel dest src len p,
        exists u rest,
          trace (flash_write_op T fuel t' stm32l1_region dest src len p)
          = prog_unlock_events (stm32lx_flash_base t') u ++ rest).
Proof.
  intros t partno p0 t' p1 tr Hprobe.
  split; [| split; [| split; [| split]]].
  4:{ intros. apply flash_erase_starts_with_unlock. }
  4:{ intros. apply flash_write_starts_with_unlock. }
  all: revert Hprobe; unfold stm32l1_probe;
    destruct ((partno =? 0x416) || (partno =? 0x429) || (partno =? 0x427)
              || (partno =? 0x436) || (partno =? 0x437));
    [| cbn; intros H; discriminate H];
    unfold stm32l_add_flash, bind, do_calloc, target_mem32_read32, ret;
    destruct (calloc T p0) as [ok1 q1];
    destruct ok1; cbn [negb prepend];
    match goal with
    | |- context [calloc T ?q] => destruct (calloc T q) as [ok2 q2]
    end;
    destruct ok2; cbn [negb prepend]; try (intros H; discriminate H);
    match goal with
    | |- context [mem32_read32 T ?a ?q] => destruct (mem32_read32 T a q) as [optr q3]
    end;
    cbn [prepend];
    match goal with
    | |- context [negb (?c =? STM32Lx_FLASH_OPTR_RDPROT_0)] =>
        destruct (negb (c =? STM32Lx_FLASH_OPTR_RDPROT_0))
    end;
    cbn [prepend]; intros H; injection H as <- _ _;
    cbn; auto; try (intros H'; discriminate H'); try (split; reflexivity).
Qed.
End ProtectedRegions.

(** ** The eeprom console command *)

Section EepromCommand.
Context {P : Type} (T : platform P).

Lemma eeprom_usage_run t p :
  stm32lx_cmd_eeprom_usage (P := P) t p = Done tt p (eeprom_usage_events t).
Proof. reflexivity. Qed.

(** C6 (as amended).  [stm32lx_cmd_eeprom] unlocks the flash controller
    before it looks at its arguments.  When that unlock is verified, an
    out-of-range address, a half-word write to an odd address and a word
    write to an address that is not 4-byte aligned are each rejected with the
    usage message (after "Refusing to do unaligned write" in the two
    misaligned cases), and the only accesses to the device are the unlock
    sequence before the rejection and the lock after it: nothing is written
    to the EEPROM.  When the unlock is not verified the command reports that
    instead and stops. *)
Theorem eeprom_command_rejections :
  forall (fuel : nat) (t : target) (cmd0 cmd a v : string) (why : eeprom_reject)
         (p : P),
    let addr := wrap32 (strtoul T a) in
    let base := stm32lx_flash_base t in
    eeprom_rejects t cmd addr why = true ->
    exists u p',
      (Z.land u STM32Lx_FLASH_PECR_PRGLOCK <> 0 /\
       stm32lx_cmd_eeprom T fuel t 4 [cmd0; cmd; a; v] p
       = Done true p' (prog_unlock_events base u
                       ++ [Printf "unable to unlock EEPROM\n" []]))
      \/
      (Z.land u STM32Lx_FLASH_PECR_PRGLOCK = 0 /\
       stm32lx_cmd_eeprom T fuel t 4 [cmd0; cmd; a; v] p
       = Done true p' (prog_unlock_events base u
                       ++ eeprom_reject_events t why ++ [lock_event base])).
Proof.
  intros fuel t cmd0 cmd a v why p addr base Hrej.
  unfold stm32lx_cmd_eeprom. fold base.
  destruct (prog_unlock_run T base p) as (u & p1 & _ & Hu).
  rewrite (bind_done _ _ _ _ _ _ Hu). exists u.
  destruct (Z.land u STM32Lx_FLASH_PECR_PRGLOCK =? 0) eqn:Hlock; cbn [negb].
  2:{ exists p1. left. apply Z.eqb_neq in Hlock. split; [exact Hlock | reflexivity]. }
  apply Z.eqb_eq in Hlock.
  destruct (lock_run T base p1) as (p2 & Hl).
  exists p2. right. split; [exact Hlock |].
  change (4 =? 4) with true. cbn [argv_at nth]. fold addr.
  fold (cmd_is cmd "byte"). fold (cmd_is cmd "halfword"). fold (cmd_is cmd "word").
  assert (Hfinish : forall evs,
             prepend (prog_unlock_events base u)
               (bind (fun q => Done tt q evs)
                  (fun _ => stm32lx_nvm_lock T base ;; ret true) p1)
             = Done true p2 (prog_unlock_events base u ++ evs ++ [lock_event base])).
  { intros evs. unfold bind at 1. cbn beta iota.
    rewrite (bind_done _ _ _ _ _ _ Hl). cbn [prepend ret].
    rewrite !app_nil_r. reflexivity. }
  unfold eeprom_rejects in Hrej.
  destruct why.
  - (* out of range *)
    apply negb_true_iff in Hrej.
    replace ((addr <? STM32Lx_FLASH_EEPROM_BASE)
             || (STM32Lx_FLASH_EEPROM_BASE + stm32lx_nvm_eeprom_size t <=? addr))
      with true.
    2:{ symmetry. rewrite (Z.ltb_antisym STM32Lx_FLASH_EEPROM_BASE addr),
          (Z.leb_antisym addr (STM32Lx_FLASH_EEPROM_BASE + stm32lx_nvm_eeprom_size t)),
          <- negb_andb.
        rewrite Hrej. reflexivity. }
    apply (Hfinish (eeprom_usage_events t)).
  - (* half-word at an odd address *)
    rewrite !andb_true_iff, !negb_true_iff in Hrej.
    destruct Hrej as ((((Hin1 & Hin2) & Hbyte) & Hhalf) & Hodd).
    replace ((addr <? STM32Lx_FLASH_EEPROM_BASE)
             || (STM32Lx_FLASH_EEPROM_BASE + stm32lx_nvm_eeprom_size t <=? addr))
      with false.
    2:{ symmetry. rewrite (Z.ltb_antisym STM32Lx_FLASH_EEPROM_BASE addr),
          (Z.leb_antisym addr (STM32Lx_FLASH_EEPROM_BASE + stm32lx_nvm_eeprom_size t)),
          <- negb_andb.
        rewrite Hin1, Hin2. reflexivity. }
    rewrite Hbyte, Hhalf, Hodd. cbn [negb].
    apply (Hfinish (Printf "Refusing to do unaligned write\n" []
                    :: eeprom_usage_events t)).
  - (* word at a misaligned address *)
    rewrite !andb_true_iff, !negb_true_iff in Hrej.
    destruct Hrej as (((((Hin1 & Hin2) & Hbyte) & Hhalf) & Hword) & Hmis).
    replace ((addr <? STM32Lx_FLASH_EEPROM_BASE)
             || (STM32Lx_FLASH_EEPROM_BASE + stm32lx_nvm_eeprom_size t <=? addr))
      with false.
    2:{ symmetry. rewrite (Z.ltb_antisym STM32Lx_FLASH_EEPROM_BASE addr),
          (Z.leb_antisym addr (STM32Lx_FLASH_EEPROM_BASE + stm32lx_nvm_eeprom_size t)),
          <- negb_andb.
        rewrite Hin1, Hin2. reflexivity. }
    rewrite Hbyte, Hhalf, Hword, Hmis. cbn [negb].
    apply (Hfinish (Printf "Refusing to do unaligned write\n" []
                    :: eeprom_usage_events t)).
Qed.
End EepromCommand.

(** ** Locking of the control register by the flash erase *)

Section Relock.
Context {P : Type} (T : platform P).

Lemma relocks_after_unlock t u rest :
  relocks (stm32lx_flash_base t) (prog_unlock_events (stm32lx_flash_base t) u ++ rest)
  = existsb (is_lock_write (stm32lx_flash_base t)) rest.
Proof.
  unfold relocks, stm32lx_flash_base.
  destruct (stm32lx_is_stm32l1 t); reflexivity.
Qed.

(** The three ways a flash erase ends.  When the unlock is not verified it
    fails after the unlock sequence.  When the unlock is verified but the
    arming read-back does not show PROG and ERASE, it fails right after that
    read: PECR is not written again and stays unlocked.  Otherwise every run
    that returns has written PELOCK after the triggers. *)
Lemma flash_erase_relock_cases fuel t f addr len p :
  let base := stm32lx_flash_base t in
  let arm := Z.lor STM32Lx_FLASH_PECR_PROG STM32Lx_FLASH_PECR_ERASE in
  let r := stm32lx_flash_erase T fuel t f addr len p in
  exists u,
    (Z.land u STM32Lx_FLASH_PECR_PRGLOCK <> 0 /\
     returned r = Some false /\ trace r = prog_unlock_events base u)
    \/
    (Z.land u STM32Lx_FLASH_PECR_PRGLOCK = 0 /\
     exists v,
       (Z.land v arm <> arm /\
        returned r = Some false /\
        trace r = prog_unlock_events base u
                  ++ [Write32 (STM32Lx_FLASH_PECR base) arm;
                      Read32 (STM32Lx_FLASH_PECR base) v] /\
        relocks base (trace r) = false)
       \/
       (Z.land v arm = arm /\
        forall b, returned r = Some b -> relocks base (trace r) = true)).
Proof.
  intros base arm r. subst r. unfold stm32lx_flash_erase. fold base. fold arm.
  destruct (prog_unlock_run T base p) as (u & p1 & _ & Hu).
  rewrite (bind_done _ _ _ _ _ _ Hu). exists u.
  destruct (Z.land u STM32Lx_FLASH_PECR_PRGLOCK =? 0) eqn:Hlock; cbn [negb].
  2:{ left. apply Z.eqb_neq in Hlock. split; [exact Hlock |].
      cbn [ret prepend trace returned]. rewrite app_nil_r. split; reflexivity. }
  right. apply Z.eqb_eq in Hlock. split; [exact Hlock |].
  destruct (write32_run T (STM32Lx_FLASH_PECR base)
              (Z.lor STM32Lx_FLASH_PECR_ERASE STM32Lx_FLASH_PECR_PROG) p1)
    as (e1 & p2 & Hw).
  rewrite (bind_done _ _ _ _ _ _ Hw).
  destruct (read32_run T (STM32Lx_FLASH_PECR base) p2) as (v & p3 & _ & Hr).
  rewrite (bind_done _ _ _ _ _ _ Hr). exists v.
  rewrite !returned_prepend, !trace_prepend.
  destruct (Z.land v arm =? arm) eqn:Harm; cbn [negb].
  - right. apply Z.eqb_eq in Harm. split; [exact Harm |].
    intros b Hb.
    destruct (write32_run T (STM32Lx_FLASH_SR base) STM32Lx_FLASH_SR_ERR_MASK p3)
      as (e2 & p4 & Hs).
    rewrite (bind_done _ _ _ _ _ _ Hs) in *.
    rewrite returned_prepend in Hb. rewrite trace_prepend.
    unfold bind at 1 in Hb. unfold bind at 1.
    destruct (stm32lx_flash_erase_loop T fuel addr len (blocksize f)
                ((addr =? start f) && (len =? length f)) 0 p4)
      as [[] p5 trl | s p5 trl]; [| discriminate Hb].
    destruct (lock_run T base p5) as (p6 & Hl).
    rewrite (bind_done _ _ _ _ _ _ Hl), !trace_prepend.
    unfold base. rewrite relocks_after_unlock. fold base.
    rewrite !existsb_app. cbn [existsb lock_event is_lock_write].
    rewrite Z.eqb_refl. cbn. rewrite !orb_true_r. reflexivity.
  - left. apply Z.eqb_neq in Harm. split; [exact Harm |].
    cbn [ret returned trace]. rewrite app_nil_r.
    split; [reflexivity |]. split; [reflexivity |].
    unfold base. rewrite relocks_after_unlock.
    unfold arm, stm32lx_flash_base. destruct (stm32lx_is_stm32l1 t); reflexivity.
Qed.
End Relock.

(** ** Mass erase *)

Section MassErase.
Context {P : Type} (T : platform P).

(** Whatever the ROM erase of the first region returns, [lpc546xx_mass_erase]
    returns the opposite. *)
Lemma lpc546xx_mass_erase_negates t f rest p :
  flash t = f :: rest ->
  returned (lpc546xx_mass_erase T t p)
  = option_map negb (returned (lpc546xx_flash_erase T (start f) (length f) p)).
Proof.
  intros Hf. unfold lpc546xx_mass_erase, first_flash. rewrite Hf.
  unfold bind at 1. unfold ret at 1. cbn [prepend app].
  unfold bind at 1.
  destruct (lpc546xx_flash_erase T (start f) (length f) p) as [r p1 tr | s p1 tr];
    [| reflexivity].
  rewrite !returned_prepend. destruct r; reflexivity.
Qed.

(** [stm32lx_mass_erase] erases the regions in list order with
    [stm32lx_flash_erase] over each whole region; it reports success exactly
    when every one of these erases reported success, and stops at the first
    one that fails. *)
Lemma stm32lx_mass_erase_regions_run fuel t fl :
  forall p,
    match stm32lx_mass_erase_regions T fuel t fl p with
    | Done true p' tr =>
        erase_chain T fuel t fl p p' tr
    | Done false p' tr =>
        exists before f after p1 tr1 tr2,
          fl = before ++ f :: after /\
          erase_chain T fuel t before p p1 tr1 /\
          stm32lx_flash_erase T fuel t f (start f) (length f) p1 = Done false p' tr2 /\
          tr = tr1 ++ tr2
    | Stop s p' tr =>
        exists before f after p1 tr1 tr2,
          fl = before ++ f :: after /\
          erase_chain T fuel t before p p1 tr1 /\
          stm32lx_flash_erase T fuel t f (start f) (length f) p1 = Stop s p' tr2 /\
          tr = tr1 ++ tr2
    end.
Proof.
  induction fl as [| f fl IH]; intros p.
  - cbn. constructor.
  - cbn [stm32lx_mass_erase_regions]. unfold bind.
    destruct (stm32lx_flash_erase T fuel t f (start f) (length f) p)
      as [r p1 tr1 | s p1 tr1] eqn:Hf.
    + destruct r; cbn [negb].
      * specialize (IH p1).
        destruct (stm32lx_mass_erase_regions T fuel t fl p1) as [[|] p2 tr2 | s p2 tr2];
          cbn [prepend].
        -- econstructor; eassumption.
        -- destruct IH as (before & g & after & q & ta & tb & Hfl & Hch & Hg & Htr).
           exists (f :: before), g, after, q, (tr1 ++ ta), tb.
           repeat split.
           ++ rewrite Hfl. reflexivity.
           ++ econstructor; eassumption.
           ++ exact Hg.
           ++ rewrite Htr, app_assoc. reflexivity.
        -- destruct IH as (before & g & after & q & ta & tb & Hfl & Hch & Hg & Htr).
           exists (f :: before), g, after, q, (tr1 ++ ta), tb.
           repeat split.
           ++ rewrite Hfl. reflexivity.
           ++ econstructor; eassumption.
           ++ exact Hg.
           ++ rewrite Htr, app_assoc. reflexivity.
      * cbn [ret prepend]. rewrite app_nil_r.
        exists [], f, fl, p, [], tr1. repeat split; [constructor | exact Hf].
    + exists [], f, fl, p, [], tr1. repeat split; [constructor | exact Hf].
Qed.
End MassErase.

(** ** Bulk EEPROM write *)

Section EepromWrite.
Context {P : Type} (T : platform P).

(** The word loop of [stm32lx_eeprom_write] sends, as its [k]-th word, the
    source word of index [offset + 4 * k] to [dest + offset + 4 * k]: the byte
    offset is used as the word index. *)
Lemma eeprom_write_loop_words fuel :
  forall dest src len offset p,
    0 <= offset -> len + 4 <= 2 ^ 32 ->
    exists m,
      trace (stm32lx_eeprom_write_loop T fuel dest src len offset p)
      = map (fun k =>
               Write32 (wrap32 (dest + (offset + 4 * Z.of_nat k)))
                       (wrap32 (load32 src (Z.to_nat (offset + 4 * Z.of_nat k)))))
            (seq 0 m).
Proof.
  induction fuel as [| fuel IH]; intros dest src len offset p Hoff Hmax.
  - exists 0%nat. reflexivity.
  - cbn [stm32lx_eeprom_write_loop].
    destruct (Z.ltb_spec offset len) as [Hlt | Hge]; [| exists 0%nat; reflexivity].
    destruct (write32_run T (wrap32 (dest + offset))
                (load32 src (Z.to_nat offset)) p) as (e & p1 & Hw).
    rewrite (bind_done _ _ _ _ _ _ Hw), trace_prepend.
    destruct e.
    + exists 1%nat. cbn [ret trace seq map app].
      rewrite Z.mul_0_r, Z.add_0_r. reflexivity.
    + rewrite (wrap_size_small (offset + 4)) by lia.
      destruct (IH dest src len (offset + 4) p1 ltac:(lia) Hmax) as (m & Hm).
      rewrite Hm. exists (S m). cbn [seq map app].
      rewrite Z.mul_0_r, Z.add_0_r. f_equal.
      rewrite <- seq_shift, map_map. apply map_ext. intros k.
      replace (offset + 4 + 4 * Z.of_nat k) with (offset + 4 * Z.of_nat (S k)) by lia.
      reflexivity.
Qed.
End EepromWrite.

(** ** Concrete runs on the scripted platform *)

(** C1.  Four runs in which the program/data unlock was verified and the
    function returns failure without writing PELOCK again: the flash erase
    and the EEPROM erase when the arming read-back does not show the mode
    bits, the flash write when the wait before arming reports an error flag,
    and the EEPROM write when the transport reports an error on a data
    word. *)
Theorem relock_missing_on_failure_paths :
  (let r := stm32lx_flash_erase sim_platform 8 stm32l1_open stm32l1_region
              STM32Lx_FLASH_BANK_BASE 0x100 (device [0; 0]) in
   returned r = Some false /\
   relocks (stm32lx_flash_base stm32l1_open) (trace r) = false) /\
  (let r := stm32lx_flash_write sim_platform 8 stm32l1_open stm32l1_region
              STM32Lx_FLASH_BANK_BASE counting_buf 4 (device [0; 0; 0x100]) in
   returned r = Some false /\
   relocks (stm32lx_flash_base stm32l1_open) (trace r) = false) /\
  (let r := stm32lx_eeprom_erase sim_platform 8 stm32l07x eeprom_region
              STM32Lx_EEPROM_BASE 8 (device [0; 0]) in
   returned r = Some false /\
   relocks (stm32lx_flash_base stm32l07x) (trace r) = false) /\
  (let r := stm32lx_eeprom_write sim_platform 8 stm32l07x eeprom_region
              STM32Lx_EEPROM_BASE counting_buf 8 (device_failing_write [0] 6) in
   returned r = Some false /\
   relocks (stm32lx_flash_base stm32l07x) (trace r) = false).
Proof. vm_compute. repeat split. Qed.

(** C2.  On an LPC54605J256 whose ROM erase of the whole region succeeds,
    [lpc546xx_mass_erase] prints "Error erasing flash: 1" and reports
    failure; when the ROM erase fails it reports success. *)
Theorem lpc546xx_mass_erase_reports_inverted :
  (let r := lpc546xx_mass_erase sim_platform lpc54605 (device_rom [] [true]) in
   returned (lpc546xx_flash_erase sim_platform 0 0x40000 (device_rom [] [true]))
   = Some true /\
   returned r = Some false /\
   In (LpcFlashErase 0 0x40000 true) (trace r) /\
   In (Printf "Error erasing flash: %d\n" [ArgZ 1]) (trace r)) /\
  (let r := lpc546xx_mass_erase sim_platform lpc54605 (device_rom [] [false]) in
   returned (lpc546xx_flash_erase sim_platform 0 0x40000 (device_rom [] [false]))
   = Some false /\
   returned r = Some true).
Proof. vm_compute. intuition. Qed.


(** C5.  A bulk EEPROM write of 8 bytes from a buffer holding 0, 1, 2, ...
    succeeds and stores, at the second destination word, the source word of
    index 4 (bytes 16..19) instead of the source word of index 1 (bytes
    4..7). *)
Theorem eeprom_write_reads_wrong_source_word :
  let r := stm32lx_eeprom_write sim_platform 8 stm32l07x eeprom_region
             STM32Lx_EEPROM_BASE counting_buf 8 (device [0]) in
  returned r = Some true /\
  writes_to STM32Lx_EEPROM_BASE (trace r) = [load32 counting_buf 0] /\
  writes_to (STM32Lx_EEPROM_BASE + 4) (trace r) = [load32 counting_buf 4] /\
  load32 counting_buf 1 = 0x07060504 /\
  load32 counting_buf 4 = 0x13121110.
Proof. vm_compute. repeat split. Qed.

(** C3, counterexample.  A protected STM32L1 whose option register keeps
    reading protection level 1: the protected [mass_erase] reports success,
    no read of the option register was made, and a fresh probe of the device
    as the run left it still finds it protected. *)
Lemma protected_mass_erase_unconfirmed_success :
  let r := mass_erase_op sim_platform 4 stm32l1_protected (device [0; 0]) in
  is_protected stm32l1_protected = true /\
  returned r = Some true /\
  confirms_unprotected (stm32lx_flash_base stm32l1_protected) (trace r) = false /\
  is_protected
    (probed (stm32l1_probe sim_platform (blank_target 0) 0x416 (final r))
            (blank_target 0)) = true.
Proof. vm_compute. repeat split. Qed.

(** C3, witness: the protected STM32L1 on a device that is busy for one poll. *)
Lemma protected_mass_erase_sequence_witness :
  is_protected stm32l1_protected = true /\
  confirms_unprotected (stm32lx_flash_base stm32l1_protected)
    (trace (mass_erase_op sim_platform 4 stm32l1_protected (device [0; 1; 0])))
  = false.
Proof.
  split; [reflexivity |].
  exact (proj2 (protected_mass_erase_sequence sim_platform 4 stm32l1_protected
                  (device [0; 1; 0]) eq_refl)).
Defined.

(** C4, counterexample.  On the protected STM32L1 the erase of its flash
    region is not refused: it accesses the flash controller registers and,
    on a device that answers as an idle controller, reports success. *)
Lemma protected_region_erase_reaches_device :
  let r := flash_erase_op sim_platform 8 stm32l1_protected stm32l1_region
             STM32Lx_FLASH_BANK_BASE 0x100 (device [0; 0x208]) in
  is_protected stm32l1_protected = true /\
  flash stm32l1_protected = [stm32l1_region] /\
  returned r = Some true /\
  existsb is_mem_access (trace r) = true.
Proof. vm_compute. repeat split. Qed.

(** C4, witness: the probe of an STM32L1 whose option register reads 0. *)
Lemma protected_probe_keeps_region_operations_witness :
  is_protected stm32l1_protected = true /\
  attach_op stm32l1_protected = Some stm32lx_protected_attach_fn /\
  mass_erase stm32l1_protected = Some stm32lx_protected_mass_erase_fn.
Proof.
  split; [reflexivity |].
  refine (proj1 (proj2 (protected_probe_keeps_region_operations sim_platform
                          (blank_target 0) 0x416 (device [0]) stm32l1_protected
                          (device []) [Calloc true; Calloc true; Read32 0x40023c1c 0]
                          _)) _); reflexivity.
Defined.

(** C6, counterexample.  A half-word write to an odd EEPROM address: the six
    register accesses of the unlock sequence are made before the command
    refuses the write. *)
Lemma eeprom_odd_halfword_touches_registers :
  let base := stm32lx_flash_base stm32l07x in
  let r := stm32lx_cmd_eeprom sim_platform 4 stm32l07x 4
             ["eeprom"; "halfword"; "0x08080001"; "0x1234"]%string (device [0]) in
  trace r = prog_unlock_events base 0
            ++ Printf "Refusing to do unaligned write\n" []
               :: eeprom_usage_events stm32l07x ++ [lock_event base] /\
  forallb is_mem_access (prog_unlock_events base 0) = true.
Proof. vm_compute. repeat split. Qed.

(** C6, witness: the same half-word write on an STM32L07x. *)
Lemma eeprom_command_rejections_witness :
  eeprom_rejects stm32l07x "halfword" 0x08080001 OddHalfword = true /\
  returned (stm32lx_cmd_eeprom sim_platform 4 stm32l07x 4
              ["eeprom"; "halfword"; "0x08080001"; "0x1234"]%string (device [0]))
  = Some true.
Proof.
  split; [reflexivity |].
  destruct (eeprom_command_rejections sim_platform 4 stm32l07x
              "eeprom" "halfword" "0x08080001" "0x1234" OddHalfword (device [0])
              eq_refl) as (u & p' & [(_ & H) | (_ & H)]);
    rewrite H; reflexivity.
Defined.


(** C8, witness: an erase of 8 bytes requested at 0x08080002 succeeds with
    its two triggers at 0x08080000 and 0x08080004; the bytes at 0x08080008
    and 0x08080009 of the requested range are not covered. *)
Lemma eeprom_erase_triggers_witness :
  (0 < blocksize eeprom_region /\ 8 + blocksize eeprom_region <= 2 ^ 32 /\
   0x08080002 mod 4 <> 0 /\ 8 mod blocksize eeprom_region = 0) /\
  let r := stm32lx_eeprom_erase sim_platform 8 stm32l07x eeprom_region
             0x08080002 8 (device [0; 0x210]) in
  returned r = Some true /\
  (exists pre post,
      trace r = pre ++ [Write32 0x08080000 0; Write32 0x08080004 0]
                ++ lock_event (stm32lx_flash_base stm32l07x) :: post /\
      writes32 post = []) /\
  0x08080000 + 2 * 4 < 0x08080002 + 8.
Proof.
  assert (H1 : 0 < blocksize eeprom_region) by reflexivity.
  assert (H2 : 0 <= 8) by (vm_compute; discriminate).
  assert (H3 : 8 + blocksize eeprom_region <= 2 ^ 32) by (vm_compute; discriminate).
  assert (H4 : 0 <= 0x08080002 < 2 ^ 32)
    by (vm_compute; split; [discriminate | reflexivity]).
  assert (H5 : (block_count 8 (blocksize eeprom_region) < 8)%nat) by (vm_compute; lia).
  assert (H6 : 0x08080002 mod 4 <> 0) by (vm_compute; discriminate).
  assert (H7 : 8 mod blocksize eeprom_region = 0) by reflexivity.
  split; [repeat split; assumption |].
  destruct (eeprom_erase_triggers sim_platform 8 stm32l07x eeprom_region
              0x08080002 8 (device [0; 0x210]) H1 H2 H3 H4 H5)
    as (_ & _ & Hshort & u & Hrun).
  cbv zeta.
  split; [reflexivity |].
  split; [| exact (Hshort H6 H7)].
  destruct Hrun as [(_ & Hret & _) | (_ & v & [(_ & Hret & _) | (_ & q & Hret & Htr)])].
  - vm_compute in Hret. discriminate Hret.
  - vm_compute in Hret. discriminate Hret.
  - exists (prog_unlock_events (stm32lx_flash_base stm32l07x) u
            ++ [Write32 (STM32Lx_FLASH_PECR (stm32lx_flash_base stm32l07x))
                  (Z.lor STM32Lx_FLASH_PECR_ERASE STM32Lx_FLASH_PECR_DATA);
                Read32 (STM32Lx_FLASH_PECR (stm32lx_flash_base stm32l07x)) v]),
           (trace (stm32lx_nvm_busy_wait sim_platform 8
                     (stm32lx_flash_base stm32l07x) false q)).
    split.
    + rewrite Htr. rewrite <- !app_assoc. reflexivity.
    + apply busy_wait_writes_nothing.
Defined.

(** C10, witness: [erase_sector] typed alone ([argc = 1]). *)
Lemma sector_commands_without_argument_witness :
  lpc546xx_cmd_erase_sector sim_platform lpc54605 1 ["erase_sector"%string] (device [])
  = Done true (device []) [] /\
  lpc546xx_cmd_write_sector sim_platform lpc54605 1 ["erase_sector"%string] (device [])
  = Done true (device []) [].
Proof.
  apply (sector_commands_without_argument sim_platform lpc54605 1
           ["erase_sector"%string] (device [])).
  vm_compute. discriminate.
Defined.

(** * Further properties of the drivers *)

(** ** The busy-wait *)

Section BusyWait.
Context {P : Type} (T : platform P).

(** The cases of a run of the busy-wait. *)
Lemma busy_wait_cases :
  forall (fuel : nat) (base : Z) (timeout : bool) (p : P),
    match stm32lx_nvm_busy_wait T fuel base timeout p with
    | Done b _ tr =>
        exists vs,
          (List.length vs < fuel)%nat /\ forallb sr_busy vs = true /\
          ((exists v,
               sr_busy v = true /\ b = false /\
               tr = wait_polls base timeout vs
                    ++ [Read32 (STM32Lx_FLASH_SR base) v; CheckError true])
           \/
           (exists v status e,
               sr_busy v = false /\
               b = negb e && (Z.land status STM32Lx_FLASH_SR_ERR_MASK =? 0) /\
               tr = wait_polls base timeout vs
                    ++ [Read32 (STM32Lx_FLASH_SR base) v;
                        Read32 (STM32Lx_FLASH_SR base) status; CheckError e]))
    | Stop s _ tr =>
        s = OutOfFuel /\
        exists vs,
          List.length vs = fuel /\ forallb sr_busy vs = true /\
          tr = wait_polls base timeout vs
    end.
Proof.
  intros fuel base timeout. induction fuel as [| fuel IH]; intros p.
  - cbn. split; [reflexivity |]. exists []. repeat split.
  - cbn [stm32lx_nvm_busy_wait].
    destruct (read32_run T (STM32Lx_FLASH_SR base) p) as (v & p1 & _ & Hr).
    rewrite (bind_done _ _ _ _ _ _ Hr).
    fold (sr_busy v). destruct (sr_busy v) eqn:Hbusy.
    + destruct (check_error_run T p1) as (e & p2 & Hc).
      rewrite (bind_done _ _ _ _ _ _ Hc). destruct e.
      * cbn [ret prepend app]. exists []. split; [cbn; lia |].
        split; [reflexivity |]. left. exists v. repeat split. exact Hbusy.
      * assert (Hstep : forall q,
                   ((if timeout then target_print_progress else ret tt) ;;
                    stm32lx_nvm_busy_wait T fuel base timeout) q
                   = prepend (if timeout then [Progress] else [])
                       (stm32lx_nvm_busy_wait T fuel base timeout q)).
        { intros q. destruct timeout; reflexivity. }
        rewrite Hstep. specialize (IH p2).
        destruct (stm32lx_nvm_busy_wait T fuel base timeout p2) as [b p3 tr | s p3 tr];
          cbn [prepend].
        -- destruct IH as (vs & Hlen & Hall & Hcase).
           exists (v :: vs). cbn [List.length forallb]. rewrite Hbusy, Hall.
           split; [lia |]. split; [reflexivity |].
           destruct Hcase as [(v' & Hb & Hres & Htr) | (v' & st & e & Hb & Hres & Htr)].
           ++ left. exists v'. repeat split; try assumption.
              rewrite Htr. destruct timeout; unfold wait_polls;
                cbn [flat_map app]; reflexivity.
           ++ right. exists v', st, e. repeat split; try assumption.
              rewrite Htr. destruct timeout; unfold wait_polls;
                cbn [flat_map app]; reflexivity.
        -- destruct IH as (Hs & vs & Hlen & Hall & Htr).
           split; [exact Hs |]. exists (v :: vs).
           cbn [List.length forallb]. rewrite Hbusy, Hall, Hlen.
           repeat split. rewrite Htr. destruct timeout; unfold wait_polls;
             cbn [flat_map app]; reflexivity.
    + destruct (read32_run T (STM32Lx_FLASH_SR base) p1) as (st & p2 & _ & Hs).
      rewrite (bind_done _ _ _ _ _ _ Hs).
      destruct (check_error_run T p2) as (e & p3 & Hc).
      rewrite (bind_done _ _ _ _ _ _ Hc). cbn [ret prepend app].
      exists []. split; [cbn; lia |]. split; [reflexivity |].
      right. exists v, st, e. repeat split. exact Hbusy.
Qed.

(** X1.  [stm32lx_nvm_busy_wait] polls the status register while BSY is
    set.  After each busy poll it checks the transport: an error ends the wait
    with failure, otherwise progress is reported exactly when a deadline was
    supplied.  Once BSY is clear it reads the status again, checks the
    transport, and succeeds exactly when there is no transport error and none
    of the error flags is set.  A run that has not returned has found the
    controller busy on every one of its polls. *)
Theorem busy_wait_run :
  forall (fuel : nat) (base : Z) (timeout : bool) (p : P),
    match stm32lx_nvm_busy_wait T fuel base timeout p with
    | Done b _ tr =>
        exists vs,
          (List.length vs < fuel)%nat /\ forallb sr_busy vs = true /\
          ((exists v,
               sr_busy v = true /\ b = false /\
               tr = wait_polls base timeout vs
                    ++ [Read32 (STM32Lx_FLASH_SR base) v; CheckError true])
           \/
           (exists v status e,
               sr_busy v = false /\
               b = negb e && (Z.land status STM32Lx_FLASH_SR_ERR_MASK =? 0) /\
               tr = wait_polls base timeout vs
                    ++ [Read32 (STM32Lx_FLASH_SR base) v;
                        Read32 (STM32Lx_FLASH_SR base) status; CheckError e]))
    | Stop s _ tr =>
        s = OutOfFuel /\
        exists vs,
          List.length vs = fuel /\ forallb sr_busy vs = true /\
          tr = wait_polls base timeout vs
    end.
Proof. exact busy_wait_cases. Qed.

End BusyWait.

(** ** Flash erase and what success means *)

Section RegionOperations.
Context {P : Type} (T : platform P).

Lemma flat_map_map_comp {A B C} (f : B -> list C) (g : A -> B) (l : list A) :
  flat_map f (map g l) = flat_map (fun x => f (g x)) l.
Proof.
  induction l as [| x l IH]; [reflexivity |].
  cbn [map flat_map]. rewrite IH. reflexivity.
Qed.

Lemma flash_erase_loop_run n :
  forall fuel addr len bs full offset p,
    0 < bs -> 0 <= offset -> len + bs <= 2 ^ 32 ->
    n = Z.to_nat ((len - offset + bs - 1) / bs) -> (n < fuel)%nat ->
    exists p',
      stm32lx_flash_erase_loop T fuel addr len bs full offset p
      = Done tt p' (flash_trigger_events (addr + offset) bs full n).
Proof.
  induction n as [| n IH]; intros fuel addr len bs full offset p Hbs Hoff Hmax Hn Hfuel.
  - destruct fuel as [| fuel]; [lia |].
    cbn [stm32lx_flash_erase_loop].
    assert (Hge : (offset <? len) = false).
    { apply Z.ltb_ge. destruct (Z.le_gt_cases len offset) as [Hle | Hgt]; [exact Hle |].
      exfalso.
      assert (1 <= (len - offset + bs - 1) / bs)
        by (apply Z.div_le_lower_bound; lia).
      lia. }
    rewrite Hge. exists p. reflexivity.
  - destruct fuel as [| fuel]; [lia |].
    cbn [stm32lx_flash_erase_loop].
    assert (Hlt : offset < len).
    { destruct (Z.lt_ge_cases offset len) as [Hl | Hg]; [exact Hl |]. exfalso.
      assert ((len - offset + bs - 1) / bs <= 0).
      { destruct (Z.le_gt_cases 0 (len - offset + bs - 1)) as [Hp | Hneg].
        - rewrite Z.div_small; lia.
        - assert ((len - offset + bs - 1) / bs < 0)
            by (apply Z.div_lt_upper_bound; lia).
          lia. }
      lia. }
    pose proof (proj2 (Z.ltb_lt _ _) Hlt) as Hltb. rewrite Hltb.
    destruct (write32_run T (wrap32 (addr + offset)) 0 p) as (e & p1 & Hw).
    rewrite (bind_done _ _ _ _ _ _ Hw).
    rewrite (wrap_size_small (offset + bs)) by lia.
    assert (Hn' : n = Z.to_nat ((len - (offset + bs) + bs - 1) / bs)).
    { replace (len - offset + bs - 1) with ((len - (offset + bs) + bs - 1) + 1 * bs) in Hn
        by lia.
      rewrite Z.div_add in Hn by lia.
      assert (0 <= (len - (offset + bs) + bs - 1) / bs) by (apply Z.div_pos; lia).
      lia. }
    destruct (IH fuel addr len bs full (offset + bs) p1 Hbs ltac:(lia) Hmax Hn' ltac:(lia))
      as (p' & Hrun).
    assert (Hstep : forall q,
               ((if full then target_print_progress else ret tt) ;;
                stm32lx_flash_erase_loop T fuel addr len bs full (offset + bs)) q
               = prepend (if full then [Progress] else [])
                   (stm32lx_flash_erase_loop T fuel addr len bs full (offset + bs) q)).
    { intros q. destruct full; reflexivity. }
    rewrite Hstep, Hrun. exists p'. cbn [prepend]. f_equal.
    unfold flash_trigger_events. cbn [seq flat_map].
    rewrite <- seq_shift, flat_map_map_comp.
    change (Z.of_nat 0) with 0. rewrite Z.mul_0_l, Z.add_0_r.
    assert (Htail : flat_map
                      (fun k => Write32 (wrap32 (addr + (offset + bs) + Z.of_nat k * bs)) 0
                                :: (if full then [Progress] else [])) (seq 0 n)
                    = flat_map
                        (fun k => Write32 (wrap32 (addr + offset + Z.of_nat (S k) * bs)) 0
                                  :: (if full then [Progress] else [])) (seq 0 n)).
    { apply flat_map_ext. intros k. do 3 f_equal. lia. }
    rewrite Htail. destruct full; reflexivity.
Qed.

(** X2.  A flash erase whose range does not wrap runs, in this order: the
    unlock sequence; if that is verified, the arming write of ERASE and PROG
    and its read-back; if that shows both bits, the write that clears the
    error flags of the status register, then one zero word at
    [addr + k * blocksize] for each [k] with [k * blocksize < length] (each
    followed by a progress report exactly when the whole region is erased),
    then the lock, then the busy-wait (with a deadline exactly when the whole
    region is erased).  A failed unlock or arming check ends the run with
    failure before any trigger. *)
Theorem flash_erase_sequence :
  forall (fuel : nat) (t : target) (f : target_flash) (addr len : Z) (p : P),
    0 < blocksize f -> 0 <= len -> len + blocksize f <= 2 ^ 32 ->
    (block_count len (blocksize f) < fuel)%nat ->
    let base := stm32lx_flash_base t in
    let n := block_count len (blocksize f) in
    let arm := Z.lor STM32Lx_FLASH_PECR_ERASE STM32Lx_FLASH_PECR_PROG in
    let full := (addr =? start f) && (len =? length f) in
    let r := stm32lx_flash_erase T fuel t f addr len p in
    exists u,
      (Z.land u STM32Lx_FLASH_PECR_PRGLOCK <> 0 /\
       returned r = Some false /\ trace r = prog_unlock_events base u)
      \/
      (Z.land u STM32Lx_FLASH_PECR_PRGLOCK = 0 /\
       exists v,
         (Z.land v arm <> arm /\
          returned r = Some false /\
          trace r = prog_unlock_events base u
                    ++ [Write32 (STM32Lx_FLASH_PECR base) arm;
                        Read32 (STM32Lx_FLASH_PECR base) v])
         \/
         (Z.land v arm = arm /\
          exists q,
            returned r = returned (stm32lx_nvm_busy_wait T fuel base full q) /\
            trace r = prog_unlock_events base u
                      ++ [Write32 (STM32Lx_FLASH_PECR base) arm;
                          Read32 (STM32Lx_FLASH_PECR base) v;
                          Write32 (STM32Lx_FLASH_SR base) STM32Lx_FLASH_SR_ERR_MASK]
                      ++ flash_trigger_events addr (blocksize f) full n
                      ++ lock_event base
                         :: trace (stm32lx_nvm_busy_wait T fuel base full q))).
Proof.
  intros fuel t f addr len p Hbs Hlen Hmax Hfuel base n arm full r.
  subst r. unfold stm32lx_flash_erase. fold base. fold arm. fold full.
  destruct (prog_unlock_run T base p) as (u & p1 & _ & Hu).
  rewrite (bind_done _ _ _ _ _ _ Hu). exists u.
  destruct (Z.land u STM32Lx_FLASH_PECR_PRGLOCK =? 0) eqn:Hlock; cbn [negb].
  2:{ left. apply Z.eqb_neq in Hlock. split; [exact Hlock |].
      cbn [ret prepend trace returned]. rewrite app_nil_r. split; reflexivity. }
  right. apply Z.eqb_eq in Hlock. split; [exact Hlock |].
  destruct (write32_run T (STM32Lx_FLASH_PECR base) arm p1) as (e1 & p2 & Hw).
  rewrite (bind_done _ _ _ _ _ _ Hw).
  destruct (read32_run T (STM32Lx_FLASH_PECR base) p2) as (v & p3 & _ & Hr).
  rewrite (bind_done _ _ _ _ _ _ Hr). exists v.
  replace (Z.lor STM32Lx_FLASH_PECR_PROG STM32Lx_FLASH_PECR_ERASE) with arm
    by reflexivity.
  destruct (Z.land v arm =? arm) eqn:Harm; cbn [negb].
  - right. apply Z.eqb_eq in Harm. split; [exact Harm |].
    destruct (write32_run T (STM32Lx_FLASH_SR base) STM32Lx_FLASH_SR_ERR_MASK p3)
      as (e2 & p4 & Hs).
    rewrite (bind_done _ _ _ _ _ _ Hs).
    destruct (flash_erase_loop_run n fuel addr len (blocksize f) full 0 p4
                Hbs ltac:(lia) Hmax) as (p5 & Hloop).
    { unfold n, block_count. f_equal. f_equal. lia. }
    { exact Hfuel. }
    rewrite (bind_done _ _ _ _ _ _ Hloop).
    destruct (lock_run T base p5) as (p6 & Hl).
    rewrite (bind_done _ _ _ _ _ _ Hl).
    exists p6. rewrite !returned_prepend, !trace_prepend.
    split; [reflexivity |].
    rewrite Z.add_0_r. cbn [app]. reflexivity.
  - left. apply Z.eqb_neq in Harm. split; [exact Harm |].
    cbn [ret prepend returned trace]. rewrite app_nil_r. split; reflexivity.
Qed.
End RegionOperations.

Section Success.
Context {P : Type} (T : platform P).

Lemma wait_polls_write_nothing base timeout vs :
  writes32 (wait_polls base timeout vs) = [].
Proof.
  induction vs as [| v vs IH]; [reflexivity |].
  destruct timeout; exact IH.
Qed.

Lemma lock_wait_success base fuel timeout q :
  returned ((stm32lx_nvm_lock T base ;; stm32lx_nvm_busy_wait T fuel base timeout) q)
  = Some true ->
  exists polls status,
    trace ((stm32lx_nvm_lock T base ;; stm32lx_nvm_busy_wait T fuel base timeout) q)
    = lock_event base
      :: polls ++ [Read32 (STM32Lx_FLASH_SR base) status; CheckError false] /\
    writes32 polls = [] /\
    Z.land status STM32Lx_FLASH_SR_ERR_MASK = 0.
Proof.
  destruct (lock_run T base q) as (q1 & Hl).
  rewrite (bind_done _ _ _ _ _ _ Hl), returned_prepend, trace_prepend.
  pose proof (busy_wait_cases T fuel base timeout q1) as Hw.
  destruct (stm32lx_nvm_busy_wait T fuel base timeout q1) as [b q2 tr | s q2 tr];
    cbn [returned trace]; intros Hb; [| discriminate Hb].
  injection Hb as ->.
  destruct Hw as (vs & _ & _ & [(v & _ & Hf & _) | (v & st & e & _ & Hres & Htr)]);
    [discriminate Hf |].
  symmetry in Hres. apply andb_true_iff in Hres. destruct Hres as (He & Hst).
  destruct e; [discriminate He |]. apply Z.eqb_eq in Hst.
  exists (wait_polls base timeout vs ++ [Read32 (STM32Lx_FLASH_SR base) v]), st.
  split; [| split; [| exact Hst]].
  - rewrite Htr, <- app_assoc. reflexivity.
  - rewrite writes32_app, wait_polls_write_nothing. reflexivity.
Qed.

Lemma locked_and_clean_after base pre tail :
  (exists polls status,
      tail = lock_event base
             :: polls ++ [Read32 (STM32Lx_FLASH_SR base) status; CheckError false] /\
      writes32 polls = [] /\
      Z.land status STM32Lx_FLASH_SR_ERR_MASK = 0) ->
  ends_locked_and_clean base (pre ++ tail) /\
  existsb (is_lock_write base) (pre ++ tail) = true.
Proof.
  intros (polls & status & -> & Hpolls & Hst). split.
  - exists pre, polls, status. repeat split; assumption.
  - rewrite existsb_app. cbn [existsb lock_event is_lock_write].
    rewrite Z.eqb_refl. cbn. rewrite orb_true_r. reflexivity.
Qed.

(** X3.  What success of a region operation means.  Whenever the flash
    erase, the flash write, the EEPROM erase or the bulk EEPROM write reports
    success, the run wrote PELOCK to PECR after the unlock sequence, made no
    write after that lock, and ended on a status read without any error flag
    followed by a transport check without error. *)
Theorem region_operation_success :
  forall (fuel : nat) (t : target) (f : target_flash) (addr len : Z)
         (src : host_buf) (p : P),
    let base := stm32lx_flash_base t in
    (returned (stm32lx_flash_erase T fuel t f addr len p) = Some true ->
     ends_locked_and_clean base (trace (stm32lx_flash_erase T fuel t f addr len p)) /\
     relocks base (trace (stm32lx_flash_erase T fuel t f addr len p)) = true) /\
    (returned (stm32lx_flash_write T fuel t f addr src len p) = Some true ->
     ends_locked_and_clean base (trace (stm32lx_flash_write T fuel t f addr src len p)) /\
     relocks base (trace (stm32lx_flash_write T fuel t f addr src len p)) = true) /\
    (returned (stm32lx_eeprom_erase T fuel t f addr len p) = Some true ->
     ends_locked_and_clean base (trace (stm32lx_eeprom_erase T fuel t f addr len p)) /\
     relocks base (trace (stm32lx_eeprom_erase T fuel t f addr len p)) = true) /\
    (returned (stm32lx_eeprom_write T fuel t f addr src len p) = Some true ->
     ends_locked_and_clean base (trace (stm32lx_eeprom_write T fuel t f addr src len p)) /\
     relocks base (trace (stm32lx_eeprom_write T fuel t f addr src len p)) = true).
Proof.
  intros fuel t f addr len src p base.
  assert (Hfin : forall u mid tail,
             (exists polls status,
                 tail = lock_event base
                        :: polls ++ [Read32 (STM32Lx_FLASH_SR base) status;
                                     CheckError false] /\
                 writes32 polls = [] /\
                 Z.land status STM32Lx_FLASH_SR_ERR_MASK = 0) ->
             ends_locked_and_clean base (prog_unlock_events base u ++ mid ++ tail) /\
             relocks base (prog_unlock_events base u ++ mid ++ tail) = true).
  { intros u mid tail Htail.
    destruct (locked_and_clean_after base mid tail Htail) as (_ & Hlock).
    split.
    - rewrite app_assoc. apply locked_and_clean_after. exact Htail.
    - unfold base. rewrite relocks_after_unlock. exact Hlock. }
  split; [| split; [| split]].
  - (* flash erase *)
    remember (stm32lx_flash_erase T fuel t f addr len p) as r eqn:Er.
    unfold stm32lx_flash_erase in Er. fold base in Er.
    destruct (prog_unlock_run T base p) as (u & p1 & _ & Hu).
    rewrite (bind_done _ _ _ _ _ _ Hu) in Er.
    destruct (Z.land u STM32Lx_FLASH_PECR_PRGLOCK =? 0); cbn [negb] in Er;
      [| subst r; intros H; discriminate H].
    destruct (write32_run T (STM32Lx_FLASH_PECR base)
                (Z.lor STM32Lx_FLASH_PECR_ERASE STM32Lx_FLASH_PECR_PROG) p1)
      as (e1 & p2 & Hw).
    rewrite (bind_done _ _ _ _ _ _ Hw) in Er.
    destruct (read32_run T (STM32Lx_FLASH_PECR base) p2) as (v & p3 & _ & Hr).
    rewrite (bind_done _ _ _ _ _ _ Hr) in Er.
    match type of Er with
    | context [if negb ?c then _ else _] => destruct c; cbn [negb] in Er
    end; [| subst r; intros H; discriminate H].
    destruct (write32_run T (STM32Lx_FLASH_SR base) STM32Lx_FLASH_SR_ERR_MASK p3)
      as (e2 & p4 & Hs).
    rewrite (bind_done _ _ _ _ _ _ Hs) in Er.
    unfold bind at 1 in Er.
    destruct (stm32lx_flash_erase_loop T fuel addr len (blocksize f)
                ((addr =? start f) && (len =? length f)) 0 p4)
      as [[] p5 trl | s p5 trl]; [| subst r; intros H; discriminate H].
    subst r. rewrite !returned_prepend, !trace_prepend. intros H.
    apply lock_wait_success in H.
    rewrite !app_assoc, <- !(app_assoc (prog_unlock_events base u)).
    apply Hfin. exact H.
  - (* flash write *)
    remember (stm32lx_flash_write T fuel t f addr src len p) as r eqn:Er.
    unfold stm32lx_flash_write in Er. fold base in Er.
    destruct (prog_unlock_run T base p) as (u & p1 & _ & Hu).
    rewrite (bind_done _ _ _ _ _ _ Hu) in Er.
    destruct (Z.land u STM32Lx_FLASH_PECR_PRGLOCK =? 0); cbn [negb] in Er;
      [| subst r; intros H; discriminate H].
    unfold bind at 1 in Er.
    destruct (stm32lx_nvm_busy_wait T fuel base false p1) as [idle p2 trw | s p2 trw];
      [| subst r; intros H; discriminate H].
    destruct idle; cbn [negb] in Er; [| subst r; intros H; discriminate H].
    destruct (write32_run T (STM32Lx_FLASH_PECR base)
                (Z.lor STM32Lx_FLASH_PECR_PROG STM32Lx_FLASH_PECR_FPRG) p2)
      as (e1 & p3 & Hw).
    rewrite (bind_done _ _ _ _ _ _ Hw) in Er.
    unfold bind at 1 in Er. unfold target_mem32_write at 1 in Er.
    destruct (mem32_write T addr (bytes_of src len) p3) as [e2 p4].
    subst r. rewrite !returned_prepend, !trace_prepend. intros H.
    apply lock_wait_success in H.
    rewrite !app_assoc, <- !(app_assoc (prog_unlock_events base u)).
    apply Hfin. exact H.
  - (* eeprom erase *)
    remember (stm32lx_eeprom_erase T fuel t f addr len p) as r eqn:Er.
    unfold stm32lx_eeprom_erase in Er. fold base in Er.
    destruct (prog_unlock_run T base p) as (u & p1 & _ & Hu).
    rewrite (bind_done _ _ _ _ _ _ Hu) in Er.
    destruct (Z.land u STM32Lx_FLASH_PECR_PRGLOCK =? 0); cbn [negb] in Er;
      [| subst r; intros H; discriminate H].
    destruct (write32_run T (STM32Lx_FLASH_PECR base)
                (Z.lor STM32Lx_FLASH_PECR_ERASE STM32Lx_FLASH_PECR_DATA) p1)
      as (e1 & p2 & Hw).
    rewrite (bind_done _ _ _ _ _ _ Hw) in Er.
    destruct (read32_run T (STM32Lx_FLASH_PECR base) p2) as (v & p3 & _ & Hr).
    rewrite (bind_done _ _ _ _ _ _ Hr) in Er.
    match type of Er with
    | context [if negb ?c then _ else _] => destruct c; cbn [negb] in Er
    end; [| subst r; intros H; discriminate H].
    unfold bind at 1 in Er.
    destruct (stm32lx_eeprom_erase_loop T fuel (Z.land addr (not32 3)) len
                (blocksize f) 0 p3)
      as [[] p5 trl | s p5 trl]; [| subst r; intros H; discriminate H].
    subst r. rewrite !returned_prepend, !trace_prepend. intros H.
    apply lock_wait_success in H.
    rewrite !app_assoc, <- !(app_assoc (prog_unlock_events base u)).
    apply Hfin. exact H.
  - (* eeprom write *)
    remember (stm32lx_eeprom_write T fuel t f addr src len p) as r eqn:Er.
    unfold stm32lx_eeprom_write in Er. fold base in Er.
    destruct (prog_unlock_run T base p) as (u & p1 & _ & Hu).
    rewrite (bind_done _ _ _ _ _ _ Hu) in Er.
    destruct (Z.land u STM32Lx_FLASH_PECR_PRGLOCK =? 0); cbn [negb] in Er;
      [| subst r; intros H; discriminate H].
    destruct (write32_run T (STM32Lx_FLASH_PECR base)
                (if stm32lx_is_stm32l1 t then 0 else STM32Lx_FLASH_PECR_DATA) p1)
      as (e1 & p2 & Hw).
    rewrite (bind_done _ _ _ _ _ _ Hw) in Er.
    unfold bind at 1 in Er.
    destruct (stm32lx_eeprom_write_loop T fuel addr src len 0 p2)
      as [sent p3 trl | s p3 trl]; [| subst r; intros H; discriminate H].
    destruct sent; cbn [negb] in Er; [| subst r; intros H; discriminate H].
    subst r. rewrite !returned_prepend, !trace_prepend. intros H.
    apply lock_wait_success in H.
    rewrite !app_assoc, <- !(app_assoc (prog_unlock_events base u)).
    apply Hfin. exact H.
Qed.
End Success.

(** ** Flash write, single EEPROM writes and the console commands *)

Section WritesAndCommands.
Context {P : Type} (T : platform P).

(** X4.  [stm32lx_flash_write] sends the payload only after the unlock was
    verified and the wait that precedes the arming succeeded.  It is then sent
    as one buffer write of the first [len] bytes of the source to [dest],
    between the arming write of PROG and FPRG and the lock; the error the
    buffer write may report is not looked at, the result being the one of the
    final busy-wait. *)
Theorem flash_write_payload :
  forall (fuel : nat) (t : target) (f : target_flash) (dest : Z) (src : host_buf)
         (len : Z) (p : P),
    let base := stm32lx_flash_base t in
    let r := stm32lx_flash_write T fuel t f dest src len p in
    exists u,
      (Z.land u STM32Lx_FLASH_PECR_PRGLOCK <> 0 /\
       returned r = Some false /\ trace r = prog_unlock_events base u)
      \/
      (Z.land u STM32Lx_FLASH_PECR_PRGLOCK = 0 /\
       exists q1,
         let w := stm32lx_nvm_busy_wait T fuel base false q1 in
         (returned w = None /\ returned r = None /\
          trace r = prog_unlock_events base u ++ trace w)
         \/
         (returned w = Some false /\ returned r = Some false /\
          trace r = prog_unlock_events base u ++ trace w)
         \/
         (returned w = Some true /\
          exists q2,
            returned r = returned (stm32lx_nvm_busy_wait T fuel base false q2) /\
            trace r = prog_unlock_events base u ++ trace w
                      ++ [Write32 (STM32Lx_FLASH_PECR base)
                            (Z.lor STM32Lx_FLASH_PECR_PROG STM32Lx_FLASH_PECR_FPRG);
                          WriteBuf dest (bytes_of src len);
                          lock_event base]
                      ++ trace (stm32lx_nvm_busy_wait T fuel base false q2))).
Proof.
  intros fuel t f dest src len p base r.
  assert (Er : r = stm32lx_flash_write T fuel t f dest src len p) by reflexivity.
  clearbody r. unfold stm32lx_flash_write in Er. fold base in Er.
  destruct (prog_unlock_run T base p) as (u & p1 & _ & Hu).
  rewrite (bind_done _ _ _ _ _ _ Hu) in Er. exists u.
  destruct (Z.land u STM32Lx_FLASH_PECR_PRGLOCK =? 0) eqn:Hlock; cbn [negb] in Er.
  2:{ left. apply Z.eqb_neq in Hlock. split; [exact Hlock |]. subst r.
      cbn [ret prepend trace returned]. rewrite app_nil_r. split; reflexivity. }
  right. apply Z.eqb_eq in Hlock. split; [exact Hlock |]. exists p1. cbn zeta.
  unfold bind at 1 in Er.
  destruct (stm32lx_nvm_busy_wait T fuel base false p1) as [idle p2 trw | s p2 trw];
    cbn [returned trace].
  2:{ left. subst r. repeat split. }
  destruct idle; cbn [negb] in Er.
  2:{ right. left. subst r. cbn [ret prepend returned trace]. rewrite app_nil_r.
      repeat split. }
  right. right. split; [reflexivity |].
  destruct (write32_run T (STM32Lx_FLASH_PECR base)
              (Z.lor STM32Lx_FLASH_PECR_PROG STM32Lx_FLASH_PECR_FPRG) p2)
    as (e1 & p3 & Hw).
  rewrite (bind_done _ _ _ _ _ _ Hw) in Er.
  unfold bind at 1 in Er. unfold target_mem32_write at 1 in Er.
  destruct (mem32_write T dest (bytes_of src len) p3) as [e2 p4].
  destruct (lock_run T base p4) as (p5 & Hl).
  rewrite (bind_done _ _ _ _ _ _ Hl) in Er.
  exists p5. subst r. rewrite !returned_prepend, !trace_prepend.
  split; [reflexivity |]. cbn [app]. reflexivity.
Qed.

(** X5.  A single EEPROM write clears the error flags, selects the
    fixed-mode operation (with DATA on an STM32L0), and then writes exactly one
    unit at the address: a word, a half-word or a byte for the widths 4, 2 and
    1, the value reduced to that width, followed by the busy-wait whose result
    it returns.  Any other width makes it return failure right after the mode
    was selected, with no write to the address and no wait. *)
Theorem eeprom_write_one_widths :
  forall (fuel : nat) (t : target) (address block_size value : Z) (p : P),
    let base := stm32lx_flash_base t in
    let mode := Z.lor (if stm32lx_is_stm32l1 t then 0 else STM32Lx_FLASH_PECR_DATA)
                      STM32Lx_FLASH_PECR_FIX in
    let hdr := [Write32 (STM32Lx_FLASH_SR base) STM32Lx_FLASH_SR_ERR_MASK;
                Write32 (STM32Lx_FLASH_PECR base) mode] in
    let r := stm32lx_eeprom_write_one T fuel t address block_size value p in
    exists q,
      let w := stm32lx_nvm_busy_wait T fuel base false q in
      (block_size = 4 ->
       returned r = returned w /\
       trace r = hdr ++ Write32 address (wrap32 value) :: trace w) /\
      (block_size = 2 ->
       returned r = returned w /\
       trace r = hdr ++ Write16 address (wrap16 value) :: trace w) /\
      (block_size = 1 ->
       returned r = returned w /\
       trace r = hdr ++ Write8 address (wrap8 value) :: trace w) /\
      (block_size <> 4 -> block_size <> 2 -> block_size <> 1 ->
       returned r = Some false /\ trace r = hdr).
Proof.
  intros fuel t address block_size value p base mode hdr r.
  assert (Er : r = stm32lx_eeprom_write_one T fuel t address block_size value p)
    by reflexivity.
  clearbody r. subst hdr.
  unfold stm32lx_eeprom_write_one in Er. fold base in Er. fold mode in Er.
  destruct (write32_run T (STM32Lx_FLASH_SR base) STM32Lx_FLASH_SR_ERR_MASK p)
    as (e1 & p1 & H1).
  rewrite (bind_done _ _ _ _ _ _ H1) in Er.
  destruct (write32_run T (STM32Lx_FLASH_PECR base) mode p1) as (e2 & p2 & H2).
  rewrite (bind_done _ _ _ _ _ _ H2) in Er.
  assert (Hmode : wrap32 mode = mode).
  { unfold mode. destruct (stm32lx_is_stm32l1 t); reflexivity. }
  rewrite Hmode in Er.
  destruct (Z.eqb_spec block_size 4) as [E4 | N4].
  { destruct (write32_run T address value p2) as (e3 & p3 & H3).
    rewrite (bind_done _ _ _ _ _ _ H3) in Er. exists p3. cbn zeta. subst r.
    rewrite !returned_prepend, !trace_prepend.
    repeat split; intros; try lia; reflexivity. }
  destruct (Z.eqb_spec block_size 2) as [E2 | N2].
  { unfold bind at 1 in Er. unfold target_mem32_write16 at 1 in Er.
    destruct (mem32_write16 T address (wrap16 value) p2) as [e3 p3].
    exists p3. cbn zeta. subst r. rewrite !returned_prepend, !trace_prepend.
    repeat split; intros; try lia; reflexivity. }
  destruct (Z.eqb_spec block_size 1) as [E1 | N1].
  { unfold bind at 1 in Er. unfold target_mem32_write8 at 1 in Er.
    destruct (mem32_write8 T address (wrap8 value) p2) as [e3 p3].
    exists p3. cbn zeta. subst r. rewrite !returned_prepend, !trace_prepend.
    repeat split; intros; try lia; reflexivity. }
  exists p2. cbn zeta. subst r. cbn [ret prepend returned trace app].
  repeat split; intros; try lia; reflexivity.
Qed.
End WritesAndCommands.

Section ConsoleCommands.
Context {P : Type} (T : platform P).

(** X6.  The write path of the eeprom command.  With the unlock verified,
    an address inside the EEPROM and a command word that selects a width the
    address is aligned for, the command announces the write, performs the
    single EEPROM write of that width with the value reduced to it, reports a
    failed write on the console, locks, and returns true whether the write
    succeeded or not.  It does not return while the write is still waiting. *)
Theorem eeprom_command_write :
  forall (fuel : nat) (t : target) (cmd0 cmd a v : string) (bs : Z) (p : P),
    let addr := wrap32 (strtoul T a) in
    let val := width_mask bs (wrap32 (strtoul T v)) in
    let base := stm32lx_flash_base t in
    let r := stm32lx_cmd_eeprom T fuel t 4 [cmd0; cmd; a; v] p in
    returned (stm32lx_nvm_prog_data_unlock T base p) = Some true ->
    eeprom_accepts t cmd addr = Some bs ->
    exists u q,
      let w := stm32lx_eeprom_write_one T fuel t addr bs val q in
      let announce :=
        Printf "writing %s 0x%08x with 0x%x\n"
          [ArgS (stm32lx_block_size_str bs); ArgZ addr; ArgZ val] in
      (returned w = Some true /\ returned r = Some true /\
       trace r = prog_unlock_events base u ++ announce :: trace w
                 ++ [lock_event base])
      \/
      (returned w = Some false /\ returned r = Some true /\
       trace r = prog_unlock_events base u ++ announce :: trace w
                 ++ [Printf "eeprom write failed\n" []; lock_event base])
      \/
      (returned w = None /\ returned r = None /\
       trace r = prog_unlock_events base u ++ announce :: trace w).
Proof.
  intros fuel t cmd0 cmd a v bs p addr val base r Hunlock Hacc.
  assert (Er : r = stm32lx_cmd_eeprom T fuel t 4 [cmd0; cmd; a; v] p) by reflexivity.
  clearbody r. unfold stm32lx_cmd_eeprom in Er. fold base in Er.
  destruct (prog_unlock_run T base p) as (u & p1 & _ & Hu).
  rewrite Hu in Hunlock. cbn [returned] in Hunlock. injection Hunlock as Hub.
  rewrite (bind_done _ _ _ _ _ _ Hu), Hub in Er. cbn [negb] in Er.
  change (4 =? 4) with true in Er. cbn [argv_at nth] in Er. fold addr in Er.
  fold (cmd_is cmd "byte") in Er. fold (cmd_is cmd "halfword") in Er.
  fold (cmd_is cmd "word") in Er.
  exists u, p1. cbn zeta.
  (* the dispatch selects the write of width [bs] *)
  assert (Hsel :
            exists body,
              r = prepend (prog_unlock_events base u)
                    (bind body (fun _ => stm32lx_nvm_lock T base ;; ret true) p1) /\
              body = stm32lx_cmd_eeprom_do_write T fuel t addr bs val).
  { unfold eeprom_accepts in Hacc. unfold val, width_mask.
    eexists. split; [exact Er |].
    destruct ((STM32Lx_FLASH_EEPROM_BASE <=? addr)
              && (addr <? STM32Lx_FLASH_EEPROM_BASE + stm32lx_nvm_eeprom_size t))
      eqn:Hin; [| discriminate Hacc].
    apply andb_true_iff in Hin. destruct Hin as (Hin1 & Hin2).
    replace ((addr <? STM32Lx_FLASH_EEPROM_BASE)
             || (STM32Lx_FLASH_EEPROM_BASE + stm32lx_nvm_eeprom_size t <=? addr))
      with false.
    2:{ symmetry.
        rewrite (Z.ltb_antisym STM32Lx_FLASH_EEPROM_BASE addr),
          (Z.leb_antisym addr (STM32Lx_FLASH_EEPROM_BASE + stm32lx_nvm_eeprom_size t)),
          <- negb_andb.
        rewrite Hin1, Hin2. reflexivity. }
    destruct (cmd_is cmd "byte").
    { injection Hacc as <-. reflexivity. }
    destruct (cmd_is cmd "halfword").
    { destruct (Z.land addr 1 =? 0); [| discriminate Hacc].
      injection Hacc as <-. reflexivity. }
    destruct (cmd_is cmd "word"); [| discriminate Hacc].
    destruct (Z.land addr 3 =? 0); [| discriminate Hacc].
    injection Hacc as <-. reflexivity. }
  destruct Hsel as (body & Hr & Hbody). subst body. clear Er.
  unfold bind at 1 in Hr. unfold stm32lx_cmd_eeprom_do_write in Hr.
  unfold bind at 1 in Hr. unfold tc_printf at 1 in Hr. cbn [prepend] in Hr.
  unfold bind at 1 in Hr.
  destruct (stm32lx_eeprom_write_one T fuel t addr bs val p1) as [ok p2 trw | s p2 trw];
    cbn [returned trace].
  2:{ right. right. subst r. repeat split. }
  destruct (lock_run T base p2) as (p3 & Hl).
  destruct ok; cbn [negb] in Hr.
  - left. split; [reflexivity |].
    cbn [ret prepend] in Hr. rewrite (bind_done _ _ _ _ _ _ Hl) in Hr.
    cbn [ret prepend] in Hr. subst r. cbn [returned trace].
    split; [reflexivity |]. rewrite <- ?app_assoc. cbn [app]. rewrite ?app_nil_r. reflexivity.
  - right. left. split; [reflexivity |].
    unfold tc_printf at 1 in Hr. cbn [prepend] in Hr.
    rewrite (bind_done _ _ _ _ _ _ Hl) in Hr.
    cbn [ret prepend] in Hr. subst r. cbn [returned trace].
    split; [reflexivity |]. rewrite <- ?app_assoc. cbn [app]. rewrite ?app_nil_r. reflexivity.
Qed.

(** X7.  Both console commands return true on every run that returns.  When
    their unlock is not verified they print that and make no further access
    to the device; otherwise the last call of the run is the write of PELOCK
    to PECR, whatever the arguments were and whether the requested operation
    succeeded or not. *)
Theorem console_commands_end_locked :
  forall (fuel : nat) (t : target) (argc : Z) (argv : list string) (p : P),
    let base := stm32lx_flash_base t in
    match stm32lx_cmd_eeprom T fuel t argc argv p with
    | Done b _ tr =>
        b = true /\
        exists u,
          (Z.land u STM32Lx_FLASH_PECR_PRGLOCK <> 0 /\
           tr = prog_unlock_events base u ++ [Printf "unable to unlock EEPROM\n" []])
          \/
          (Z.land u STM32Lx_FLASH_PECR_PRGLOCK = 0 /\
           exists mid, tr = prog_unlock_events base u ++ mid ++ [lock_event base])
    | Stop _ _ _ => True
    end /\
    match stm32lx_cmd_option T fuel t argc argv p with
    | Done b _ tr =>
        b = true /\
        exists u,
          (Z.land u STM32Lx_FLASH_PECR_OPTLOCK <> 0 /\
           tr = opt_unlock_events base u
                ++ [Printf "unable to unlock FLASH option bytes\n" []])
          \/
          (Z.land u STM32Lx_FLASH_PECR_OPTLOCK = 0 /\
           exists mid, tr = opt_unlock_events base u ++ mid ++ [lock_event base])
    | Stop _ _ _ => True
    end.
Proof.
  intros fuel t argc argv p base.
  assert (Htail : forall (body : M P unit) q,
             match bind body (fun _ => stm32lx_nvm_lock T base ;; ret true) q with
             | Done b _ tr => b = true /\ exists mid, tr = mid ++ [lock_event base]
             | Stop _ _ _ => True
             end).
  { intros body q. unfold bind at 1.
    destruct (body q) as [[] q1 trb | s q1 trb]; [| exact I].
    destruct (lock_run T base q1) as (q2 & Hl).
    rewrite (bind_done _ _ _ _ _ _ Hl). cbn [ret prepend].
    split; [reflexivity |]. exists trb. rewrite app_nil_r. reflexivity. }
  split.
  - unfold stm32lx_cmd_eeprom. fold base.
    destruct (prog_unlock_run T base p) as (u & p1 & _ & Hu).
    rewrite (bind_done _ _ _ _ _ _ Hu).
    destruct (Z.land u STM32Lx_FLASH_PECR_PRGLOCK =? 0) eqn:Hlock; cbn [negb].
    + apply Z.eqb_eq in Hlock.
      match goal with
      | |- context [bind ?body _ p1] => pose proof (Htail body p1) as Hb
      end.
      match goal with
      | |- context [prepend _ ?x] => destruct x as [b q tr | s q tr]
      end; cbn [prepend]; [| exact I].
      destruct Hb as (-> & mid & ->). split; [reflexivity |].
      exists u. right. split; [exact Hlock |]. exists mid. reflexivity.
    + apply Z.eqb_neq in Hlock. cbn. split; [reflexivity |].
      exists u. left. split; [exact Hlock | reflexivity].
  - unfold stm32lx_cmd_option. fold base.
    destruct (opt_unlock_run T base p) as (u & p1 & _ & Hu).
    rewrite (bind_done _ _ _ _ _ _ Hu).
    destruct (Z.land u STM32Lx_FLASH_PECR_OPTLOCK =? 0) eqn:Hlock; cbn [negb].
    + apply Z.eqb_eq in Hlock.
      match goal with
      | |- context [bind ?body _ p1] => pose proof (Htail body p1) as Hb
      end.
      match goal with
      | |- context [prepend _ ?x] => destruct x as [b q tr | s q tr]
      end; cbn [prepend]; [| exact I].
      destruct Hb as (-> & mid & ->). split; [reflexivity |].
      exists u. right. split; [exact Hlock |]. exists mid. reflexivity.
    + apply Z.eqb_neq in Hlock. cbn. split; [reflexivity |].
      exists u. left. split; [exact Hlock | reflexivity].
Qed.
End ConsoleCommands.

Section OptionCommandPaths.
Context {P : Type} (T : platform P).

Lemma option_usage_run t p :
  stm32lx_cmd_option_usage (P := P) t p = Done tt p (option_usage_events t).
Proof. reflexivity. Qed.

(** X8.  The option command ends in its usage text, without writing any
    option word, when it has no argument, when it has three arguments whose
    command word is neither a prefix of [raw] nor of [write], and when the
    address is outside the option window of the family or not 4-byte
    aligned; in the last case the line announcing the write has already been
    printed.  Each time the controller is locked afterwards and the command
    returns true. *)
Theorem option_command_rejections :
  forall (fuel : nat) (t : target) (argc : Z) (argv : list string)
         (why : option_reject) (p : P),
    let cmd := argv_at argv 1 in
    let addr := wrap32 (strtoul T (argv_at argv 2)) in
    let val := wrap32 (strtoul T (argv_at argv 3)) in
    let stored := if cmd_is cmd "raw" then val else option_word val in
    let base := stm32lx_flash_base t in
    returned (stm32lx_nvm_opt_unlock T base p) = Some true ->
    option_rejects t argc cmd addr why = true ->
    exists u p',
      stm32lx_cmd_option T fuel t argc argv p
      = Done true p'
          (opt_unlock_events base u
           ++ match why with
              | BadAddress =>
                  [Printf "%s %08x <- %08x\n" [ArgS cmd; ArgZ addr; ArgZ stored]]
              | _ => []
              end
           ++ option_usage_events t ++ [lock_event base]).
Proof.
  intros fuel t argc argv why p cmd addr val stored base Hunlock Hrej.
  unfold stm32lx_cmd_option. fold base.
  destruct (opt_unlock_run T base p) as (u & p1 & _ & Hu).
  rewrite Hu in Hunlock. cbn [returned] in Hunlock. injection Hunlock as Hub.
  rewrite (bind_done _ _ _ _ _ _ Hu), Hub. cbn [negb].
  destruct (lock_run T base p1) as (p2 & Hl).
  exists u, p2.
  fold cmd. fold (cmd_is cmd "raw"). fold (cmd_is cmd "write"). fold addr. fold val.
  fold (option_addr_ok t addr).
  assert (Hfinish : forall evs,
             prepend (opt_unlock_events base u)
               (bind (fun q => Done tt q evs)
                  (fun _ => stm32lx_nvm_lock T base ;; ret true) p1)
             = Done true p2 (opt_unlock_events base u ++ evs ++ [lock_event base])).
  { intros evs. unfold bind at 1. cbn beta iota.
    rewrite (bind_done _ _ _ _ _ _ Hl). cbn [prepend ret].
    rewrite !app_nil_r. reflexivity. }
  unfold option_rejects in Hrej. destruct why.
  - rewrite Hrej. apply (Hfinish (option_usage_events t)).
  - rewrite !andb_true_iff, !negb_true_iff in Hrej.
    destruct Hrej as ((Hargc & Hraw) & Hwrite).
    apply Z.eqb_eq in Hargc. subst argc.
    change (4 <? 2) with false. change (4 =? 2) with false.
    change (4 =? 4) with true. cbn [andb].
    rewrite Hraw, Hwrite. cbn [negb andb].
    apply (Hfinish (option_usage_events t)).
  - rewrite !andb_true_iff, !negb_true_iff in Hrej.
    destruct Hrej as ((Hargc & Hcmd) & Haddr).
    apply Z.eqb_eq in Hargc. subst argc.
    change (4 <? 2) with false. change (4 =? 2) with false.
    change (4 =? 4) with true. cbn [andb].
    replace (negb (cmd_is cmd "raw") && negb (cmd_is cmd "write")) with false
      by (destruct (cmd_is cmd "raw"), (cmd_is cmd "write");
          cbn [negb andb orb] in *; congruence).
    rewrite Haddr.
    replace (if negb (cmd_is cmd "raw") then option_word val else val) with stored
      by (unfold stored; destruct (cmd_is cmd "raw"); reflexivity).
    apply (Hfinish (Printf "%s %08x <- %08x\n" [ArgS cmd; ArgZ addr; ArgZ stored]
                    :: option_usage_events t)).
Qed.

End OptionCommandPaths.

(** ** Probing and attaching *)

Section Probes.
Context {P : Type} (T : platform P).

Lemma prot_level_zero optr :
  (stm32lx_prot_level optr =? 0)
  = (Z.land optr STM32Lx_FLASH_OPTR_RDPROT_MASK =? STM32Lx_FLASH_OPTR_RDPROT_0).
Proof.
  unfold stm32lx_prot_level, STM32Lx_FLASH_OPTR_RDPROT_SHIFT.
  rewrite Z.shiftr_0_r.
  destruct (Z.land optr STM32Lx_FLASH_OPTR_RDPROT_MASK =? STM32Lx_FLASH_OPTR_RDPROT_0);
    [reflexivity |].
  destruct (Z.land optr STM32Lx_FLASH_OPTR_RDPROT_MASK =? STM32Lx_FLASH_OPTR_RDPROT_2);
    reflexivity.
Qed.

(** X10.  [stm32l1_probe] leaves an unknown part untouched: it fails
    without any call and without changing the target.  For a known part it
    records the part number, which selects the STM32L1 register base, and
    fails only when its private storage cannot be allocated, before any
    access to the device.  Otherwise its last call is the one read of the
    option register, and the device is marked protected exactly when the
    protection level [stm32lx_prot_level] computes from that value is not 0;
    the driver name carries the suffix " (protected)" exactly then. *)
Theorem stm32l1_probe_result :
  forall (t : target) (partno : Z) (p0 : P),
    match stm32l1_probe T t partno p0 with
    | Done (ok, t') p1 tr =>
        (stm32l1_partno_known partno = false ->
         ok = false /\ t' = t /\ p1 = p0 /\ tr = []) /\
        (stm32l1_partno_known partno = true ->
         part_id t' = partno /\ stm32lx_is_stm32l1 t' = true /\
         (ok = false ->
          forallb (fun e => negb (is_mem_access e)) tr = true /\
          exists pre, tr = pre ++ [Calloc false]) /\
         (ok = true ->
          exists pre optr,
            tr = pre ++ [Calloc true; Read32 (STM32Lx_FLASH_OPTR STM32L1_FLASH_BASE) optr] /\
            forallb (fun e => negb (is_mem_access e)) pre = true /\
            is_protected t' = negb (stm32lx_prot_level optr =? 0) /\
            driver t' = if is_protected t' then "STM32L1 (protected)"%string
                        else "STM32L1"%string))
    | Stop _ _ _ => False
    end.
Proof.
  intros t partno p0. unfold stm32l1_probe. fold (stm32l1_partno_known partno).
  destruct (stm32l1_partno_known partno) eqn:Hknown.
  2:{ cbn. split; [intros _; repeat split | intros H; discriminate H]. }
  assert (Hl1 : forall t0, stm32lx_is_stm32l1 (set_part_id t0 partno) = true).
  { intros t0. unfold stm32l1_partno_known in Hknown.
    rewrite !orb_true_iff, !Z.eqb_eq in Hknown.
    unfold stm32lx_is_stm32l1. cbn [part_id set_part_id].
    destruct Hknown as [[[[-> | ->] | ->] | ->] | ->]; reflexivity. }
  assert (Hbase : forall t0,
             stm32lx_flash_base (set_part_id t0 partno) = STM32L1_FLASH_BASE).
  { intros t0. unfold stm32lx_flash_base. rewrite Hl1. reflexivity. }
  unfold stm32l_add_flash, bind, do_calloc, target_mem32_read32, ret.
  destruct (calloc T p0) as [ok1 q1].
  destruct ok1; cbn [negb prepend];
    match goal with
    | |- context [calloc T ?q] => destruct (calloc T q) as [ok2 q2]
    end;
    destruct ok2; cbn [negb prepend].
  all: try match goal with
         | |- context [mem32_read32 T ?a ?q] =>
             destruct (mem32_read32 T a q) as [optr q3]
         end; cbn [prepend].
  all: try match goal with
         | |- context [negb (?c =? STM32Lx_FLASH_OPTR_RDPROT_0)] =>
             pose proof (prot_level_zero (wrap32 optr)) as Hlev;
             destruct (c =? STM32Lx_FLASH_OPTR_RDPROT_0) eqn:Hprot
         end; cbn [negb prepend].
  all: (split; [intros H; discriminate H | intros _]).
  all: (split; [reflexivity |]); (split; [apply Hl1 |]).
  all: split; intros Hok; try discriminate Hok.
  all: try (split; [reflexivity | eexists; cbn [app];
                                  first [ instantiate (1 := [Calloc true]); reflexivity
                                        | instantiate (1 := [Calloc false]); reflexivity
                                        | instantiate (1 := []); reflexivity ]]).
  all: rewrite ?Hbase.
  all: first
         [ solve [ exists [Calloc true], (wrap32 optr);
                   (split; [reflexivity |]); (split; [reflexivity |]);
                   rewrite Hlev; unfold is_protected; cbn; split; reflexivity ]
         | solve [ exists [Calloc false], (wrap32 optr);
                   (split; [reflexivity |]); (split; [reflexivity |]);
                   rewrite Hlev; unfold is_protected; cbn; split; reflexivity ] ].
Qed.

Lemma add_flash_run t addr len erasesize p :
  exists (ok : bool) p',
    stm32l_add_flash T t addr len erasesize p
    = Done (if ok
            then target_add_flash t
                   {| start := addr; length := len; blocksize := erasesize;
                      writesize := Z.shiftr erasesize 1;
                      erase := Some stm32lx_flash_erase_fn;
                      write := Some stm32lx_flash_write_fn |}
            else t) p' [Calloc ok].
Proof.
  unfold stm32l_add_flash, bind, do_calloc, ret.
  destruct (calloc T p) as [ok p']. exists ok, p'. destruct ok; reflexivity.
Qed.

Lemma add_eeprom_run t addr len p :
  exists (ok : bool) p',
    stm32l_add_eeprom T t addr len p
    = Done (if ok
            then target_add_flash t
                   {| start := addr; length := len; blocksize := 4; writesize := 0;
                      erase := Some stm32lx_eeprom_erase_fn;
                      write := Some stm32lx_eeprom_write_fn |}
            else t) p' [Calloc ok].
Proof.
  unfold stm32l_add_eeprom, bind, do_calloc, ret.
  destruct (calloc T p) as [ok p']. exists ok, p'. destruct ok; reflexivity.
Qed.

Lemma configure_dbgmcu_run p :
  exists p', stm32l0_configure_dbgmcu T p = Done tt p' dbgmcu_events.
Proof.
  unfold stm32l0_configure_dbgmcu, bind, target_mem32_write32, ret.
  repeat match goal with
         | |- context [mem32_write32 T ?a ?v ?q] =>
             destruct (mem32_write32 T a v q) as [? ?]
         end.
  eexists. reflexivity.
Qed.

(** X11.  [stm32l0_probe] leaves a part that is not an STM32L0 untouched.
    For an STM32L0 it always reports success, even when a region could not be
    allocated: it writes the debug configuration, reads the flash size in
    KiB, and then allocates the regions.  When every allocation succeeds the
    regions added are one flash bank of the size read (two banks of half
    that size on a category 5 part) followed by the EEPROM; for a size of at
    most 512 KiB they are in ascending order and do not overlap, and the two
    banks of a category 5 part are adjacent. *)
Theorem stm32l0_probe_result :
  forall (t : target) (p0 : P),
    match stm32l0_probe T t p0 with
    | Done (ok, t') p1 tr =>
        (stm32l0_part_id_known (part_id t) = false ->
         ok = false /\ t' = t /\ p1 = p0 /\ tr = []) /\
        (stm32l0_part_id_known (part_id t) = true ->
         ok = true /\
         part_id t' = part_id t /\
         attach_op t' = Some stm32l0_attach_fn /\
         mass_erase t' = Some stm32lx_mass_erase_fn /\
         exists kib allocs,
           0 <= kib < 2 ^ 16 /\
           tr = dbgmcu_events ++ Read16 STM32L0_UID_FLASH_SIZE kib :: map Calloc allocs /\
           (forallb (fun b => b) allocs = true ->
            flash t' = flash t ++ stm32l0_flash_map (part_id t) kib) /\
           (kib <= 512 -> ascending_disjoint (stm32l0_flash_map (part_id t) kib)) /\
           (part_id t = ID_STM32L07x -> kib <= 512 ->
            exists b1 b2,
              stm32l0_flash_map (part_id t) kib = [b1; b2; eeprom_region] /\
              start b2 = start b1 + length b1 /\ length b2 = length b1))
    | Stop _ _ _ => False
    end.
Proof.
  intros t p0. unfold stm32l0_probe.
  assert (Hid : negb (part_id t =? ID_STM32L01x) && negb (part_id t =? ID_STM32L03x)
                && negb (part_id t =? ID_STM32L05x) && negb (part_id t =? ID_STM32L07x)
                = negb (stm32l0_part_id_known (part_id t))).
  { unfold stm32l0_part_id_known. rewrite !negb_orb. reflexivity. }
  rewrite Hid. clear Hid.
  destruct (stm32l0_part_id_known (part_id t)) eqn:Hknown; cbn [negb].
  2:{ cbn. split; [intros _; repeat split | intros H; discriminate H]. }
  destruct (configure_dbgmcu_run p0) as (q1 & Hcfg).
  rewrite (bind_done _ _ _ _ _ _ Hcfg).
  unfold bind at 1. unfold target_mem32_read16 at 1.
  destruct (mem32_read16 T STM32L0_UID_FLASH_SIZE q1) as [kib0 q2].
  cbn [prepend]. set (kib := wrap16 kib0).
  assert (Hkib : 0 <= kib < 2 ^ 16) by (apply Z.mod_pos_bound; lia).
  cbn [part_id set_driver set_attach set_detach set_mass_erase target_add_commands
         target_add_ram32].
  assert (Hlayout :
            (kib <= 512 -> ascending_disjoint (stm32l0_flash_map (part_id t) kib)) /\
            (part_id t = ID_STM32L07x -> kib <= 512 ->
             exists b1 b2,
               stm32l0_flash_map (part_id t) kib = [b1; b2; eeprom_region] /\
               start b2 = start b1 + length b1 /\ length b2 = length b1)).
  { assert (Hsmall : kib <= 512 -> wrap32 (kib * 1024) = kib * 1024)
      by (intros; apply wrap32_small; lia).
    split.
    - intros Hle. unfold stm32l0_flash_map. rewrite (Hsmall Hle).
      destruct (part_id t =? ID_STM32L07x).
      + cbn [app ascending_disjoint start length stm32l0_flash_bank eeprom_region].
        rewrite Z.shiftr_div_pow2 by lia. change (2 ^ 1) with 2.
        assert (0 <= kib * 1024 / 2 <= 262144).
        { split; [apply Z.div_pos; lia | apply Z.div_le_upper_bound; lia]. }
        rewrite wrap32_small by (unfold STM32Lx_FLASH_BANK_BASE; lia).
        unfold STM32Lx_FLASH_BANK_BASE, STM32Lx_EEPROM_BASE. lia.
      + cbn [app ascending_disjoint start length stm32l0_flash_bank eeprom_region].
        unfold STM32Lx_FLASH_BANK_BASE, STM32Lx_EEPROM_BASE. lia.
    - intros Hcat Hle. unfold stm32l0_flash_map. rewrite (Hsmall Hle), Hcat.
      rewrite Z.eqb_refl. cbn [app]. eexists. eexists. split; [reflexivity |].
      cbn [start length stm32l0_flash_bank].
      rewrite Z.shiftr_div_pow2 by lia. change (2 ^ 1) with 2.
      assert (0 <= kib * 1024 / 2 <= 262144).
      { split; [apply Z.div_pos; lia | apply Z.div_le_upper_bound; lia]. }
      rewrite wrap32_small by (unfold STM32Lx_FLASH_BANK_BASE; lia).
      split; reflexivity. }
  assert (Hcat : forall id,
             stm32l0_part_id_known id = true ->
             (id =? ID_STM32L01x) || (id =? ID_STM32L03x) || (id =? ID_STM32L05x)
             = negb (id =? ID_STM32L07x)).
  { intros id. unfold stm32l0_part_id_known.
    rewrite !orb_true_iff, !Z.eqb_eq. intros [[[-> | ->] | ->] | ->]; reflexivity. }
  rewrite (Hcat _ Hknown).
  unfold stm32l0_flash_map in *. fold kib.
  destruct (part_id t =? ID_STM32L07x) eqn:Hc5; cbn [negb].
  - (* category 5: two banks *)
    match goal with
    | |- context [stm32l_add_flash T ?t0 ?a ?l ?e] =>
        destruct (add_flash_run t0 a l e q2) as (ok1 & q3 & H1)
    end.
    unfold bind at 1. unfold bind at 1. rewrite H1. cbn [prepend].
    match goal with
    | |- context [stm32l_add_flash T ?t0 ?a ?l ?e ?q] =>
        destruct (add_flash_run t0 a l e q) as (ok2 & q4 & H2)
    end.
    rewrite H2. cbn [prepend].
    match goal with
    | |- context [stm32l_add_eeprom T ?t0 ?a ?l] =>
        destruct (add_eeprom_run t0 a l q4) as (ok3 & q5 & H3)
    end.
    rewrite (bind_done _ _ _ _ _ _ H3). cbn [ret prepend].
    split; [intros H; discriminate H | intros _].
    split; [reflexivity |].
    split; [destruct ok1, ok2, ok3; reflexivity |].
    split; [destruct ok1, ok2, ok3; reflexivity |].
    split; [destruct ok1, ok2, ok3; reflexivity |].
    exists kib, [ok1; ok2; ok3].
    split; [exact Hkib |]. split; [reflexivity |].
    split; [| exact Hlayout].
    intros Hall. cbn [forallb] in Hall. rewrite !andb_true_iff in Hall.
    destruct Hall as (-> & -> & -> & _).
    cbn [flash target_add_flash]. rewrite <- !app_assoc. reflexivity.
  - (* categories 1, 2 and 3: one bank *)
    match goal with
    | |- context [stm32l_add_flash T ?t0 ?a ?l ?e] =>
        destruct (add_flash_run t0 a l e q2) as (ok1 & q3 & H1)
    end.
    unfold bind at 1. rewrite H1. cbn [prepend].
    match goal with
    | |- context [stm32l_add_eeprom T ?t0 ?a ?l] =>
        destruct (add_eeprom_run t0 a l q3) as (ok3 & q5 & H3)
    end.
    rewrite (bind_done _ _ _ _ _ _ H3). cbn [ret prepend].
    split; [intros H; discriminate H | intros _].
    split; [reflexivity |].
    split; [destruct ok1, ok3; reflexivity |].
    split; [destruct ok1, ok3; reflexivity |].
    split; [destruct ok1, ok3; reflexivity |].
    exists kib, [ok1; ok3].
    split; [exact Hkib |]. split; [reflexivity |].
    split; [| exact Hlayout].
    intros Hall. cbn [forallb] in Hall. rewrite !andb_true_iff in Hall.
    destruct Hall as (-> & -> & _).
    cbn [flash target_add_flash]. rewrite <- !app_assoc. reflexivity.
Qed.

(** X12.  [stm32l0_attach] returns what [cortexm_attach] returned, and
    writes the debug configuration (the same two writes as the probe) exactly
    when the attach succeeded. *)
Theorem stm32l0_attach_result :
  forall (t : target) (p : P),
  exists (ok : bool) p',
    stm32l0_attach T t p
    = Done ok p' (CortexmAttach ok :: (if ok then dbgmcu_events else [])).
Proof.
  intros t p. unfold stm32l0_attach.
  unfold bind at 1. unfold cortexm_attach at 1.
  destruct (attach T p) as [ok p1]. exists ok.
  destruct ok; cbn [negb prepend].
  - destruct (configure_dbgmcu_run p1) as (p2 & Hcfg).
    rewrite (bind_done _ _ _ _ _ _ Hcfg). exists p2. cbn [ret prepend].
    rewrite app_nil_r. reflexivity.
  - exists p1. reflexivity.
Qed.

(** X13.  Attaching to a protected device is a one-shot notice: the first
    attach prints the hint about the mass erase and succeeds without a single
    call to the platform, and changes nothing of the target but its attach
    routine, so that the next attach is a plain [cortexm_attach] while
    [mass_erase] is still the option-wipe recovery. *)
Theorem protected_attach_once :
  forall (t : target) (p : P),
    attach_op t = Some stm32lx_protected_attach_fn ->
    exists t1,
      attach_call T t p
      = Done (true, t1) p
          [Printf
             "Attached in protected mode, please issue 'monitor erase_mass' to regain chip access\n"
             []] /\
      attach_op t1 = Some cortexm_attach_fn /\
      mass_erase t1 = mass_erase t /\ flash t1 = flash t /\
      part_id t1 = part_id t /\ driver t1 = driver t /\
      detach_op t1 = detach_op t /\ ram t1 = ram t /\ commands t1 = commands t /\
      target_storage t1 = target_storage t /\ inhibit_nrst t1 = inhibit_nrst t /\
      (exists ok p', attach_call T t1 p = Done (ok, t1) p' [CortexmAttach ok]).
Proof.
  intros t p Hop. exists (set_attach t cortexm_attach_fn).
  unfold attach_call. rewrite Hop. cbn [attach_op set_attach].
  repeat split.
  unfold bind, cortexm_attach, ret. destruct (attach T p) as [ok p'].
  exists ok, p'. reflexivity.
Qed.
End Probes.

(** ** The LPC546xx driver *)

Section Lpc546xxMore.
Context {P : Type} (T : platform P).

Lemma lpc546xx_flash_init_run p :
  exists ok wdt_mode p',
    lpc546xx_flash_init T p = Done true p' (lpc546xx_init_events ok wdt_mode).
Proof.
  unfold lpc546xx_flash_init.
  destruct (reset_attach_run T p) as (ok & p3 & Hra).
  rewrite (bind_done _ _ _ _ _ _ Hra).
  unfold lpc546xx_wdt_set_period.
  destruct (read32_run T LPC546XX_WDT_MODE p3) as (v & p4 & _ & Hr).
  unfold bind at 1. unfold bind at 1. rewrite Hr. cbn [prepend].
  exists ok, v. unfold lpc546xx_init_events.
  assert (Hclocks : forall q,
             exists q',
               (target_mem32_write32 T LPC546XX_MAINCLKSELA 0 ;;
                target_mem32_write32 T LPC546XX_MAINCLKSELB 0 ;;
                target_mem32_write32 T LPC546XX_AHBCLKDIV 0 ;;
                target_mem32_write32 T LPC546XX_FLASHCFG 0x1a ;;
                ret true) q
               = Done true q' [Write32 LPC546XX_MAINCLKSELA 0;
                               Write32 LPC546XX_MAINCLKSELB 0;
                               Write32 LPC546XX_AHBCLKDIV 0;
                               Write32 LPC546XX_FLASHCFG 0x1a]).
  { intros q.
    destruct (write32_run T LPC546XX_MAINCLKSELA 0 q) as (e1 & q1 & H1).
    rewrite (bind_done _ _ _ _ _ _ H1).
    destruct (write32_run T LPC546XX_MAINCLKSELB 0 q1) as (e2 & q2 & H2).
    rewrite (bind_done _ _ _ _ _ _ H2).
    destruct (write32_run T LPC546XX_AHBCLKDIV 0 q2) as (e3 & q3 & H3).
    rewrite (bind_done _ _ _ _ _ _ H3).
    destruct (write32_run T LPC546XX_FLASHCFG 0x1a q3) as (e4 & q4 & H4).
    rewrite (bind_done _ _ _ _ _ _ H4).
    exists q4. reflexivity. }
  destruct (negb (v =? 0) && (Z.land v LPC546XX_WDT_PROTECT =? 0)).
  - destruct (write32_run T LPC546XX_WDT_CNT LPC546XX_WDT_PERIOD_MAX p4)
      as (e0 & p5 & H0).
    rewrite (bind_done _ _ _ _ _ _ H0). cbn [ret prepend].
    destruct (Hclocks p5) as (p6 & Hc). rewrite Hc. exists p6. reflexivity.
  - cbn [ret prepend].
    destruct (Hclocks p4) as (p6 & Hc). rewrite Hc. exists p6. reflexivity.
Qed.

(** The calls and the result of an LPC546xx erase. *)
Lemma lpc546xx_flash_erase_run :
  forall (addr len : Z) (p : P),
  exists ok wdt_mode rom_ok p',
    lpc546xx_flash_erase T addr len p
    = Done rom_ok p' (lpc546xx_init_events ok wdt_mode
                      ++ [LpcFlashErase addr len rom_ok]).
Proof.
  intros addr len p. unfold lpc546xx_flash_erase.
  destruct (lpc546xx_flash_init_run p) as (ok & wdt & p1 & Hinit).
  rewrite (bind_done _ _ _ _ _ _ Hinit). cbn [negb].
  unfold lpc_flash_erase. destruct (flash_erase_rom T addr len p1) as [r p2].
  exists ok, wdt, r, p2. reflexivity.
Qed.

(** X14.  Every LPC546xx erase first runs the whole initialisation: the
    reset/attach sequence, the watchdog check (the period is stretched to its
    maximum exactly when the watchdog runs and is not protected; it is never
    fed here), and the four clock and flash configuration writes.  The
    initialisation does not depend on the attach having succeeded, and the
    result of the erase is the result of the ROM routine, called once with
    the address and the length as given. *)
Theorem lpc546xx_flash_erase_sequence :
  forall (addr len : Z) (p : P),
  exists ok wdt_mode rom_ok p',
    lpc546xx_flash_erase T addr len p
    = Done rom_ok p' (lpc546xx_init_events ok wdt_mode
                      ++ [LpcFlashErase addr len rom_ok]).
Proof. exact lpc546xx_flash_erase_run. Qed.

Lemma sector_pattern_length n : List.length (sector_pattern n) = Z.to_nat n.
Proof. unfold sector_pattern. rewrite length_map, length_seq. reflexivity. Qed.

Lemma sector_pattern_nth n i :
  (i < Z.to_nat n)%nat -> nth i (sector_pattern n) 0 = Z.of_nat i mod 256.
Proof.
  intros Hi. unfold sector_pattern.
  rewrite (nth_indep _ 0 (Z.land (Z.of_nat 0) 0xff))
    by (rewrite length_map, length_seq; exact Hi).
  rewrite (map_nth (fun i => Z.land (Z.of_nat i) 0xff)), seq_nth by exact Hi.
  cbn [Nat.add]. change 0xff with (Z.ones 8).
  rewrite Z.land_ones by lia. reflexivity.
Qed.

(** X15.  With a sector argument, [erase_sector] erases one byte's worth at
    the sector index times the sector size (reduced to 32 bits; the index is
    not checked against the region) and returns the result of that erase.
    [write_sector] erases the same way; if the erase fails it returns failure
    without allocating or writing; otherwise it writes, at the sector
    address, a buffer of one sector whose byte [i] is [i mod 256], and returns
    the result of that write. *)
Theorem sector_commands_with_argument :
  forall (t : target) (f : target_flash) (rest : list target_flash) (argc : Z)
         (argv : list string) (p : P),
    flash t = f :: rest -> 1 < argc ->
    let index := wrap32 (strtoul T (argv_at argv 1)) in
    let addr_e := wrap32 (index * blocksize f) in
    let size := wrap32 (blocksize f) in
    let addr_w := wrap32 (index * size) in
    (exists ok wdt_mode rom_ok p',
        lpc546xx_cmd_erase_sector T t argc argv p
        = Done rom_ok p' (lpc546xx_init_events ok wdt_mode
                          ++ [LpcFlashErase addr_e 1 rom_ok])) /\
    (exists ok wdt_mode,
        match lpc546xx_cmd_write_sector T t argc argv p with
        | Done b _ tr =>
            (b = false /\
             tr = lpc546xx_init_events ok wdt_mode ++ [LpcFlashErase addr_w 1 false])
            \/
            (exists alloc,
                (alloc = true \/ size <= 0) /\
                tr = lpc546xx_init_events ok wdt_mode
                     ++ [LpcFlashErase addr_w 1 true; Calloc alloc;
                         LpcFlashWriteMagicVect addr_w (sector_pattern size) b])
        | Stop s _ tr =>
            s = NullDeref /\ 0 < size /\
            tr = lpc546xx_init_events ok wdt_mode
                 ++ [LpcFlashErase addr_w 1 true; Calloc false]
        end) /\
    List.length (sector_pattern size) = Z.to_nat size /\
    (forall i, (i < Z.to_nat size)%nat ->
               nth i (sector_pattern size) 0 = Z.of_nat i mod 256).
Proof.
  intros t f rest argc argv p Hf Hargc index addr_e size addr_w.
  assert (Hlt : (1 <? argc) = true) by (apply Z.ltb_lt; exact Hargc).
  split; [| split; [| split]].
  - unfold lpc546xx_cmd_erase_sector, first_flash. rewrite Hlt, Hf.
    unfold bind at 1. unfold ret at 1. cbn [prepend].
    destruct (lpc546xx_flash_erase_run addr_e 1 p) as (ok & wdt & r & p' & He).
    exists ok, wdt, r, p'. fold index. fold addr_e. rewrite He. reflexivity.
  - unfold lpc546xx_cmd_write_sector, first_flash. rewrite Hlt, Hf.
    unfold bind at 1. unfold ret at 1. cbn [prepend].
    fold size. fold index. fold addr_w.
    destruct (lpc546xx_flash_erase_run addr_w 1 p) as (ok & wdt & r & p1 & He).
    rewrite (bind_done _ _ _ _ _ _ He). exists ok, wdt.
    destruct r; cbn [negb].
    + unfold bind at 1. unfold do_calloc at 1.
      destruct (calloc T p1) as [al p2]. cbn [prepend].
      destruct (negb al && (0 <? size)) eqn:Hnull.
      * apply andb_true_iff in Hnull. destruct Hnull as (Hal & Hsz).
        apply negb_true_iff in Hal. subst al. apply Z.ltb_lt in Hsz.
        cbn [halt prepend]. split; [reflexivity |]. split; [exact Hsz |].
        rewrite app_nil_r, <- app_assoc. reflexivity.
      * unfold lpc_flash_write_magic_vect.
        destruct (flash_write_magic_vect_rom T addr_w (sector_pattern size) p2)
          as [b p3].
        cbn [prepend]. right. exists al. split.
        { apply andb_false_iff in Hnull. destruct Hnull as [Hal | Hsz].
          - left. apply negb_false_iff in Hal. exact Hal.
          - right. apply Z.ltb_ge in Hsz. exact Hsz. }
        rewrite <- !app_assoc. reflexivity.
    + cbn [ret prepend]. left. split; [reflexivity |].
      rewrite app_nil_r. reflexivity.
  - apply sector_pattern_length.
  - intros i Hi. apply sector_pattern_nth. exact Hi.
Qed.

(** X16.  [lpc546xx_probe] reads the chip id once.  An id that is not in
    its table leaves the target untouched.  For a known id it adds one region
    starting at 0 whose length is a whole number of 32 KiB sectors (256 KiB for
    the parts whose name ends in J256, 512 KiB for those ending in J512),
    names the driver after the part, installs its mass erase and inhibits the
    reset line. *)
Theorem lpc546xx_probe_result :
  forall (t : target) (p : P),
  exists chipid p',
    (lpc546xx_part chipid = None /\
     lpc546xx_probe T t p = Done (false, t) p' [Read32 LPC546XX_CHIPID chipid])
    \/
    (exists name size t',
        lpc546xx_part chipid = Some (name, size) /\
        lpc546xx_probe T t p = Done (true, t') p' [Read32 LPC546XX_CHIPID chipid] /\
        flash t' = flash t ++ [lpc546xx_region size] /\
        driver t' = name /\
        mass_erase t' = Some lpc546xx_mass_erase_fn /\
        inhibit_nrst t' = true /\
        size mod 0x8000 = 0 /\
        ((substring 8 4 name = "J256"%string /\ size = 0x40000) \/
         (substring 8 4 name = "J512"%string /\ size = 0x80000))).
Proof.
  intros t p. unfold lpc546xx_probe.
  destruct (read32_run T LPC546XX_CHIPID p) as (chipid & p1 & _ & Hr).
  rewrite (bind_done _ _ _ _ _ _ Hr). exists chipid, p1.
  destruct (lpc546xx_part chipid) as [[name size] |] eqn:Hpart.
  - right. eexists name, size, _. split; [reflexivity |].
    split; [cbn [ret prepend]; reflexivity |].
    cbn [flash driver mass_erase inhibit_nrst set_inhibit_nrst target_add_commands
           target_add_ram32 lpc546xx_add_flash target_add_flash set_mass_erase
           set_driver].
    repeat (split; [reflexivity |]).
    unfold lpc546xx_part in Hpart.
    repeat match type of Hpart with
           | (if ?c then _ else _) = _ =>
               destruct c;
               [injection Hpart as <- <-;
                split; [reflexivity | first [left; split; reflexivity
                                            | right; split; reflexivity]] |]
           end.
    discriminate Hpart.
  - left. split; [reflexivity |]. reflexivity.
Qed.
End Lpc546xxMore.

(** ** Command words, option words and the mass erase *)

Lemma tolower_nul c : Ascii.eqb (tolower c) NUL = Ascii.eqb c NUL.
Proof. destruct c as [[] [] [] [] [] [] [] []]; reflexivity. Qed.

Lemma char_diff_zero a b :
  (Z.of_nat (nat_of_ascii a) - Z.of_nat (nat_of_ascii b) =? 0) = Ascii.eqb a b.
Proof.
  destruct (Ascii.eqb_spec a b) as [-> | Hne].
  - rewrite Z.sub_diag. reflexivity.
  - apply Z.eqb_neq. intros H. apply Hne.
    rewrite <- (ascii_nat_embedding a), <- (ascii_nat_embedding b).
    f_equal. lia.
Qed.

(** X17.  How the console commands match their command word: the word
    typed matches a command name exactly when, case being ignored, it is a
    prefix of the name.  Abbreviations are accepted, and so is the empty
    word, which matches every name. *)
Theorem cmd_is_prefix :
  forall (cmd name : string),
    has_nul cmd = false ->
    cmd_is cmd name = String.prefix (lower_str cmd) (lower_str name).
Proof.
  unfold cmd_is, strlen.
  induction cmd as [| c cmd IH]; intros name Hnul.
  - destruct name; reflexivity.
  - cbn [has_nul] in Hnul. apply orb_false_iff in Hnul. destruct Hnul as (Hc & Hrest).
    cbn [String.length strncasecmp head_char tail_str lower_str].
    rewrite char_diff_zero, tolower_nul, Hc.
    destruct name as [| b name]; cbn [head_char tail_str lower_str String.prefix].
    + assert (Hne : Ascii.eqb (tolower c) (tolower NUL) = false).
      { change (tolower NUL) with NUL. rewrite tolower_nul. exact Hc. }
      rewrite Hne. cbn [negb].
      rewrite <- char_diff_zero in Hne. rewrite Hne. reflexivity.
    + destruct (ascii_dec (tolower c) (tolower b)) as [E | N].
      * rewrite E, Ascii.eqb_refl. cbn [negb]. apply IH. exact Hrest.
      * apply Ascii.eqb_neq in N. rewrite N. cbn [negb].
        rewrite <- char_diff_zero in N. rewrite N. reflexivity.
Qed.

Lemma halves_determine w1 w2 :
  0 <= w1 < 2 ^ 32 -> 0 <= w2 < 2 ^ 32 ->
  Z.land w1 0xffff = Z.land w2 0xffff ->
  Z.land (Z.shiftr w1 16) 0xffff = Z.land (Z.shiftr w2 16) 0xffff ->
  w1 = w2.
Proof.
  intros H1 H2 Hlo Hhi.
  change 0xffff with (Z.ones 16) in *.
  rewrite !Z.land_ones, !Z.shiftr_div_pow2 in * by lia.
  assert (Hd1 : 0 <= w1 / 2 ^ 16 < 2 ^ 16)
    by (split; [apply Z.div_pos; lia | apply Z.div_lt_upper_bound; lia]).
  assert (Hd2 : 0 <= w2 / 2 ^ 16 < 2 ^ 16)
    by (split; [apply Z.div_pos; lia | apply Z.div_lt_upper_bound; lia]).
  rewrite !Z.mod_small in Hhi by assumption.
  rewrite (Z.div_mod w1 (2 ^ 16)), (Z.div_mod w2 (2 ^ 16)) by lia.
  rewrite Hlo, Hhi. reflexivity.
Qed.

(** X18.  The words the report marks OK are exactly the fixed points of the
    encoding: a 32-bit word passes the check if and only if encoding it gives
    it back.  The encoding only looks at the low half of its argument, so
    encoding twice is encoding once. *)
Theorem option_word_fixed_points :
  forall (w : Z),
    0 <= w < 2 ^ 32 ->
    (option_word_ok w = true <-> option_word w = w) /\
    option_word (Z.land w 0xffff) = option_word w /\
    option_word (option_word w) = option_word w.
Proof.
  intros w Hw.
  assert (Henc : forall v, 0 <= v < 2 ^ 32 -> 0 <= option_word v < 2 ^ 32).
  { intros v Hv. rewrite <- (option_word_wrap v Hv). apply wrap32_range. }
  assert (Hok : forall v, 0 <= v < 2 ^ 32 -> option_word_ok (option_word v) = true).
  { intros v Hv. apply option_word_ok_iff; [apply Henc; exact Hv |].
    rewrite option_word_high, option_word_low by exact Hv. reflexivity. }
  assert (Hlow : forall v1 v2,
             0 <= v1 < 2 ^ 32 -> 0 <= v2 < 2 ^ 32 ->
             Z.land v1 0xffff = Z.land v2 0xffff -> option_word v1 = option_word v2).
  { intros v1 v2 Hv1 Hv2 Hl.
    apply halves_determine; try (apply Henc; assumption).
    - rewrite !option_word_low by assumption. exact Hl.
    - rewrite !option_word_high by assumption. rewrite Hl. reflexivity. }
  split; [| split].
  - split.
    + intros H. apply option_word_ok_iff in H; [| exact Hw].
      apply halves_determine; [apply Henc; exact Hw | exact Hw | |].
      * apply option_word_low; exact Hw.
      * rewrite option_word_high by exact Hw. symmetry. exact H.
    + intros H. rewrite <- H. apply Hok. exact Hw.
  - apply Hlow; [| exact Hw |].
    + change 0xffff with (Z.ones 16). rewrite Z.land_ones by lia.
      pose proof (Z.mod_pos_bound w (2 ^ 16) ltac:(lia)). lia.
    + rewrite <- Z.land_assoc, Z.land_diag. reflexivity.
  - apply Hlow; [apply Henc; exact Hw | exact Hw |].
    apply option_word_low; exact Hw.
Qed.

Section MassEraseOrder.
Context {P : Type} (T : platform P).

(** X19.  [stm32lx_mass_erase] goes through the regions of the target in
    list order and erases each one whole with [stm32lx_flash_erase] (the
    EEPROM region included: the region's own erase function is not used).  It
    reports success exactly when every one of these erases reported success;
    at the first erase that fails, or does not return, it stops, leaving the
    regions after it untouched. *)
Theorem stm32lx_mass_erase_in_order :
  forall (fuel : nat) (t : target) (p : P),
    match stm32lx_mass_erase T fuel t p with
    | Done true p' tr => erase_chain T fuel t (flash t) p p' tr
    | Done false p' tr =>
        exists before f after p1 tr1 tr2,
          flash t = before ++ f :: after /\
          erase_chain T fuel t before p p1 tr1 /\
          stm32lx_flash_erase T fuel t f (start f) (length f) p1 = Done false p' tr2 /\
          tr = tr1 ++ tr2
    | Stop s p' tr =>
        exists before f after p1 tr1 tr2,
          flash t = before ++ f :: after /\
          erase_chain T fuel t before p p1 tr1 /\
          stm32lx_flash_erase T fuel t f (start f) (length f) p1 = Stop s p' tr2 /\
          tr = tr1 ++ tr2
    end.
Proof.
  intros fuel t p. unfold stm32lx_mass_erase.
  apply stm32lx_mass_erase_regions_run.
Qed.
End MassEraseOrder.

(** ** Concrete runs for the further properties *)

(** X2, witness: the erase of two pages of an STM32L1. *)
Lemma flash_erase_sequence_witness :
  (0 < blocksize stm32l1_region /\ 0x200 + blocksize stm32l1_region <= 2 ^ 32) /\
  exists u rest,
    trace (stm32lx_flash_erase sim_platform 8 stm32l1_open stm32l1_region
             STM32Lx_FLASH_BANK_BASE 0x200 (device [0; 0x208]))
    = prog_unlock_events (stm32lx_flash_base stm32l1_open) u ++ rest.
Proof.
  assert (H1 : 0 < blocksize stm32l1_region) by reflexivity.
  assert (H2 : 0 <= 0x200) by (vm_compute; discriminate).
  assert (H3 : 0x200 + blocksize stm32l1_region <= 2 ^ 32) by (vm_compute; discriminate).
  assert (H4 : (block_count 0x200 (blocksize stm32l1_region) < 8)%nat)
    by (vm_compute; lia).
  split; [split; assumption |].
  destruct (flash_erase_sequence sim_platform 8 stm32l1_open stm32l1_region
              STM32Lx_FLASH_BANK_BASE 0x200 (device [0; 0x208]) H1 H2 H3 H4)
    as (u & [(_ & _ & H) | (_ & v & [(_ & _ & H) | (_ & q & _ & H)])]);
    rewrite H; eexists; eexists; reflexivity.
Defined.

(** X3, witness: that erase reports success. *)
Lemma region_operation_success_witness :
  returned (stm32lx_flash_erase sim_platform 8 stm32l1_open stm32l1_region
              STM32Lx_FLASH_BANK_BASE 0x200 (device [0; 0x208])) = Some true /\
  relocks (stm32lx_flash_base stm32l1_open)
    (trace (stm32lx_flash_erase sim_platform 8 stm32l1_open stm32l1_region
              STM32Lx_FLASH_BANK_BASE 0x200 (device [0; 0x208]))) = true.
Proof.
  split; [reflexivity |].
  exact (proj2 (proj1 (region_operation_success sim_platform 8 stm32l1_open
                         stm32l1_region STM32Lx_FLASH_BANK_BASE 0x200 counting_buf
                         (device [0; 0x208])) eq_refl)).
Defined.

(** X6, witness: an empty command word selects the byte write. *)
Lemma eeprom_command_write_witness :
  eeprom_accepts stm32l07x EmptyString 0x08080001 = Some 1 /\
  exists u rest,
    trace (stm32lx_cmd_eeprom sim_platform 4 stm32l07x 4
             ["eeprom"%string; EmptyString; "0x08080001"%string; "0x1234"%string]
             (device [0]))
    = prog_unlock_events (stm32lx_flash_base stm32l07x) u ++ rest.
Proof.
  split; [reflexivity |].
  destruct (eeprom_command_write sim_platform 4 stm32l07x "eeprom" EmptyString
              "0x08080001" "0x1234" 1 (device [0]) eq_refl eq_refl)
    as (u & q & [(_ & _ & H) | [(_ & _ & H) | (_ & _ & H)]]);
    rewrite H; eexists; eexists; reflexivity.
Defined.

(** X8, witness: an option write to a misaligned address. *)
Lemma option_command_rejections_witness :
  option_rejects stm32l1_open 4 "write" 0x1ff80002 BadAddress = true /\
  returned (stm32lx_cmd_option sim_platform 4 stm32l1_open 4
              ["option"; "write"; "0x1ff80002"; "0x12aa"]%string (device [0]))
  = Some true.
Proof.
  split; [reflexivity |].
  destruct (option_command_rejections sim_platform 4 stm32l1_open 4
              ["option"; "write"; "0x1ff80002"; "0x12aa"]%string BadAddress
              (device [0]) eq_refl eq_refl) as (u & p' & H).
  rewrite H. reflexivity.
Defined.


(** X13, witness: the protected STM32L1. *)
Lemma protected_attach_once_witness :
  attach_op stm32l1_protected = Some stm32lx_protected_attach_fn /\
  exists t1,
    attach_op t1 = Some cortexm_attach_fn /\
    mass_erase t1 = mass_erase stm32l1_protected.
Proof.
  split; [reflexivity |].
  destruct (protected_attach_once sim_platform stm32l1_protected (device []) eq_refl)
    as (t1 & _ & Ha & Hm & _).
  exists t1. split; assumption.
Defined.

(** X15, witness: [erase_sector 3] on an LPC54605J256. *)
Lemma sector_commands_with_argument_witness :
  flash lpc54605 = [lpc546xx_region 0x40000] /\
  List.length (sector_pattern (wrap32 (blocksize (lpc546xx_region 0x40000))))
  = Z.to_nat (wrap32 (blocksize (lpc546xx_region 0x40000))).
Proof.
  split; [reflexivity |].
  assert (H1 : 1 < 2) by reflexivity.
  exact (proj1 (proj2 (proj2
           (sector_commands_with_argument sim_platform lpc54605
              (lpc546xx_region 0x40000) [] 2 ["erase_sector"; "3"]%string
              (device []) eq_refl H1)))).
Defined.

(** X17, witness: [HALF] is accepted for [halfword]. *)
Lemma cmd_is_prefix_witness :
  has_nul "HALF" = false /\
  cmd_is "HALF" "halfword"
  = String.prefix (lower_str "HALF") (lower_str "halfword").
Proof.
  split; [reflexivity |].
  exact (cmd_is_prefix "HALF" "halfword" eq_refl).
Defined.

(** X18, witness: the word 0xed5512aa. *)
Lemma option_word_fixed_points_witness :
  0 <= 0xed5512aa < 2 ^ 32 /\
  option_word (option_word 0xed5512aa) = option_word 0xed5512aa.
Proof.
  assert (H : 0 <= 0xed5512aa < 2 ^ 32)
    by (vm_compute; split; [discriminate | reflexivity]).
  split; [exact H |].
  exact (proj2 (proj2 (option_word_fixed_points 0xed5512aa H))).
Defined.

